(** * logmi-app: redirect resolution, click capture and statistics

    A shallow embedding of the Django back end of logmi-app
    ([backend/app_tinyurl] and [backend/app_linktree]) and the
    properties of its redirect, click-recording, allocation and
    aggregation code.

    Conventions of the embedding.
    - A Python [str] is a [string]: its UTF-8 encoding, so that ASCII
      text is itself.  Comparison, membership, [split] and percent-encoding
      are exact on every text; [str.lower], [str.strip], [int] and [len]
      are those of Python on ASCII text (other characters are left alone
      and count one per byte), and a statement that depends on them says
      which texts are ASCII.
    - A Python [int] is a [Z]; a timestamp is a number of seconds since the
      epoch, so that [timedelta(days=d)] is [d * 86400].
    - A database table is the list of its rows in insertion order; a
      queryset is a list of rows.  Grouping keeps the order in which the
      groups first occur and sorting is stable, where SQL leaves the order
      of equal rows open.
    - Code that raises, touches the database, draws random numbers or calls
      the network runs in the monad [M]: a state ([World]) and a result that
      is either a raised exception or a value.  Every query, insert and
      outbound HTTP request is appended to the [effects] log of the world.
    - Third-party behaviour the code depends on (the [user_agents] parser,
      the geo-IP service reached through [requests], the clock, [uuid4],
      the scheme [urllib.parse] finds in a URL) is a field of [Env]; the
      theorems quantify over every [Env].
    - The database does what it is asked: an insert fails only on the
      unique constraint of [Url.short_code].  A response is built the way
      Django builds it: a redirect carries the [Location] header Django
      writes and is refused for a scheme Django does not allow, a header
      value with a line break is refused and one outside Latin-1 is
      MIME-encoded. *)

From Stdlib Require Import ZArith Ascii String List Bool Lia.
From stdpp Require Import base list strings pretty gmap.

Open Scope string_scope.
Open Scope Z_scope.

(** ** Python values and exceptions *)

(** One error of a serializer field: the code of the validator that
    raised it, or the message of a [validate_<field>] hook. *)
Inductive ErrorDetail : Type :=
  | Unique
  | MaxLength
  | NullCharacters
  | Message (text : string).

#[global] Instance ErrorDetail_eq_dec : EqDecision ErrorDetail.
Proof. solve_decision. Defined.

(** [FieldErrors] is the [ValidationError] of [is_valid]: the errors of
    one field of the request. *)
Inductive exn : Type :=
  | ValueError
  | OverflowError
  | AttributeError
  | DoesNotExist
  | MultipleObjectsReturned
  | DjangoValidationError
  | ValidationError (detail : string)
  | FieldErrors (field : string) (details : list ErrorDetail)
  | DisallowedRedirect
  | BadHeaderError
  | ConnectTimeout
  | ReadTimeout
  | ConnectionError
  | JSONDecodeError
  | OtherException (name : string).

(** What a JSON document or a keyword argument can hold; [PyOther] carries
    the [str()] of a value of any other type (float, list, dict). *)
Inductive pyval : Type :=
  | PyNone
  | PyStr (s : string)
  | PyInt (z : Z)
  | PyBool (b : bool)
  | PyOther (repr : string).

#[global] Instance exn_eq_dec : EqDecision exn.
Proof. solve_decision. Defined.

#[global] Instance pyval_eq_dec : EqDecision pyval.
Proof. solve_decision. Defined.

Module Py.

Definition code (c : ascii) : nat := nat_of_ascii c.

Definition is_upper (c : ascii) : bool :=
  ((65 <=? code c) && (code c <=? 90))%nat.

Definition is_digit (c : ascii) : bool :=
  ((48 <=? code c) && (code c <=? 57))%nat.

(** The characters [str.strip()] removes, in the ASCII range. *)
Definition is_whitespace (c : ascii) : bool :=
  (((9 <=? code c) && (code c <=? 13))
   || ((28 <=? code c) && (code c <=? 32)))%nat.

(** The characters [int] skips around a number in ASCII text: the white
    space of C.  The separators U+001C to U+001F, which [str.strip]
    removes, are not among them. *)
Definition is_int_space (c : ascii) : bool :=
  (((9 <=? code c) && (code c <=? 13)) || (code c =? 32))%nat.

Definition is_ascii (c : ascii) : bool := (code c <? 128)%nat.

Definition is_alnum (c : ascii) : bool :=
  (((48 <=? code c) && (code c <=? 57))
   || ((65 <=? code c) && (code c <=? 90))
   || ((97 <=? code c) && (code c <=? 122)))%nat.

Definition lower_char (c : ascii) : ascii :=
  if is_upper c then ascii_of_nat (code c + 32) else c.

(** [s.lower()] *)
Fixpoint lower (s : string) : string :=
  match s with
  | EmptyString => EmptyString
  | String c r => String (lower_char c) (lower r)
  end.

(** [s.lstrip()] *)
Fixpoint lstrip (s : string) : string :=
  match s with
  | EmptyString => EmptyString
  | String c r => if is_whitespace c then lstrip r else s
  end.

(** [s.rstrip()] *)
Fixpoint rstrip (s : string) : string :=
  match s with
  | EmptyString => EmptyString
  | String c r =>
      match rstrip r with
      | EmptyString => if is_whitespace c then EmptyString else String c EmptyString
      | r' => String c r'
      end
  end.

(** [s.strip()] *)
Definition strip (s : string) : string := rstrip (lstrip s).

(** [s.rstrip(ch)] for a one-character argument *)
Fixpoint rstrip_char (ch : ascii) (s : string) : string :=
  match s with
  | EmptyString => EmptyString
  | String c r =>
      match rstrip_char ch r with
      | EmptyString => if Ascii.eqb c ch then EmptyString else String c EmptyString
      | r' => String c r'
      end
  end.

(** [s.split(sep)[0]] for a one-character separator: the text before the
    first separator, the whole string when there is none. *)
Fixpoint split_first (sep : ascii) (s : string) : string :=
  match s with
  | EmptyString => EmptyString
  | String c r => if Ascii.eqb c sep then EmptyString else String c (split_first sep r)
  end.

(** [c in s] for a character [c] *)
Fixpoint char_in (c : ascii) (s : string) : bool :=
  match s with
  | EmptyString => false
  | String d r => Ascii.eqb c d || char_in c r
  end.

(** [''.join(c for c in s if keep(c))] *)
Fixpoint filter_chars (keep : ascii -> bool) (s : string) : string :=
  match s with
  | EmptyString => EmptyString
  | String c r => if keep c then String c (filter_chars keep r) else filter_chars keep r
  end.

(** [s[i]] for an index in range, with a default out of range *)
Fixpoint char_at (s : string) (i : nat) : ascii :=
  match s, i with
  | EmptyString, _ => "000"%char
  | String c _, O => c
  | String _ r, S j => char_at r j
  end.

(** [x in xs] for a list of strings *)
Definition str_in (x : string) (xs : list string) : bool :=
  existsb (String.eqb x) xs.

(** The digits of a decimal literal: digits, with single underscores
    allowed between two digits.  [seen] tells whether the previous
    character was a digit. *)
Fixpoint digits (acc : Z) (seen : bool) (s : string) : option Z :=
  match s with
  | EmptyString => if seen then Some acc else None
  | String c r =>
      if is_digit c then digits (acc * 10 + Z.of_nat (code c - 48)) true r
      else if Ascii.eqb c "_" && seen then digits acc false r
      else None
  end.

(** The number of digits of a literal, underscores apart. *)
Fixpoint count_digits (s : string) : nat :=
  match s with
  | EmptyString => O
  | String c r => if is_digit c then S (count_digits r) else count_digits r
  end.

(** [sys.get_int_max_str_digits()], at its default. *)
Definition int_max_str_digits : nat := 4300.

(** A run of digits under a sign; a literal of more digits than the
    interpreter converts is refused. *)
Definition literal (sign : Z) (s : string) : exn + Z :=
  match digits 0 false s with
  | Some z => if (int_max_str_digits <? count_digits s)%nat then inl ValueError
              else inr (sign * z)
  | None => inl ValueError
  end.

(** What [int] skips at the front and at the end of its argument. *)
Fixpoint lstrip_int (s : string) : string :=
  match s with
  | EmptyString => EmptyString
  | String c r => if is_int_space c then lstrip_int r else s
  end.

Fixpoint rstrip_int (s : string) : string :=
  match s with
  | EmptyString => EmptyString
  | String c r =>
      match rstrip_int r with
      | EmptyString => if is_int_space c then EmptyString else String c EmptyString
      | r' => String c r'
      end
  end.

(** [int(s)] for a string of ASCII text: white space around the number
    is skipped, one sign is accepted, and then only digits may follow,
    with single underscores between them; anything else raises
    [ValueError]. *)
Definition int_of_str (s : string) : exn + Z :=
  match rstrip_int (lstrip_int s) with
  | EmptyString => inl ValueError
  | String c r =>
      if Ascii.eqb c "-" then literal (-1) r
      else if Ascii.eqb c "+" then literal 1 r
      else literal 1 (String c r)
  end.

(** [int(v)] for the values a query parameter lookup with an integer
    default can return. *)
Definition int (v : pyval) : exn + Z :=
  match v with
  | PyInt z => inr z
  | PyBool b => inr (if b then 1 else 0)
  | PyStr s => int_of_str s
  | PyNone | PyOther _ => inl (OtherException "TypeError")
  end.

(** [str(v)] *)
Definition str (v : pyval) : string :=
  match v with
  | PyNone => "None"
  | PyStr s => s
  | PyInt z => pretty z
  | PyBool b => if b then "True" else "False"
  | PyOther r => r
  end.

(** Truthiness of an optional string: [None] and [''] are falsy. *)
Definition truthy (o : option string) : bool :=
  match o with
  | None | Some EmptyString => false
  | Some _ => true
  end.

End Py.

(** ** The state-and-exception monad of the request handlers *)

Inductive Effect : Type :=
  | SqlSelect (table : string)
  | SqlInsert (table : string)
  | SqlUpdate (table : string)
  | HttpGet (url : string) (timeout : Z).

#[global] Instance Effect_eq_dec : EqDecision Effect.
Proof. solve_decision. Defined.

Definition M (St A : Type) : Type := St -> (exn + A) * St.

Definition ret {St A} (a : A) : M St A := fun w => (inr a, w).

Definition raise {St A} (e : exn) : M St A := fun w => (inl e, w).

Definition bind {St A B} (m : M St A) (k : A -> M St B) : M St B :=
  fun w =>
    match m w with
    | (inl e, w') => (inl e, w')
    | (inr a, w') => k a w'
    end.

(** [try: m  except Exception as e: handler(e)].  What [m] did to the state
    before raising stays done. *)
Definition try_except {St A} (m : M St A) (handler : exn -> M St A) : M St A :=
  fun w =>
    match m w with
    | (inl e, w') => handler e w'
    | (inr a, w') => (inr a, w')
    end.

Definition lift {St A} (r : exn + A) : M St A := fun w => (r, w).

Declare Scope py_scope.
Delimit Scope py_scope with py.
Notation "x <- m ;; k" := (bind m (fun x => k))
  (at level 100, m at next level, right associativity) : py_scope.
Notation "m ;;; k" := (bind m (fun _ => k))
  (at level 100, right associativity) : py_scope.
Open Scope py_scope.

(** ** Models ([app_tinyurl/models.py], [app_linktree/models.py]) *)

Definition UUID : Type := N.

Module Url.
Record t : Type := Build {
  id : UUID;
  short_code : string;
  long_url : string;
  created_at : Z;
  updated_at : Z;
  is_active : bool
}.
End Url.

Module UrlStat.
Record t : Type := Build {
  id : UUID;
  url : UUID;                  (* foreign key to [Url.id] *)
  created_at : Z;
  via_qrcode : bool;
  device_type : string;
  city : option string;
  country : option string;
  ip_address : option string;
  user_agent : option string
}.
End UrlStat.

Module Link.
Record t : Type := Build {
  id : UUID;
  name : string;
  user : option Z;             (* foreign key to [auth.User] *)
  url : string;
  created_at : Z;
  updated_at : Z;
  is_active : bool;
  order : Z;
  icon : string
}.
End Link.

Module LinkStat.
Record t : Type := Build {
  id : UUID;
  link : UUID;                 (* foreign key to [Link.id] *)
  created_at : Z;
  via_qrcode : bool;
  device_type : string;
  city : option string;
  country : option string;
  ip_address : option string;
  user_agent : option string
}.
End LinkStat.

(** The four tables the core reads and writes, rows in insertion order. *)
Record Database : Type := mkDatabase {
  tinyurl_url : list Url.t;
  tinyurl_urlstat : list UrlStat.t;
  linktree_link : list Link.t;
  linktree_linkstat : list LinkStat.t
}.

(** ** Request, settings, environment and world *)

(** [GET] is a [QueryDict]: every key holds the list of its values.
    [META] is a plain dictionary. *)
Record HttpRequest : Type := mkRequest {
  GET : gmap string (list string);
  META : gmap string string
}.

(** [QueryDict.get(key, default)]: the last value of the key. *)
Definition QueryDict_get (q : gmap string (list string)) (key : string)
    (default : pyval) : pyval :=
  match q !! key with
  | Some vs => match last vs with Some v => PyStr v | None => default end
  | None => default
  end.

(** [QueryDict.get(key, '')] *)
Definition QueryDict_get_str (q : gmap string (list string)) (key : string) : string :=
  match q !! key with
  | Some vs => match last vs with Some v => v | None => "" end
  | None => ""
  end.

(** [django.conf.settings]; an optional setting is read with [getattr] and
    a default. *)
Record Settings : Type := mkSettings {
  TINYURL_RESERVED_PATHS : option (list string);
  REDIRECT_URL : string;
  IP_API : option string
}.

(** The object [user_agents.parse] returns; each property is computed on
    access and may raise. *)
Record UserAgent : Type := mkUserAgent {
  is_mobile : exn + bool;
  is_tablet : exn + bool;
  is_pc : exn + bool
}.

(** A decoded JSON body: an object (a Python dict), or any other document. *)
Inductive JsonDoc : Type :=
  | JsonObject (fields : list (string * pyval))
  | JsonOther.

(** A [requests.Response]: [json] is the outcome of [response.json()]. *)
Record Response : Type := mkResponse {
  status_code : Z;
  json : exn + JsonDoc
}.

Record Env : Type := mkEnv {
  settings : Settings;
  timezone_now : Z;                          (* [timezone.now()] *)
  utcoffset : Z -> Z;                        (* offset of the configured time zone at an instant *)
  uuid4 : UUID;                              (* the primary key drawn for a new row *)
  parse_user_agent : string -> exn + UserAgent;
  requests_get : string -> exn + Response;   (* what the network answers for a URL *)
  urlsplit_scheme : string -> option string  (* [urlsplit(url).scheme]; [None] when [urlsplit] raises [ValueError] *)
}.

Record World : Type := mkWorld {
  db : Database;
  effects : list Effect;
  rng : nat -> nat                           (* the numbers [random] has yet to draw *)
}.

Definition log (e : Effect) : M World unit :=
  fun w => (inr tt, mkWorld (db w) (effects w ++ [e]) (rng w)).

Definition read_db : M World Database := fun w => (inr (db w), w).

Definition write_db (d : Database) : M World unit :=
  fun w => (inr tt, mkWorld d (effects w) (rng w)).

(** One draw of [random]: the head of the stream, which then advances. *)
Definition draw : M World nat :=
  fun w => (inr (rng w O), mkWorld (db w) (effects w) (fun n => rng w (S n))).

(** ** [app_tinyurl/utils.py] *)

Module utils.

Definition ascii_letters : string :=
  "abcdefghijklmnopqrstuvwxyzABCDEFGHIJKLMNOPQRSTUVWXYZ".

Definition digits : string := "0123456789".

(** [chars] of [generate_short_code]. *)
Definition chars : string :=
  Py.filter_chars (fun c => negb (Py.char_in c "O0l1I")) (ascii_letters +:+ digits).

(** [random.choice(seq)] *)
Definition random_choice (seq : string) : M World ascii :=
  r <- draw ;; ret (Py.char_at seq (r mod String.length seq)%nat).

(** [''.join(random.choice(chars) for _ in range(length))] *)
Fixpoint generate_short_code (length : nat) : M World string :=
  match length with
  | O => ret EmptyString
  | S n =>
      c <- random_choice chars ;;
      rest <- generate_short_code n ;;
      ret (String c rest)
  end.

(** [generate_short_code()] with its default length. *)
Definition default_length : nat := 6.

Definition get_client_ip (request : HttpRequest) : option string :=
  let x_forwarded_for := META request !! "HTTP_X_FORWARDED_FOR" in
  if Py.truthy x_forwarded_for
  then Some (Py.strip (Py.split_first "," (default "" x_forwarded_for)))
  else META request !! "REMOTE_ADDR".

Definition get_device_type {St} (env : Env) (user_agent_string : string) : M St string :=
  if negb (Py.truthy (Some user_agent_string)) then ret "unknown"
  else
    try_except
      (user_agent <- lift (parse_user_agent env user_agent_string) ;;
       mobile <- lift (is_mobile user_agent) ;;
       if mobile then ret "mobile"
       else
         tablet <- lift (is_tablet user_agent) ;;
         if tablet then ret "tablet"
         else
           pc <- lift (is_pc user_agent) ;;
           if pc then ret "desktop" else ret "unknown")
      (fun _ => ret "unknown").

(** The dictionary [{'city': ..., 'country': ...}]. *)
Record Location : Type := mkLocation {
  city : pyval;
  country : pyval
}.

Definition no_location : Location := mkLocation PyNone PyNone.

(** [data.get(key)]: only a dict has [get]. *)
Definition data_get (data : JsonDoc) (key : string) : exn + pyval :=
  match data with
  | JsonObject fields =>
      match List.find (fun kv => String.eqb (fst kv) key) fields with
      | Some kv => inr (snd kv)
      | None => inr PyNone
      end
  | JsonOther => inl AttributeError
  end.

(** [requests.get(url, timeout=2, params=...)] *)
Definition requests_get_logged (env : Env) (url : string) (timeout : Z) : M World Response :=
  log (HttpGet url timeout) ;;; lift (requests_get env url).

Definition get_location_from_ip (env : Env) (ip : option string) : M World Location :=
  if negb (Py.truthy ip) || Py.str_in (default "" ip) ["127.0.0.1"; "localhost"; "::1"]
  then ret no_location
  else
    found <- try_except
      (let api_url := default "http://ip-api.com/json/" (IP_API (settings env)) in
       response <- requests_get_logged env
                     (Py.rstrip_char "/" api_url +:+ "/" +:+ default "" ip) 2 ;;
       if (status_code response =? 200)%Z then
         data <- lift (json response) ;;
         status <- lift (data_get data "status") ;;
         if decide (status = PyStr "success") then
           c <- lift (data_get data "city") ;;
           k <- lift (data_get data "country") ;;
           ret (Some (mkLocation c k))
         else ret None
       else ret None)
      (fun _ => ret None) ;;
    match found with
    | Some location => ret location
    | None => ret no_location
    end.

End utils.

(** What a nullable [CharField] keeps of a keyword argument: [None] stays
    null, anything else is stored as its [str()]. *)
Definition CharField_value (v : pyval) : option string :=
  match v with
  | PyNone => None
  | _ => Some (Py.str v)
  end.

(** What a view returns: a 302 with its [Location] header, or a rendered
    template. *)
Inductive HttpResponse : Type :=
  | Redirect (location : string)
  | render (template : string) (context : list (string * string)) (status : Z).

#[global] Instance HttpResponse_eq_dec : EqDecision HttpResponse.
Proof. solve_decision. Defined.

(** *** Django's [HttpResponseRedirect] *)

(** The characters [urllib.parse.quote] leaves alone under the [safe]
    argument of [iri_to_uri]. *)
Definition uri_safe (c : ascii) : bool :=
  Py.is_alnum c || Py.char_in c "_.-~" || Py.char_in c "/#%[]=:;$&()+,!?*@'~".

Definition hex_digit (n : nat) : ascii := Py.char_at "0123456789ABCDEF" n.

(** [%XX] for a byte *)
Definition percent (byte : nat) : string :=
  String "%" (String (hex_digit (byte / 16)) (String (hex_digit (byte mod 16)) EmptyString)).

(** [django.utils.encoding.iri_to_uri]: [quote(iri, safe=...)], every
    other byte of the text percent-encoded. *)
Fixpoint iri_to_uri (iri : string) : string :=
  match iri with
  | EmptyString => EmptyString
  | String c r =>
      if uri_safe c then String c (iri_to_uri r)
      else percent (Py.code c) +:+ iri_to_uri r
  end.

Definition allowed_schemes : list string := ["http"; "https"; "ftp"].

(** [HttpResponseRedirect(redirect_to)]: the constructor writes the
    [Location] header, then parses the destination and refuses a scheme
    that is not allowed; the [ValueError] of [urlsplit] goes through. *)
Definition HttpResponseRedirect (env : Env) (redirect_to : string) : exn + HttpResponse :=
  match urlsplit_scheme env redirect_to with
  | None => inl ValueError
  | Some scheme =>
      if negb (String.eqb scheme "") && negb (Py.str_in scheme allowed_schemes)
      then inl DisallowedRedirect
      else inr (Redirect (iri_to_uri redirect_to))
  end.

(** ** Querysets *)

Module QuerySet.

Section Rows.
Context {A : Type}.

(** [Model.objects.get(...)] on the rows that satisfy the lookup. *)
Definition get {St} (matching : list A) : M St A :=
  match matching with
  | [] => raise DoesNotExist
  | [row] => ret row
  | _ => raise MultipleObjectsReturned
  end.

(** [qs.count()] *)
Definition count (qs : list A) : Z := Z.of_nat (length qs).

(** [qs[:n]] *)
Definition limit (n : nat) (qs : list A) : list A := firstn n qs.

(** Insertion of a row before the first row it may precede. *)
Fixpoint insert_by (before : A -> A -> bool) (x : A) (qs : list A) : list A :=
  match qs with
  | [] => [x]
  | y :: rest => if before x y then x :: y :: rest else y :: insert_by before x rest
  end.

(** [qs.order_by(...)]: a stable sort, so rows that compare equal keep
    the order they had (SQL leaves their order open). *)
Definition order_by (before : A -> A -> bool) (qs : list A) : list A :=
  foldr (insert_by before) [] qs.
End Rows.

Section Groups.
Context {A K : Type} `{EqDecision K}.

Fixpoint bump (k : K) (groups : list (K * Z)) : list (K * Z) :=
  match groups with
  | [] => [(k, 1)]
  | (k', n) :: rest =>
      if decide (k = k') then (k', n + 1) :: rest else (k', n) :: bump k rest
  end.

(** [qs.values(key).annotate(count=Count('id'))]: one row per value of
    the key that occurs, with the number of rows that carry it. *)
Definition values_count (key : A -> K) (qs : list A) : list (K * Z) :=
  fold_left (fun groups row => bump (key row) groups) qs [].
End Groups.

(** [order_by('-count')] *)
Definition count_desc {K} (x y : K * Z) : bool := snd y <=? snd x.

(** [order_by('date')] *)
Definition date_asc (x y : Z * Z) : bool := fst x <=? fst y.

End QuerySet.

(** [dict(pairs)]: later pairs overwrite earlier ones. *)
Definition dict (pairs : list (string * Z)) : gmap string Z :=
  fold_left (fun m kv => <[fst kv := snd kv]> m) pairs ∅.

(** ** Time *)

Definition seconds_per_day : Z := 86400.

(** [timedelta(days=days)], in seconds; the constructor refuses more than
    999999999 days either way. *)
Definition timedelta (days : Z) : exn + Z :=
  if Z.abs days <=? 999999999 then inr (days * seconds_per_day) else inl OverflowError.

(** The instants a [datetime] can hold: years 1 to 9999. *)
Definition datetime_min : Z := -62135596800.
Definition datetime_max : Z := 253402300799.

(** [t - delta] on a [datetime] *)
Definition datetime_sub (t delta : Z) : exn + Z :=
  let r := t - delta in
  if (datetime_min <=? r) && (r <=? datetime_max) then inr r else inl OverflowError.

(** [TruncDate('created_at')]: the calendar day, in the configured time
    zone, as a day number. *)
Definition TruncDate (env : Env) (t : Z) : Z := (t + utcoffset env t) / seconds_per_day.

(** [start_date] of the statistics views:
    [days = int(request.query_params.get('days', 30))] and
    [start_date = timezone.now() - timedelta(days=days)]. *)
Definition days_param (request : HttpRequest) : exn + Z :=
  Py.int (QueryDict_get (GET request) "days" (PyInt 30)).

Definition start_date_of (env : Env) (request : HttpRequest) : exn + Z :=
  match days_param request with
  | inl e => inl e
  | inr days =>
      match timedelta days with
      | inl e => inl e
      | inr delta => datetime_sub (timezone_now env) delta
      end
  end.

(** ** The aggregate of one link's clicks (the body shared by
    [UrlViewSet.stats] and [LinkViewSet.stats]) *)

Record StatsSummary : Type := mkStatsSummary {
  total_clicks : Z;
  qrcode_clicks : Z;
  direct_clicks : Z;
  clicks_by_device : gmap string Z;
  clicks_by_country : list (string * Z);
  clicks_by_day : list (Z * Z)
}.

Section Aggregate.
Context {Stat : Type}.
Variable created_at : Stat -> Z.
Variable via_qrcode : Stat -> bool.
Variable device_type : Stat -> string.
Variable country : Stat -> option string.

(** [related.filter(created_at__gte=start_date)] *)
Definition in_window (start_date : Z) (related : list Stat) : list Stat :=
  List.filter (fun s => start_date <=? created_at s) related.

Definition by_day (env : Env) (stats : list Stat) : list (Z * Z) :=
  QuerySet.order_by QuerySet.date_asc
    (QuerySet.values_count (fun s => TruncDate env (created_at s)) stats).

Definition aggregate (env : Env) (stats : list Stat) : StatsSummary :=
  let total_clicks := QuerySet.count stats in
  let qrcode_clicks := QuerySet.count (List.filter via_qrcode stats) in
  let clicks_by_device := dict (QuerySet.values_count device_type stats) in
  let clicks_by_country :=
    QuerySet.limit 10
      (QuerySet.order_by QuerySet.count_desc
         (QuerySet.values_count id (omap country stats))) in
  let clicks_by_day := by_day env stats in
  mkStatsSummary total_clicks qrcode_clicks (total_clicks - qrcode_clicks)
    clicks_by_device clicks_by_country clicks_by_day.
End Aggregate.

(** ** [app_tinyurl]: serializers and views *)

Module app_tinyurl.

Definition default_reserved_paths : list string :=
  ["admin"; "api"; "app"; "static"; "media"].

(** The page every miss of [redirect_view] renders. *)
Definition not_found_page (env : Env) : HttpResponse :=
  render "404.html" [("redirect_url", REDIRECT_URL (settings env))] 404.

(** *** Object manager of [Url] and [UrlStat] *)

(** [Url.objects.filter(short_code=code).exists()] *)
Definition Url_exists (code : string) : M World bool :=
  log (SqlSelect "tinyurl_url") ;;;
  d <- read_db ;;
  ret (existsb (fun u => String.eqb (Url.short_code u) code) (tinyurl_url d)).

(** [Url.objects.get(short_code=short_code, is_active=True)] *)
Definition Url_get_active (short_code : string) : M World Url.t :=
  log (SqlSelect "tinyurl_url") ;;;
  d <- read_db ;;
  QuerySet.get
    (List.filter (fun u => String.eqb (Url.short_code u) short_code && Url.is_active u)
       (tinyurl_url d)).

(** [Url.objects.create] with the validated data as keyword arguments:
    [short_code] is unique, so a row whose code is taken is refused by
    the database. *)
Definition Url_create (env : Env) (short_code long_url : string) (is_active : bool)
    : M World Url.t :=
  log (SqlInsert "tinyurl_url") ;;;
  d <- read_db ;;
  if existsb (fun u => String.eqb (Url.short_code u) short_code) (tinyurl_url d)
  then raise (OtherException "IntegrityError")
  else
    let row := Url.Build (uuid4 env) short_code long_url
                 (timezone_now env) (timezone_now env) is_active in
    write_db (mkDatabase (tinyurl_url d ++ [row]) (tinyurl_urlstat d)
                (linktree_link d) (linktree_linkstat d)) ;;;
    ret row.

(** [instance.save()] on a row that exists: the row is replaced, unless
    another row already carries its short code. *)
Definition Url_save (row : Url.t) : M World Url.t :=
  log (SqlUpdate "tinyurl_url") ;;;
  d <- read_db ;;
  if existsb (fun u => String.eqb (Url.short_code u) (Url.short_code row)
                       && negb (N.eqb (Url.id u) (Url.id row))) (tinyurl_url d)
  then raise (OtherException "IntegrityError")
  else
    write_db (mkDatabase
                (map (fun u => if N.eqb (Url.id u) (Url.id row) then row else u)
                   (tinyurl_url d))
                (tinyurl_urlstat d) (linktree_link d) (linktree_linkstat d)) ;;;
    ret row.

(** [UrlStat.objects.create(...)]: the row gets a fresh primary key and
    the current time. *)
Definition UrlStat_create (env : Env) (url : Url.t) (via_qrcode : bool)
    (device_type : string) (city country : pyval)
    (ip_address : option string) (user_agent : string) : M World UrlStat.t :=
  log (SqlInsert "tinyurl_urlstat") ;;;
  d <- read_db ;;
  let row := UrlStat.Build (uuid4 env) (Url.id url) (timezone_now env) via_qrcode
               device_type (CharField_value city) (CharField_value country)
               ip_address (Some user_agent) in
  write_db (mkDatabase (tinyurl_url d) (tinyurl_urlstat d ++ [row])
              (linktree_link d) (linktree_linkstat d)) ;;;
  ret row.

(** *** [serializers.py] *)

(** [validated_data]: a key that is absent is [None].  The record also
    holds the data of a request on their way into [is_valid]: there
    [short_code] is the text that was sent, while [long_url] and
    [is_active] stand for what the validation of their fields gave (a form
    that leaves [is_active] out gives [False] there, a JSON body nothing);
    their fields are not customised by this serializer and are taken to
    have passed. *)
Record ValidatedData : Type := mkValidatedData {
  vd_short_code : option string;
  vd_long_url : option string;
  vd_is_active : option bool
}.

Definition capacity_message : string :=
  "Could not generate unique short code. Please try again.".

(** The [for _ in range(10): ... else: raise] loop of
    [_ensure_short_code]. *)
Fixpoint attempts (n : nat) (validated_data : ValidatedData) : M World ValidatedData :=
  match n with
  | O => raise (ValidationError capacity_message)
  | S k =>
      code <- utils.generate_short_code utils.default_length ;;
      taken <- Url_exists code ;;
      if negb taken
      then ret (mkValidatedData (Some code) (vd_long_url validated_data)
                  (vd_is_active validated_data))
      else attempts k validated_data
  end.

Definition _ensure_short_code (validated_data : ValidatedData) : M World ValidatedData :=
  if negb (Py.truthy (vd_short_code validated_data))
  then attempts 10 validated_data
  else ret validated_data.

Definition validate_short_code (env : Env) (value : string) : exn + string :=
  let reserved_paths :=
    default default_reserved_paths (TINYURL_RESERVED_PATHS (settings env)) in
  if Py.str_in (Py.lower value) (map Py.lower reserved_paths)
  then inl (ValidationError
              ("'" +:+ value +:+ "' is a reserved path and cannot be used as a short code."))
  else inr value.

(** The field [short_code] of the serializer, a [CharField] with
    [allow_blank], [max_length=50] and the [UniqueValidator] of the unique
    model field: a value that is blank once trimmed is [''] and is not
    validated; any other value is trimmed and goes through the
    validators, the uniqueness query first (on an update the row itself
    does not count), and every error is reported. *)
Definition short_code_field (instance : option Url.t) (data : string) : M World string :=
  if String.eqb (Py.strip data) "" then ret ""
  else
    let value := Py.strip data in
    log (SqlSelect "tinyurl_url") ;;;
    d <- read_db ;;
    let others :=
      List.filter
        (fun u => match instance with
                  | Some row => negb (N.eqb (Url.id u) (Url.id row))
                  | None => true
                  end)
        (tinyurl_url d) in
    let unique :=
      if existsb (fun u => String.eqb (Url.short_code u) value) others
      then [Unique] else [] in
    let max_length := if (50 <? String.length value)%nat then [MaxLength] else [] in
    let null := if Py.char_in "000"%char value then [NullCharacters] else [] in
    match (unique ++ max_length ++ null)%list with
    | [] => ret value
    | errors => raise (FieldErrors "short_code" errors)
    end.

(** [serializer.is_valid(raise_exception=True)] for the field
    [short_code]: a key that is absent is skipped; a value that was sent
    goes through the field and then through the [validate_short_code]
    hook, whose error is reported as the error of the field. *)
Definition is_valid (env : Env) (instance : option Url.t) (data : ValidatedData)
    : M World ValidatedData :=
  match vd_short_code data with
  | None => ret data
  | Some sent =>
      value <- short_code_field instance sent ;;
      match validate_short_code env value with
      | inl (ValidationError text) => raise (FieldErrors "short_code" [Message text])
      | inl e => raise e
      | inr value' =>
          ret (mkValidatedData (Some value') (vd_long_url data) (vd_is_active data))
      end
  end.

Definition create (env : Env) (validated_data : ValidatedData) : M World Url.t :=
  validated_data <- _ensure_short_code validated_data ;;
  Url_create env (default "" (vd_short_code validated_data))
    (default "" (vd_long_url validated_data))
    (default true (vd_is_active validated_data)).

Definition update (env : Env) (instance : Url.t) (validated_data : ValidatedData)
    : M World Url.t :=
  validated_data <- _ensure_short_code validated_data ;;
  Url_save
    (Url.Build (Url.id instance)
       (default (Url.short_code instance) (vd_short_code validated_data))
       (default (Url.long_url instance) (vd_long_url validated_data))
       (Url.created_at instance) (timezone_now env)
       (default (Url.is_active instance) (vd_is_active validated_data))).

(** [POST /api/tinyurl/urls/]: validate, then save. *)
Definition perform_create (env : Env) (data : ValidatedData) : M World Url.t :=
  validated_data <- is_valid env None data ;;
  create env validated_data.

(** [PUT] and [PATCH /api/tinyurl/urls/{id}/]: validate, then save. *)
Definition perform_update (env : Env) (instance : Url.t) (data : ValidatedData)
    : M World Url.t :=
  validated_data <- is_valid env (Some instance) data ;;
  update env instance validated_data.

(** *** [views.py] *)

Definition related_stats (d : Database) (url : Url.t) : list UrlStat.t :=
  List.filter (fun s => N.eqb (UrlStat.url s) (Url.id url)) (tinyurl_urlstat d).

(** [UrlViewSet.stats], for the object [get_object()] returned. *)
Definition stats (env : Env) (request : HttpRequest) (url : Url.t) (d : Database)
    : exn + StatsSummary :=
  match start_date_of env request with
  | inl e => inl e
  | inr start_date =>
      let stats := in_window UrlStat.created_at start_date (related_stats d url) in
      inr (aggregate UrlStat.created_at UrlStat.via_qrcode UrlStat.device_type
             UrlStat.country env stats)
  end.

(** A row of [top_urls]: [.values('id', 'short_code', 'long_url', 'click_count')]. *)
Record TopUrl : Type := mkTopUrl {
  top_id : UUID;
  top_short_code : string;
  top_long_url : string;
  click_count : Z
}.

(** [Url.objects.annotate(click_count=Count('stats',
      filter=Q(stats__created_at__gte=start_date)))
      .filter(click_count__gt=0).order_by('-click_count')[:10]]:
    a single join with [UrlStat], whose rows are counted per [Url] when
    they satisfy the filter. *)
Definition top_urls (start_date : Z) (d : Database) : list TopUrl :=
  let annotated :=
    map (fun u =>
           mkTopUrl (Url.id u) (Url.short_code u) (Url.long_url u)
             (QuerySet.count
                (List.filter (fun s => start_date <=? UrlStat.created_at s)
                   (related_stats d u))))
        (tinyurl_url d) in
  QuerySet.limit 10
    (QuerySet.order_by (fun x y => click_count y <=? click_count x)
       (List.filter (fun r => 0 <? click_count r) annotated)).

Record Dashboard : Type := mkDashboard {
  total_urls : Z;
  active_urls : Z;
  dash_total_clicks : Z;
  dash_qrcode_clicks : Z;
  dash_top_urls : list TopUrl;
  dash_clicks_by_day : list (Z * Z)
}.

(** [dashboard_stats], without the listings of recent clicks, cities and
    devices. *)
Definition dashboard_stats (env : Env) (request : HttpRequest) (d : Database)
    : exn + Dashboard :=
  match start_date_of env request with
  | inl e => inl e
  | inr start_date =>
      let recent_stats := in_window UrlStat.created_at start_date (tinyurl_urlstat d) in
      inr (mkDashboard
             (QuerySet.count (tinyurl_url d))
             (QuerySet.count (List.filter Url.is_active (tinyurl_url d)))
             (QuerySet.count recent_stats)
             (QuerySet.count (List.filter UrlStat.via_qrcode recent_stats))
             (top_urls start_date d)
             (by_day UrlStat.created_at env recent_stats))
  end.

Definition redirect_view (env : Env) (request : HttpRequest) (short_code : string)
    : M World HttpResponse :=
  let reserved_paths :=
    default default_reserved_paths (TINYURL_RESERVED_PATHS (settings env)) in
  if Py.str_in (Py.lower short_code) (map Py.lower reserved_paths)
  then ret (not_found_page env)
  else
    found <- try_except
               (url <- Url_get_active short_code ;; ret (Some url))
               (fun e => if decide (e = DoesNotExist) then ret None else raise e) ;;
    match found with
    | None => ret (not_found_page env)
    | Some url =>
        let via_qrcode :=
          String.eqb (Py.lower (QueryDict_get_str (GET request) "qrcode")) "true" in
        let user_agent_string := default "" (META request !! "HTTP_USER_AGENT") in
        let ip_address := utils.get_client_ip request in
        device_type <- utils.get_device_type env user_agent_string ;;
        location <- utils.get_location_from_ip env ip_address ;;
        UrlStat_create env url via_qrcode device_type
          (utils.city location) (utils.country location)
          ip_address user_agent_string ;;;
        lift (HttpResponseRedirect env (Url.long_url url))
    end.

End app_tinyurl.

(** ** [app_linktree]: views *)

Module app_linktree.

Definition not_found_page (env : Env) : HttpResponse :=
  render "404.html" [("redirect_url", REDIRECT_URL (settings env))] 404.

(** The [link_id] a caller passes: a UUID, or a value the [UUIDField]
    lookup refuses. *)
Inductive LinkId : Type :=
  | ValidUUID (u : UUID)
  | InvalidUUID (raw : string).

(** [Link.objects.get(id=link_id, is_active=True)]: an invalid value is
    refused while the lookup is built, before any query. *)
Definition Link_get_active (link_id : LinkId) : M World Link.t :=
  match link_id with
  | InvalidUUID _ => raise DjangoValidationError
  | ValidUUID u =>
      log (SqlSelect "linktree_link") ;;;
      d <- read_db ;;
      QuerySet.get
        (List.filter (fun l => N.eqb (Link.id l) u && Link.is_active l) (linktree_link d))
  end.

Definition LinkStat_create (env : Env) (link : Link.t) (via_qrcode : bool)
    (device_type : string) (city country : pyval)
    (ip_address : option string) (user_agent : string) : M World LinkStat.t :=
  log (SqlInsert "linktree_linkstat") ;;;
  d <- read_db ;;
  let row := LinkStat.Build (uuid4 env) (Link.id link) (timezone_now env) via_qrcode
               device_type (CharField_value city) (CharField_value country)
               ip_address (Some user_agent) in
  write_db (mkDatabase (tinyurl_url d) (tinyurl_urlstat d)
              (linktree_link d) (linktree_linkstat d ++ [row])) ;;;
  ret row.

Definition related_stats (d : Database) (link : Link.t) : list LinkStat.t :=
  List.filter (fun s => N.eqb (LinkStat.link s) (Link.id link)) (linktree_linkstat d).

(** [LinkViewSet.stats], for the object [get_object()] returned. *)
Definition stats (env : Env) (request : HttpRequest) (link : Link.t) (d : Database)
    : exn + StatsSummary :=
  match start_date_of env request with
  | inl e => inl e
  | inr start_date =>
      let stats := in_window LinkStat.created_at start_date (related_stats d link) in
      inr (aggregate LinkStat.created_at LinkStat.via_qrcode LinkStat.device_type
             LinkStat.country env stats)
  end.

(** A row of [top_links]: [.values('id', 'name', 'url', 'click_count')]. *)
Record TopLink : Type := mkTopLink {
  top_id : UUID;
  top_name : string;
  top_url : string;
  click_count : Z
}.

(** The rows [LEFT OUTER JOIN linkstat] gives one link. *)
Definition left_outer_join (rows : list LinkStat.t) : list (option LinkStat.t) :=
  match rows with
  | [] => [None]
  | _ => map Some rows
  end.

(** The rows of one link in
    [Link.objects.annotate(click_count=Count('stats'))
       .filter(stats__created_at__gte=start_date)]:
    [annotate] joins [LinkStat] once, and the later [filter] on the
    same multi-valued relation joins it a second time, with the
    condition on the second join only. *)
Definition joined_rows (start_date : Z) (d : Database) (link : Link.t)
    : list (option LinkStat.t * LinkStat.t) :=
  list_prod
    (left_outer_join (related_stats d link))
    (List.filter (fun t => start_date <=? LinkStat.created_at t) (related_stats d link)).

(** [... .order_by('-click_count')[:10]]: one group per link that has a
    joined row; [Count('stats')] counts the rows whose first join is not
    null. *)
Definition top_links (start_date : Z) (d : Database) : list TopLink :=
  let annotated :=
    omap (fun l =>
            match joined_rows start_date d l with
            | [] => None
            | rows =>
                Some (mkTopLink (Link.id l) (Link.name l) (Link.url l)
                        (QuerySet.count
                           (List.filter (fun r => bool_decide (is_Some (fst r))) rows)))
            end)
         (linktree_link d) in
  QuerySet.limit 10
    (QuerySet.order_by (fun x y => click_count y <=? click_count x) annotated).

Record Dashboard : Type := mkDashboard {
  total_links : Z;
  active_links : Z;
  dash_total_clicks : Z;
  dash_qrcode_clicks : Z;
  dash_top_links : list TopLink;
  dash_clicks_by_day : list (Z * Z)
}.

(** [dashboard_stats], without the listing of recent clicks. *)
Definition dashboard_stats (env : Env) (request : HttpRequest) (d : Database)
    : exn + Dashboard :=
  match start_date_of env request with
  | inl e => inl e
  | inr start_date =>
      let recent_stats := in_window LinkStat.created_at start_date (linktree_linkstat d) in
      inr (mkDashboard
             (QuerySet.count (linktree_link d))
             (QuerySet.count (List.filter Link.is_active (linktree_link d)))
             (QuerySet.count recent_stats)
             (QuerySet.count (List.filter LinkStat.via_qrcode recent_stats))
             (top_links start_date d)
             (by_day LinkStat.created_at env recent_stats))
  end.

Definition link_redirect (env : Env) (request : HttpRequest) (link_id : LinkId)
    : M World HttpResponse :=
  found <- try_except
             (link <- Link_get_active link_id ;; ret (Some link))
             (fun _ => ret None) ;;
  match found with
  | None => ret (not_found_page env)
  | Some link =>
      let via_qrcode :=
        String.eqb (Py.lower (QueryDict_get_str (GET request) "qrcode")) "true" in
      let user_agent_string := default "" (META request !! "HTTP_USER_AGENT") in
      let ip_address := utils.get_client_ip request in
      device_type <- utils.get_device_type env user_agent_string ;;
      location <- utils.get_location_from_ip env ip_address ;;
      LinkStat_create env link via_qrcode device_type
        (utils.city location) (utils.country location)
        ip_address user_agent_string ;;;
      lift (HttpResponseRedirect env (Link.url link))
  end.

End app_linktree.

(** ** A test bench: concrete environments and worlds *)

Module Bench.

Definition settings0 : Settings := mkSettings None "https://logmi.example/" None.

Definition desktop_agent : UserAgent := mkUserAgent (inr false) (inr false) (inr true).

Definition geo_reply : Response :=
  mkResponse 200
    (inr (JsonObject [("status", PyStr "success"); ("country", PyStr "France");
                      ("city", PyStr "Paris")])).

(** The scheme of a plain absolute URL: what stands before its first
    colon, in lower case. *)
Definition scheme_of (url : string) : string :=
  if Py.char_in ":" url then Py.lower (Py.split_first ":" url) else "".

Definition env0 : Env :=
  mkEnv settings0 1700000000 (fun _ => 0) 4242%N
    (fun _ => inr desktop_agent) (fun _ => inr geo_reply) (fun url => Some (scheme_of url)).

Definition empty_db : Database := mkDatabase [] [] [] [].

Definition world_of (d : Database) : World := mkWorld d [] (fun _ => O).

Definition request_of (GET : list (string * list string)) (META : list (string * string))
    : HttpRequest :=
  mkRequest (list_to_map GET) (list_to_map META).

End Bench.

(** ** Vocabulary of the statements *)

(** The four device classes. *)
Definition device_classes : list string := ["mobile"; "tablet"; "desktop"; "unknown"].

(** The stream [rng] after [k] draws. *)
Definition advance (k : nat) (rng : nat -> nat) : nat -> nat := fun n => rng (k + n)%nat.

(** The code [generate_short_code length] spells from a stream of draws. *)
Fixpoint code_of (rng : nat -> nat) (length : nat) : string :=
  match length with
  | O => EmptyString
  | S n =>
      String (Py.char_at utils.chars (rng O mod String.length utils.chars)%nat)
        (code_of (advance 1 rng) n)
  end.

(** The [k]-th candidate [_ensure_short_code] draws. *)
Definition candidate (rng : nat -> nat) (k : nat) : string :=
  code_of (advance (k * utils.default_length) rng) utils.default_length.

(** A short code is taken when a row of [Url] carries it. *)
Definition taken (d : Database) (code : string) : bool :=
  existsb (fun u => String.eqb (Url.short_code u) code) (tinyurl_url d).

(** [a] and [b] are equal up to case. *)
Definition eq_ignore_case (a b : string) : Prop := Py.lower a = Py.lower b.

(** The reserved paths in force. *)
Definition reserved_paths (env : Env) : list string :=
  default app_tinyurl.default_reserved_paths (TINYURL_RESERVED_PATHS (settings env)).

Definition reserved (env : Env) (short_code : string) : Prop :=
  exists p, In p (reserved_paths env) /\ eq_ignore_case short_code p.

(** The same environment under another reserved-path setting. *)
Definition with_reserved_paths (env : Env) (paths : option (list string)) : Env :=
  mkEnv (mkSettings paths (REDIRECT_URL (settings env)) (IP_API (settings env)))
    (timezone_now env) (utcoffset env) (uuid4 env) (parse_user_agent env) (requests_get env)
    (urlsplit_scheme env).

(** The addresses [get_location_from_ip] answers without a lookup. *)
Definition skipped_ip (ip : option string) : bool :=
  negb (Py.truthy ip) || Py.str_in (default "" ip) ["127.0.0.1"; "localhost"; "::1"].

(** The URL looked up for an address. *)
Definition lookup_url (env : Env) (ip : string) : string :=
  Py.rstrip_char "/" (default "http://ip-api.com/json/" (IP_API (settings env)))
    +:+ "/" +:+ ip.

(** The effects of [n] existence checks on [Url]. *)
Definition lookups (n : nat) : list Effect := repeat (SqlSelect "tinyurl_url") n.

(** The [qrcode] flag of a request: its parameter is [true] up to case. *)
Definition qrcode_flag (request : HttpRequest) : Prop :=
  eq_ignore_case (QueryDict_get_str (GET request) "qrcode") "true".

(** The rows of [Url] an identifier resolves to. *)
Definition active_urls_for (d : Database) (short_code : string) : list Url.t :=
  List.filter (fun u => String.eqb (Url.short_code u) short_code && Url.is_active u)
    (tinyurl_url d).

(** The rows of [Link] an identifier resolves to. *)
Definition active_links_for (d : Database) (u : UUID) : list Link.t :=
  List.filter (fun l => N.eqb (Link.id l) u && Link.is_active l) (linktree_link d).

(** An effect that is an outbound HTTP request. *)
Definition is_http (e : Effect) : Prop := exists url t, e = HttpGet url t.

(** The world once an effect is logged. *)
Definition logged (e : Effect) (w : World) : World :=
  mkWorld (db w) (effects w ++ [e]) (rng w).

(** The characters a short code may hold: ASCII letters and digits other
    than the look-alikes. *)
Definition unambiguous (code : string) : Prop :=
  forall c, Py.char_in c code = true ->
    Py.char_in c (utils.ascii_letters +:+ utils.digits) = true
    /\ Py.char_in c "O0l1I" = false.

(** ** Fixtures *)

Module Fixture.

Definition promo : Url.t :=
  Url.Build 1%N "promo" "https://example.org/landing" 0 0 true.

Definition retired : Url.t :=
  Url.Build 2%N "old" "https://example.org/old" 0 0 false.

Definition promo_world : World :=
  Bench.world_of (mkDatabase [promo; retired] [] [] []).

(** A request that carries [?qrcode=TRUE] from the loopback address. *)
Definition qr_request : HttpRequest :=
  Bench.request_of [("qrcode", ["TRUE"])] [("REMOTE_ADDR", "127.0.0.1")].

(** A parser that reports every signal at once. *)
Definition eager_env : Env :=
  mkEnv Bench.settings0 0 (fun _ => 0) 1%N
    (fun _ => inr (mkUserAgent (inr true) (inr true) (inr true)))
    (fun _ => inl ConnectionError) (fun url => Some (Bench.scheme_of url)).

Definition iphone : string := "Mozilla/5.0 (iPhone; CPU iPhone OS 17_0 like Mac OS X)".

End Fixture.

Module Exhausted.

(** A stream that always draws index 0: every candidate is ["aaaaaa"]. *)
Definition stuck : nat -> nat := fun _ => O.

Definition aaaaaa : Url.t := Url.Build 9%N "aaaaaa" "https://example.org/a" 0 0 true.

Definition world : World := mkWorld (mkDatabase [aaaaaa] [] [] []) [] stuck.

(** Validated data without a short code. *)
Definition blank : app_tinyurl.ValidatedData :=
  app_tinyurl.mkValidatedData (Some "") (Some "https://example.org/b") None.

End Exhausted.

Module Static.

(** Draws that spell ["static"] in [utils.chars]. *)
Definition draws : nat -> nat := fun n => nth n [17; 18; 0; 18; 8; 2]%nat O.

Definition world : World := mkWorld Bench.empty_db [] draws.

(** A creation request that leaves the short code blank. *)
Definition data : app_tinyurl.ValidatedData :=
  app_tinyurl.mkValidatedData (Some "") (Some "https://example.org/landing") None.

Definition stored : Url.t :=
  Url.Build 4242%N "static" "https://example.org/landing" 1700000000 1700000000 true.

(** The world once that row is stored. *)
Definition stored_world : World :=
  Bench.world_of (mkDatabase [stored] [] [] []).

End Static.

Module Refused.

(** An active row whose destination Django does not redirect to. *)
Definition files : Url.t := Url.Build 8%N "files" "ftps://files.example.org/x" 0 0 true.

Definition world : World := Bench.world_of (mkDatabase [files] [] [] []).

End Refused.

Module Ranking.

(** Thirty days before [timezone_now Bench.env0]. *)
Definition start_date : Z := 1700000000 - 30 * 86400.

Definition recent : Z := 1700000000 - 3600.
Definition long_ago : Z := 1600000000.

Definition click (id link : N) (t : Z) : LinkStat.t :=
  LinkStat.Build id link t false "desktop" None None None None.

Definition link_a : Link.t := Link.Build 1%N "A" None "https://a.example/" 0 0 true 0 "".
Definition link_b : Link.t := Link.Build 2%N "B" None "https://b.example/" 0 0 true 0 "".

(** [A]: five old clicks and one recent; [B]: two recent clicks. *)
Definition links_db : Database :=
  mkDatabase [] []
    [link_a; link_b]
    [click 11 1 long_ago; click 12 1 long_ago; click 13 1 long_ago;
     click 14 1 long_ago; click 15 1 long_ago; click 16 1 recent;
     click 21 2 recent; click 22 2 recent].

Definition hit (id url : N) (t : Z) : UrlStat.t :=
  UrlStat.Build id url t false "desktop" None None None None.

Definition url_a : Url.t := Url.Build 1%N "aaa" "https://a.example/" 0 0 true.
Definition url_b : Url.t := Url.Build 2%N "bbb" "https://b.example/" 0 0 true.

(** The same clicks on two short URLs. *)
Definition urls_db : Database :=
  mkDatabase
    [url_a; url_b]
    [hit 11 1 long_ago; hit 12 1 long_ago; hit 13 1 long_ago;
     hit 14 1 long_ago; hit 15 1 long_ago; hit 16 1 recent;
     hit 21 2 recent; hit 22 2 recent]
    [] [].

Definition request : HttpRequest := Bench.request_of [] [].

End Ranking.

(** The value a list of groups holds for a key. *)
Fixpoint assoc {K} `{EqDecision K} (k : K) (groups : list (K * Z)) : option Z :=
  match groups with
  | [] => None
  | (k', n) :: rest => if decide (k = k') then Some n else assoc k rest
  end.

(** The number of rows that carry a value of the key. *)
Definition tally {A K} `{EqDecision K} (key : A -> K) (k : K) (rows : list A) : Z :=
  QuerySet.count (List.filter (fun r => bool_decide (key r = k)) rows).

Module Worked.

(** The example of the specification: two clicks on day 1 from FR, one
    of them through a QR code, and one click on day 2 from US. *)
Definition day1 : Z := 1 * 86400 + 9 * 3600.
Definition day2 : Z := 2 * 86400 + 9 * 3600.

(** The clock reads day 3, in UTC. *)
Definition env : Env :=
  mkEnv Bench.settings0 (3 * 86400) (fun _ => 0) 4242%N
    (fun _ => inr Bench.desktop_agent) (fun _ => inl ConnectionError)
    (fun url => Some (Bench.scheme_of url)).

Definition url : Url.t := Url.Build 1%N "promo" "https://example.org/landing" 0 0 true.

Definition url_db : Database :=
  mkDatabase [url]
    [UrlStat.Build 101%N 1%N day1 true "mobile" None (Some "FR") None None;
     UrlStat.Build 102%N 1%N (day1 + 60) false "desktop" None (Some "FR") None None;
     UrlStat.Build 103%N 1%N day2 false "mobile" None (Some "US") None None]
    [] [].

Definition link : Link.t :=
  Link.Build 1%N "Shop" None "https://example.org/shop" 0 0 true 0 "".

Definition link_db : Database :=
  mkDatabase [] [] [link]
    [LinkStat.Build 101%N 1%N day1 true "mobile" None (Some "FR") None None;
     LinkStat.Build 102%N 1%N (day1 + 60) false "desktop" None (Some "FR") None None;
     LinkStat.Build 103%N 1%N day2 false "mobile" None (Some "US") None None].

(** A request without a [days] parameter: the window is 30 days. *)
Definition request : HttpRequest := Bench.request_of [] [].

(** The summary the code returns. *)
Definition summary : StatsSummary :=
  mkStatsSummary 3 1 2
    (<["mobile" := 2]> (<["desktop" := 1]> ∅))
    [("FR", 2); ("US", 1)]
    [(1, 2); (2, 1)].

(** The device breakdown the claim states, zero rows included. *)
Definition zero_filled : gmap string Z :=
  <["mobile" := 2]> (<["desktop" := 1]> (<["tablet" := 0]> (<["unknown" := 0]> ∅))).

End Worked.

Module Days.



End Days.
From Stdlib Require Import Sorting.Sorted Sorting.Permutation.

(** ** Further vocabulary *)

(** [QueryDict.get(key)]: the last value of the key, [None] without one. *)
Definition QueryDict_get_opt (q : gmap string (list string)) (key : string) : option string :=
  match q !! key with
  | Some vs => last vs
  | None => None
  end.

(** The clicks a list of groups stands for. *)
Definition sum_counts {K} (groups : list (K * Z)) : Z :=
  fold_right (fun kv acc => snd kv + acc) 0 groups.

(** Rows in descending order of their counts. *)
Definition descending {K} (rows : list (K * Z)) : Prop :=
  StronglySorted (fun x y => snd y <= snd x) rows.

(** The rows of a breakdown by day: dates strictly ascending, and a date
    has a row exactly when a click falls on it, with the number of such
    clicks. *)
Definition day_rows {Stat} (created_at : Stat -> Z) (env : Env) (clicks : list Stat)
    (rows : list (Z * Z)) : Prop :=
  StronglySorted (fun x y => fst x < fst y) rows
  /\ (forall day n,
        In (day, n) rows
        <-> n = tally (fun s => TruncDate env (created_at s)) day clicks /\ 0 < n)
  /\ sum_counts rows = QuerySet.count clicks.

(** The rows of a breakdown by country: at most ten, in descending order
    of their counts, one per country, each with the number of clicks from
    that country; clicks without a country are in no row, and a country
    left out has no more clicks than any country listed. *)
Definition country_rows {Stat} (country : Stat -> option string) (clicks : list Stat)
    (rows : list (string * Z)) : Prop :=
  (length rows <= 10)%nat
  /\ descending rows
  /\ NoDup (map fst rows)
  /\ (forall c n, In (c, n) rows -> n = tally country (Some c) clicks /\ 0 < n)
  /\ (forall c, ~ In c (map fst rows) ->
        forall c' n', In (c', n') rows -> tally country (Some c) clicks <= n')
  /\ ((length rows < 10)%nat ->
        forall c, 0 < tally country (Some c) clicks -> In c (map fst rows)).

(** The database with one more click on a short URL, or on a link. *)
Definition add_urlstat (d : Database) (c : UrlStat.t) : Database :=
  mkDatabase (tinyurl_url d) (tinyurl_urlstat d ++ [c]) (linktree_link d)
    (linktree_linkstat d).

Definition add_linkstat (d : Database) (c : LinkStat.t) : Database :=
  mkDatabase (tinyurl_url d) (tinyurl_urlstat d) (linktree_link d)
    (linktree_linkstat d ++ [c]).

(** ** [app_tinyurl/views.py]: the listing of [UrlViewSet] and the rest of
    the dashboard *)

(** [raise Http404] *)
Definition Http404 : exn := OtherException "Http404".

Module UrlViewSet.

(** [Meta.ordering = \['-created_at'\]] of [Url]. *)
Definition newest_first (x y : Url.t) : bool := Url.created_at y <=? Url.created_at x.

(** [queryset = Url.objects.all()] *)
Definition queryset (d : Database) : list Url.t :=
  QuerySet.order_by newest_first (tinyurl_url d).

Definition get_queryset (request : HttpRequest) (d : Database) : list Url.t :=
  match QueryDict_get_opt (GET request) "is_active" with
  | None => queryset d
  | Some is_active =>
      List.filter
        (fun u => Bool.eqb (Url.is_active u) (String.eqb (Py.lower is_active) "true"))
        (queryset d)
  end.

(** [self.get_object()]: the row of [get_queryset] with the primary key
    of the route, [Http404] without one. *)
Definition get_object (request : HttpRequest) (pk : UUID) (d : Database) : exn + Url.t :=
  match List.filter (fun u => N.eqb (Url.id u) pk) (get_queryset request d) with
  | [] => inl Http404
  | [url] => inr url
  | _ => inl MultipleObjectsReturned
  end.

(** [stats(self, request, pk)], from the route to the summary. *)
Definition stats (env : Env) (request : HttpRequest) (pk : UUID) (d : Database)
    : exn + StatsSummary :=
  match get_object request pk d with
  | inl e => inl e
  | inr url => app_tinyurl.stats env request url d
  end.

End UrlViewSet.

(** The clicks of a short URL in the window, and its row in [top_urls]. *)
Definition url_window_clicks (start_date : Z) (d : Database) (u : Url.t) : Z :=
  QuerySet.count
    (List.filter (fun s => start_date <=? UrlStat.created_at s)
       (app_tinyurl.related_stats d u)).

Definition url_row (start_date : Z) (d : Database) (u : Url.t) : app_tinyurl.TopUrl :=
  app_tinyurl.mkTopUrl (Url.id u) (Url.short_code u) (Url.long_url u)
    (url_window_clicks start_date d u).

(** The clicks of a link in the window and over all time, and its row in
    [top_links]. *)
Definition link_window_clicks (start_date : Z) (d : Database) (l : Link.t) : Z :=
  QuerySet.count
    (List.filter (fun s => start_date <=? LinkStat.created_at s)
       (app_linktree.related_stats d l)).

Definition link_all_clicks (d : Database) (l : Link.t) : Z :=
  QuerySet.count (app_linktree.related_stats d l).

Definition link_row (start_date : Z) (d : Database) (l : Link.t) : app_linktree.TopLink :=
  app_linktree.mkTopLink (Link.id l) (Link.name l) (Link.url l)
    (link_all_clicks d l * link_window_clicks start_date d l).

(** [recent_clicks = UrlStat.objects.select_related('url')\[:10\]], in the
    order of [Meta.ordering = \['-created_at'\]]. *)
Definition recent_url_clicks (d : Database) : list UrlStat.t :=
  QuerySet.limit 10
    (QuerySet.order_by (fun x y => UrlStat.created_at y <=? UrlStat.created_at x)
       (tinyurl_urlstat d)).

(** [recent_clicks = LinkStat.objects.select_related('link')\[:10\]] *)
Definition recent_link_clicks (d : Database) : list LinkStat.t :=
  QuerySet.limit 10
    (QuerySet.order_by (fun x y => LinkStat.created_at y <=? LinkStat.created_at x)
       (linktree_linkstat d)).

(** [clicks_by_device] of the dashboard of [app_tinyurl]:
    [recent_stats.values('device_type').annotate(count=Count('id'))
       .order_by('-count')] *)
Definition dashboard_clicks_by_device (start_date : Z) (d : Database) : list (string * Z) :=
  QuerySet.order_by QuerySet.count_desc
    (QuerySet.values_count UrlStat.device_type
       (in_window UrlStat.created_at start_date (tinyurl_urlstat d))).

(** The key of [clicks_by_city]: city and country of a click whose city
    is known. *)
Definition city_key (s : UrlStat.t) : option (string * option string) :=
  match UrlStat.city s with
  | Some city => Some (city, UrlStat.country s)
  | None => None
  end.

(** [clicks_by_city] of the dashboard of [app_tinyurl]:
    [recent_stats.exclude(city__isnull=True).values('city', 'country')
       .annotate(count=Count('id')).order_by('-count')\[:10\]] *)
Definition dashboard_clicks_by_city (start_date : Z) (d : Database)
    : list ((string * option string) * Z) :=
  QuerySet.limit 10
    (QuerySet.order_by QuerySet.count_desc
       (QuerySet.values_count id
          (omap city_key (in_window UrlStat.created_at start_date (tinyurl_urlstat d))))).

(** The ten most frequent values of a key: at most ten rows in
    descending order of their counts, one per value, each with the number
    of clicks that carry the value; a value that is left out occurs no
    more often than any listed one, and none is left out while fewer
    than ten are listed. *)
Definition top_rows {Stat K} `{EqDecision K} (key : Stat -> option K)
    (clicks : list Stat) (rows : list (K * Z)) : Prop :=
  (length rows <= 10)%nat
  /\ descending rows
  /\ NoDup (map fst rows)
  /\ (forall k n, In (k, n) rows -> n = tally key (Some k) clicks /\ 0 < n)
  /\ (forall k, ~ In k (map fst rows) ->
        forall k' n', In (k', n') rows -> tally key (Some k) clicks <= n')
  /\ ((length rows < 10)%nat ->
        forall k, 0 < tally key (Some k) clicks -> In k (map fst rows)).

(** ** [app_linktree]: accounts, listing, public page and vCard *)

Module User.
Record t : Type := Build {
  id : Z;
  username : string;
  first_name : string;
  last_name : string;
  email : string
}.
End User.

Module Company.
Record t : Type := Build {
  id : UUID;
  name : string;
  address : string;
  siret : string;
  tva : string;
  created_at : Z;
  updated_at : Z
}.
End Company.

Module UserProfile.
Record t : Type := Build {
  id : UUID;
  user : option Z;             (* one-to-one with [auth.User] *)
  first_name : string;
  last_name : string;
  email : string;
  phone : string;
  profile_picture : option string;
  created_at : Z;
  updated_at : Z
}.
End UserProfile.

(** The tables of users, profiles and companies; the last one is the
    many-to-many relation between profiles and companies. *)
Record Accounts : Type := mkAccounts {
  auth_user : list User.t;
  linktree_userprofile : list UserProfile.t;
  linktree_company : list Company.t;
  linktree_userprofile_companies : list (UUID * UUID)
}.

(** Truthiness of a string. *)
Definition nonempty (s : string) : bool :=
  match s with
  | EmptyString => false
  | String _ _ => true
  end.

(** The fields [UserProfile.save] fills before the row is written: a name
    or an e-mail address that is empty is taken from the user, when there
    is a user and the user has it. *)
Definition autofill (owner : option User.t) (self : UserProfile.t) : UserProfile.t :=
  match owner with
  | None => self
  | Some user =>
      let first_name :=
        if negb (nonempty (UserProfile.first_name self)) && nonempty (User.first_name user)
        then User.first_name user else UserProfile.first_name self in
      let last_name :=
        if negb (nonempty (UserProfile.last_name self)) && nonempty (User.last_name user)
        then User.last_name user else UserProfile.last_name self in
      let email :=
        if negb (nonempty (UserProfile.email self)) && nonempty (User.email user)
        then User.email user else UserProfile.email self in
      UserProfile.Build (UserProfile.id self) (UserProfile.user self) first_name last_name
        email (UserProfile.phone self) (UserProfile.profile_picture self)
        (UserProfile.created_at self) (UserProfile.updated_at self)
  end.

(** The row [UserProfile.save] writes: the fields are filled from the
    user ([owner] is [self.user]), then [super().save()] stamps the row:
    [updated_at] is [auto_now] and takes the current time on every save,
    [created_at] is [auto_now_add] and takes it when the row is inserted
    ([adding]). *)
Definition UserProfile_save (env : Env) (adding : bool) (owner : option User.t)
    (self : UserProfile.t) : UserProfile.t :=
  let filled := autofill owner self in
  UserProfile.Build (UserProfile.id filled) (UserProfile.user filled)
    (UserProfile.first_name filled) (UserProfile.last_name filled)
    (UserProfile.email filled) (UserProfile.phone filled)
    (UserProfile.profile_picture filled)
    (if adding then timezone_now env else UserProfile.created_at filled)
    (timezone_now env).

Module LinkViewSet.

(** [Meta.ordering = \['order', '-created_at'\]] of [Link]. *)
Definition display_order (x y : Link.t) : bool :=
  (Link.order x <? Link.order y)
  || ((Link.order x =? Link.order y) && (Link.created_at y <=? Link.created_at x)).

(** [get_queryset] for the user of the request. *)
Definition get_queryset (user : Z) (request : HttpRequest) (d : Database) : list Link.t :=
  let queryset :=
    QuerySet.order_by display_order
      (List.filter (fun l => bool_decide (Link.user l = Some user)) (linktree_link d)) in
  match QueryDict_get_opt (GET request) "is_active" with
  | None => queryset
  | Some is_active =>
      List.filter
        (fun l => Bool.eqb (Link.is_active l) (String.eqb (Py.lower is_active) "true"))
        queryset
  end.

(** The validated data of [LinkSerializer]: [name] and [url] are required,
    a key that is absent is [None]. *)
Record LinkData : Type := mkLinkData {
  ld_name : string;
  ld_url : string;
  ld_is_active : option bool;
  ld_order : option Z;
  ld_icon : option string
}.

(** [perform_create]: [serializer.save(user=self.request.user)], that is
    [Link.objects.create] with the validated data and the user. *)
Definition perform_create (env : Env) (user : Z) (data : LinkData) : M World Link.t :=
  log (SqlInsert "linktree_link") ;;;
  d <- read_db ;;
  let row := Link.Build (uuid4 env) (ld_name data) (Some user) (ld_url data)
               (timezone_now env) (timezone_now env)
               (default true (ld_is_active data)) (default 0 (ld_order data))
               (default "" (ld_icon data)) in
  write_db (mkDatabase (tinyurl_url d) (tinyurl_urlstat d)
              (linktree_link d ++ [row]) (linktree_linkstat d)) ;;;
  ret row.

Definition get_object (user : Z) (request : HttpRequest) (pk : UUID) (d : Database)
    : exn + Link.t :=
  match List.filter (fun l => N.eqb (Link.id l) pk) (get_queryset user request d) with
  | [] => inl Http404
  | [link] => inr link
  | _ => inl MultipleObjectsReturned
  end.

(** [stats(self, request, pk)], from the route to the summary. *)
Definition stats (env : Env) (user : Z) (request : HttpRequest) (pk : UUID) (d : Database)
    : exn + StatsSummary :=
  match get_object user request pk d with
  | inl e => inl e
  | inr link => app_linktree.stats env request link d
  end.

End LinkViewSet.

(** What [linktree_page] answers: the not-found page, or the public page
    rendered from its context. *)
Inductive PublicPage : Type :=
  | PageNotFound (response : HttpResponse)
  | PageRendered (template : string) (links : list Link.t)
      (user_profile : option UserProfile.t) (user : User.t).

(** [UserProfile.objects.filter(user=user).first()]: without an ordering,
    [first] takes the row with the least primary key. *)
Definition profile_of (accounts : Accounts) (user : User.t) : option UserProfile.t :=
  head (QuerySet.order_by (fun x y => (UserProfile.id x <=? UserProfile.id y)%N)
          (List.filter (fun p => bool_decide (UserProfile.user p = Some (User.id user)))
             (linktree_userprofile accounts))).

(** [User.objects.get(username=username)] *)
Definition user_by_name (accounts : Accounts) (username : string) : list User.t :=
  List.filter (fun u => String.eqb (User.username u) username) (auth_user accounts).

Definition linktree_page (env : Env) (accounts : Accounts) (d : Database)
    (username : string) : exn + PublicPage :=
  match user_by_name accounts username with
  | [] => inr (PageNotFound (app_linktree.not_found_page env))
  | [user] =>
      let links :=
        QuerySet.order_by LinkViewSet.display_order
          (List.filter
             (fun l => bool_decide (Link.user l = Some (User.id user)) && Link.is_active l)
             (linktree_link d)) in
      inr (PageRendered "linktree/public_page.html" links (profile_of accounts user) user)
  | _ => inl MultipleObjectsReturned
  end.

(** *** The vCard *)

Definition CR : ascii := ascii_of_nat 13.
Definition LF : ascii := ascii_of_nat 10.
Definition CRLF : string := String CR (String LF EmptyString).
Definition DQUOTE : string := String (ascii_of_nat 34) EmptyString.

(** [s.replace(c, by)] for a one-character [c] *)
Fixpoint str_replace (c : ascii) (by_ : string) (s : string) : string :=
  match s with
  | EmptyString => EmptyString
  | String d r => if Ascii.eqb d c then by_ +:+ str_replace c by_ r
                  else String d (str_replace c by_ r)
  end.

(** [sep.join(lines)] *)
Fixpoint str_join (sep : string) (lines : list string) : string :=
  match lines with
  | [] => EmptyString
  | [l] => l
  | l :: rest => l +:+ sep +:+ str_join sep rest
  end.

(** [s.lstrip(ch)] and [s.strip(ch)] for a one-character argument *)
Fixpoint lstrip_char (ch : ascii) (s : string) : string :=
  match s with
  | EmptyString => EmptyString
  | String d r => if Ascii.eqb d ch then lstrip_char ch r else s
  end.

Definition strip_char (ch : ascii) (s : string) : string :=
  Py.rstrip_char ch (lstrip_char ch s).

(** [user_profile.companies.all()], in the order of
    [Meta.ordering = \['name'\]] of [Company]. *)
Definition is_member (through : list (UUID * UUID)) (profile : UserProfile.t)
    (company : Company.t) : bool :=
  existsb (fun pc => N.eqb (fst pc) (UserProfile.id profile)
                     && N.eqb (snd pc) (Company.id company))
    through.

Definition by_name (x y : Company.t) : bool := String.leb (Company.name x) (Company.name y).

Definition companies_of (accounts : Accounts) (profile : UserProfile.t) : list Company.t :=
  QuerySet.order_by by_name
    (List.filter (is_member (linktree_userprofile_companies accounts) profile)
       (linktree_company accounts)).

(** The lines of the card between [BEGIN] and [END]. *)
Definition vcard_name_lines (user : User.t) (first_name last_name : string) : list string :=
  if nonempty first_name || nonempty last_name
  then ["N:" +:+ last_name +:+ ";" +:+ first_name +:+ ";;;";
        Py.strip ("FN:" +:+ first_name +:+ " " +:+ last_name)]
  else ["FN:" +:+ User.username user].

Definition vcard_company_lines (companies : list Company.t) : list string :=
  match companies with
  | [] => []
  | company :: _ =>
      ("ORG:" +:+ Company.name company)
      :: (if nonempty (Company.address company)
          then ["ADR;TYPE=WORK:;;"
                +:+ str_replace CR "" (str_replace LF ";" (Company.address company))
                +:+ ";;;;"]
          else [])
  end.

Definition vcard_lines (user : User.t) (user_profile : UserProfile.t)
    (companies : list Company.t) : list string :=
  ["BEGIN:VCARD"; "VERSION:3.0"]
  ++ vcard_name_lines user (UserProfile.first_name user_profile)
       (UserProfile.last_name user_profile)
  ++ (if nonempty (UserProfile.email user_profile)
      then ["EMAIL;TYPE=INTERNET:" +:+ UserProfile.email user_profile] else [])
  ++ (if nonempty (UserProfile.phone user_profile)
      then ["TEL;TYPE=CELL:" +:+ UserProfile.phone user_profile] else [])
  ++ vcard_company_lines companies
  ++ ["END:VCARD"].

(** [f"{first_name}_{last_name}".strip('_') or username] *)
Definition vcard_filename (username first_name last_name : string) : string :=
  let stem := strip_char "_" (first_name +:+ "_" +:+ last_name) in
  if nonempty stem then stem else username.

(** The value of a response header as Django stores it: the text as it
    was set, or, for a text outside Latin-1, what
    [email.header.Header(text, 'utf-8').encode()] makes of it. *)
Inductive HeaderValue : Type :=
  | Plain (text : string)
  | MimeEncoded (text : string).

(** The response that carries the card. *)
Record FileResponse : Type := mkFileResponse {
  content : string;
  content_type : string;
  content_disposition : HeaderValue
}.

(** [value.encode('latin-1')] succeeds: every character is ASCII or one
    of U+0080 to U+00FF, whose UTF-8 encoding is the byte 194 or 195 and
    one continuation byte. *)
Fixpoint latin_1 (value : string) : bool :=
  match value with
  | EmptyString => true
  | String c r =>
      if Py.is_ascii c then latin_1 r
      else
        match r with
        | EmptyString => false
        | String d r' =>
            (Nat.eqb (Py.code c) 194 || Nat.eqb (Py.code c) 195)
            && Nat.leb 128 (Py.code d) && Nat.leb (Py.code d) 191 && latin_1 r'
        end
  end.

(** [response\[header\] = value]: Django refuses a header value that
    holds a line break, keeps one that fits Latin-1 and MIME-encodes any
    other. *)
Definition header_value (value : string) : exn + HeaderValue :=
  if Py.char_in CR value || Py.char_in LF value then inl BadHeaderError
  else if latin_1 value then inr (Plain value)
  else inr (MimeEncoded value).

Definition vcard_download (env : Env) (accounts : Accounts) (username : string)
    : exn + (HttpResponse + FileResponse) :=
  match user_by_name accounts username with
  | [] => inr (inl (app_linktree.not_found_page env))
  | [user] =>
      match profile_of accounts user with
      | None => inr (inl (app_linktree.not_found_page env))
      | Some user_profile =>
          let vcard_content :=
            str_join CRLF (vcard_lines user user_profile (companies_of accounts user_profile)) in
          let filename :=
            vcard_filename username (UserProfile.first_name user_profile)
              (UserProfile.last_name user_profile) in
          match header_value ("attachment; filename=" +:+ DQUOTE +:+ filename +:+ ".vcf"
                              +:+ DQUOTE) with
          | inl e => inl e
          | inr disposition =>
              inr (inr (mkFileResponse vcard_content "text/vcard; charset=utf-8"
                          disposition))
          end
      end
  | _ => inl MultipleObjectsReturned
  end.

(** ** [app_linktree]: profiles and companies *)

Definition read_accounts : M Accounts Accounts := fun a => (inr a, a).

Definition write_accounts (a : Accounts) : M Accounts unit := fun _ => (inr tt, a).

(** [UserProfile.objects.get_or_create(user=user)]: the profile of the
    user, created through [save] when there is none. *)
Definition UserProfile_get_or_create (env : Env) (user : User.t) : M Accounts UserProfile.t :=
  a <- read_accounts ;;
  match List.filter (fun p => bool_decide (UserProfile.user p = Some (User.id user)))
          (linktree_userprofile a) with
  | [] =>
      let profile :=
        UserProfile_save env true (Some user)
          (UserProfile.Build (uuid4 env) (Some (User.id user)) "" "" "" "" None
             (timezone_now env) (timezone_now env)) in
      write_accounts (mkAccounts (auth_user a) (linktree_userprofile a ++ [profile])
                        (linktree_company a) (linktree_userprofile_companies a)) ;;;
      ret profile
  | [profile] => ret profile
  | _ => raise MultipleObjectsReturned
  end.

(** [Company.objects.get(id=company_id)]: a value that is no UUID is
    refused while the lookup is built. *)
Definition Company_get (company_id : app_linktree.LinkId) : M Accounts Company.t :=
  match company_id with
  | app_linktree.InvalidUUID _ => raise DjangoValidationError
  | app_linktree.ValidUUID u =>
      a <- read_accounts ;;
      QuerySet.get (List.filter (fun c => N.eqb (Company.id c) u) (linktree_company a))
  end.

(** [profile.companies.add(company)]: a company that is there already is
    not added again. *)
Definition companies_add (profile : UserProfile.t) (company : Company.t) : M Accounts unit :=
  a <- read_accounts ;;
  if is_member (linktree_userprofile_companies a) profile company then ret tt
  else
    write_accounts
      (mkAccounts (auth_user a) (linktree_userprofile a) (linktree_company a)
         (linktree_userprofile_companies a
          ++ [(UserProfile.id profile, Company.id company)])).

(** [profile.companies.remove(company)] *)
Definition companies_remove (profile : UserProfile.t) (company : Company.t)
    : M Accounts unit :=
  a <- read_accounts ;;
  write_accounts
    (mkAccounts (auth_user a) (linktree_userprofile a) (linktree_company a)
       (List.filter
          (fun pc => negb (N.eqb (fst pc) (UserProfile.id profile)
                           && N.eqb (snd pc) (Company.id company)))
          (linktree_userprofile_companies a))).

(** [request.data.get('company_id')] when it is truthy: absent, [None] and
    the empty string are not. *)
Definition truthy_id (company_id : option app_linktree.LinkId)
    : option app_linktree.LinkId :=
  match company_id with
  | None => None
  | Some (app_linktree.InvalidUUID raw) => if nonempty raw then company_id else None
  | Some (app_linktree.ValidUUID _) => company_id
  end.

Module UserProfileViewSet.

(** A response of the company actions: an error with its status, or the
    serialized profile with its companies. *)
Inductive ApiResponse : Type :=
  | ErrorResponse (error : string) (status : Z)
  | ProfileResponse (profile : UserProfile.t) (companies : list Company.t).

Definition get_object (env : Env) (user : User.t) : M Accounts UserProfile.t :=
  UserProfile_get_or_create env user.

(** [Response(self.get_serializer(profile).data)] *)
Definition serialized (profile : UserProfile.t) : M Accounts ApiResponse :=
  a <- read_accounts ;;
  ret (ProfileResponse profile (companies_of a profile)).

(** [try: Company.objects.get(id=company_id)  except Company.DoesNotExist] *)
Definition find_company (company_id : app_linktree.LinkId) : M Accounts (option Company.t) :=
  try_except (company <- Company_get company_id ;; ret (Some company))
    (fun e => match e with
              | DoesNotExist => ret None
              | _ => raise e
              end).

Definition add_company (env : Env) (user : User.t)
    (company_id : option app_linktree.LinkId) : M Accounts ApiResponse :=
  match truthy_id company_id with
  | None => ret (ErrorResponse "company_id is required" 400)
  | Some company_id =>
      found <- find_company company_id ;;
      match found with
      | None => ret (ErrorResponse "Company not found" 404)
      | Some company =>
          profile <- get_object env user ;;
          companies_add profile company ;;;
          serialized profile
      end
  end.

Definition remove_company (env : Env) (user : User.t)
    (company_id : option app_linktree.LinkId) : M Accounts ApiResponse :=
  match truthy_id company_id with
  | None => ret (ErrorResponse "company_id is required" 400)
  | Some company_id =>
      found <- find_company company_id ;;
      match found with
      | None => ret (ErrorResponse "Company not found" 404)
      | Some company =>
          profile <- get_object env user ;;
          companies_remove profile company ;;;
          serialized profile
      end
  end.

End UserProfileViewSet.

Module CompanyViewSet.

(** [get_queryset]: every company, or with [mine=true] those of the
    profile of the user of the request. *)
Definition get_queryset (user : User.t) (request : HttpRequest) (a : Accounts)
    : list Company.t :=
  let mine_only := String.eqb (Py.lower (QueryDict_get_str (GET request) "mine")) "true" in
  if mine_only then
    match profile_of a user with
    | Some profile => companies_of a profile
    | None => []
    end
  else QuerySet.order_by by_name (linktree_company a).

End CompanyViewSet.

(** The unique constraint of the one-to-one relation: no two profiles of
    one user. *)
Definition one_profile_per_user (a : Accounts) : Prop :=
  NoDup (omap UserProfile.user (linktree_userprofile a)).

(** ** [app_tinyurl.admin] *)

Module UrlAdmin.


End UrlAdmin.

(** ** [config.auth_views] *)

Module auth_views.

(** What the authentication backends and the CSRF middleware do is taken
    as given: [authenticate] is the user of good credentials, [get_token]
    the token of the request. *)
Record Backend : Type := mkBackend {
  authenticate : string -> string -> option User.t;
  get_token : string
}.

(** The tables of accounts, and the user the session is logged in as. *)
Record Site : Type := mkSite {
  accounts : Accounts;
  session_user : option Z
}.

(** A computation on the accounts, run on the site. *)
Definition on_accounts {A} (m : M Accounts A) : M Site A :=
  fun site =>
    match m (accounts site) with
    | (r, a) => (r, mkSite a (session_user site))
    end.

(** [login(request, user)] *)
Definition login (user : User.t) : M Site unit :=
  fun site => (inr tt, mkSite (accounts site) (Some (User.id user))).

(** The [user] entry of the responses. *)
Record UserInfo : Type := mkUserInfo {
  info_id : Z;
  info_username : string;
  info_email : string;
  info_first_name : string;
  info_last_name : string
}.

Definition user_info (user : User.t) : UserInfo :=
  mkUserInfo (User.id user) (User.username user) (User.email user)
    (User.first_name user) (User.last_name user).

Inductive AuthResponse : Type :=
  | AuthError (error : string) (status : Z)
  | AuthData (message : option string) (user : UserInfo) (profile : UserProfile.t)
      (companies : list Company.t) (csrf_token : string).

(** [UserProfileSerializer(profile).data] *)
Definition profile_data (profile : UserProfile.t) : M Site (list Company.t) :=
  on_accounts (a <- read_accounts ;; ret (companies_of a profile)).

(** [login_view]; [username] and [password] are [request.data.get(...)]. *)
Definition login_view (backend : Backend) (env : Env) (username password : option string)
    : M Site AuthResponse :=
  if negb (nonempty (default "" username)) || negb (nonempty (default "" password))
  then ret (AuthError "Username and password are required" 400)
  else
    match authenticate backend (default "" username) (default "" password) with
    | Some user =>
        login user ;;;
        profile <- on_accounts (UserProfile_get_or_create env user) ;;
        companies <- profile_data profile ;;
        ret (AuthData (Some "Login successful") (user_info user) profile companies
               (get_token backend))
    | None => ret (AuthError "Invalid credentials" 401)
    end.

(** [me_view], for the user of the request. *)
Definition me_view (backend : Backend) (env : Env) (user : User.t) : M Site AuthResponse :=
  profile <- on_accounts (UserProfile_get_or_create env user) ;;
  companies <- profile_data profile ;;
  ret (AuthData None (user_info user) profile companies (get_token backend)).

End auth_views.

(** The order of [Link] rows on a page: by [order], then newest first. *)
Definition shown_before (x y : Link.t) : Prop :=
  Link.order x < Link.order y
  \/ (Link.order x = Link.order y /\ Link.created_at y <= Link.created_at x).

(** The character [c] does not occur in [s]. *)
Definition free_of (c : ascii) (s : string) : Prop := Py.char_in c s = false.

(** An address on one line: every line feed is a semicolon, every
    carriage return is gone, every other character stays. *)
Fixpoint on_one_line (address : string) : string :=
  match address with
  | EmptyString => EmptyString
  | String c r =>
      if Ascii.eqb c LF then String ";" (on_one_line r)
      else if Ascii.eqb c CR then on_one_line r
      else String c (on_one_line r)
  end.

(** Every character of [s] satisfies [p]. *)
Fixpoint all_chars (p : ascii -> bool) (s : string) : bool :=
  match s with
  | EmptyString => true
  | String c r => p c && all_chars p r
  end.

(** A text of ASCII characters only. *)
Definition ascii_only (s : string) : Prop := all_chars Py.is_ascii s = true.


(** A scheme [HttpResponseRedirect] accepts: none, or one of the allowed
    ones. *)
Definition scheme_allowed (scheme : string) : Prop :=
  scheme = "" \/ In scheme allowed_schemes.

(** The entry of a comma-separated header that comes first. *)
Definition first_entry (header entry : string) : Prop :=
  free_of "," entry
  /\ (header = entry \/ exists rest, header = entry +:+ "," +:+ rest).

(** A small link tree: two users, the links of both, one profile and its
    company. *)
Module Tree.

Definition ada : User.t := User.Build 1 "ada" "Ada" "Lovelace" "ada@example.org".
Definition bob : User.t := User.Build 2 "bob" "" "" "".

Definition blog : Link.t :=
  Link.Build 11%N "Blog" (Some 1) "https://example.org/blog" 100 100 true 2 "".
Definition talks : Link.t :=
  Link.Build 12%N "Talks" (Some 1) "https://example.org/talks" 200 200 true 1 "".
Definition draft : Link.t :=
  Link.Build 13%N "Draft" (Some 1) "https://example.org/draft" 300 300 false 0 "".
Definition shop : Link.t :=
  Link.Build 14%N "Shop" (Some 2) "https://example.org/shop" 50 50 true 0 "".

Definition database : Database := mkDatabase [] [] [blog; talks; draft; shop] [].

Definition profile : UserProfile.t :=
  UserProfile.Build 21%N (Some 1) "" "Lovelace" "" "+33 1 00 00 00 00" None 0 0.

Definition engines : Company.t :=
  Company.Build 31%N "Analytical Engines"
    ("12 St James Square" +:+ CRLF +:+ "London") "" "" 0 0.

Definition accounts : Accounts :=
  mkAccounts [ada; bob] [profile] [engines] [(21%N, 31%N)].

(** [?is_active=True] *)
Definition active_only : HttpRequest := Bench.request_of [("is_active", ["True"])] [].

(** A request without query parameters. *)
Definition plain : HttpRequest := Bench.request_of [] [].

(** A backend that knows one password. *)
Definition backend : auth_views.Backend :=
  auth_views.mkBackend
    (fun username password =>
       if String.eqb username "bob" && String.eqb password "s3cret" then Some bob else None)
    "token".

Definition site : auth_views.Site := auth_views.mkSite accounts None.

(** [?mine=TRUE] *)
Definition mine : HttpRequest := Bench.request_of [("mine", ["TRUE"])] [].

Definition new_link : LinkViewSet.LinkData :=
  LinkViewSet.mkLinkData "Code" "https://example.org/code" None None None.

End Tree.

(** Clicks from Paris: two with the country, one without, and a click
    whose city is not known. *)
Module Cities.

Definition database : Database :=
  mkDatabase [Worked.url]
    [UrlStat.Build 201%N 1%N 10 false "mobile" (Some "Paris") (Some "FR") None None;
     UrlStat.Build 202%N 1%N 20 false "mobile" (Some "Paris") None None None;
     UrlStat.Build 203%N 1%N 30 false "desktop" None (Some "FR") None None;
     UrlStat.Build 204%N 1%N 40 true "desktop" (Some "Paris") (Some "FR") None None]
    [] [].


End Cities.

Arguments utils.data_get : simpl never.

(** ** Running the monad *)

Ltac run :=
  unfold bind, ret, raise, lift, try_except, log, read_db, write_db, draw; simpl.

(** ** The device classifier *)

Lemma get_device_type_run {St} (env : Env) (ua : string) (w : St) :
  exists dt, utils.get_device_type env ua w = (inr dt, w) /\ dt ∈ device_classes.
Proof.
  unfold utils.get_device_type, device_classes.
  destruct ua as [|c ua]; simpl.
  - exists "unknown". split; [reflexivity | set_solver].
  - run. destruct (parse_user_agent env (String c ua)) as [e|r]; simpl.
    + exists "unknown". split; [reflexivity | set_solver].
    + destruct (is_mobile r) as [e|[|]]; simpl;
        [eexists; split; [reflexivity | set_solver] ..|].
      destruct (is_tablet r) as [e|[|]]; simpl;
        [eexists; split; [reflexivity | set_solver] ..|].
      destruct (is_pc r) as [e|[|]]; simpl;
        eexists; (split; [reflexivity | set_solver]).
Qed.

(** ** The geolocation resolver *)

Lemma get_location_skipped (env : Env) (ip : option string) (w : World) :
  skipped_ip ip = true ->
  utils.get_location_from_ip env ip w = (inr utils.no_location, w).
Proof.
  intros H. unfold utils.get_location_from_ip. fold (skipped_ip ip). rewrite H.
  reflexivity.
Qed.

Lemma get_location_lookup (env : Env) (ip : option string) (w : World) :
  skipped_ip ip = false ->
  exists location,
    utils.get_location_from_ip env ip w
    = (inr location,
       mkWorld (db w) (effects w ++ [HttpGet (lookup_url env (default "" ip)) 2]) (rng w)).
Proof.
  intros H. unfold utils.get_location_from_ip. fold (skipped_ip ip). rewrite H.
  unfold utils.requests_get_logged. fold (lookup_url env (default "" ip)). run.
  destruct (requests_get env _) as [e|response]; simpl; [eauto|].
  destruct (status_code response =? 200); simpl; [|eauto].
  destruct (json response) as [e|data]; simpl; [eauto|].
  destruct (utils.data_get data "status") as [e|status]; simpl; [eauto|].
  destruct (decide (status = PyStr "success")) as [Hs|Hs]; simpl; [|eauto].
  destruct (utils.data_get data "city") as [e|c]; simpl; [eauto|].
  destruct (utils.data_get data "country") as [e|k]; simpl; eauto.
Qed.

Lemma get_location_run (env : Env) (ip : option string) (w : World) :
  exists location extra,
    utils.get_location_from_ip env ip w
    = (inr location, mkWorld (db w) (effects w ++ extra) (rng w))
    /\ Forall is_http extra.
Proof.
  destruct (skipped_ip ip) eqn:H.
  - exists utils.no_location, []. rewrite (get_location_skipped _ _ _ H).
    rewrite app_nil_r. destruct w; auto.
  - destruct (get_location_lookup env ip w H) as [l Hl].
    exists l, [HttpGet (lookup_url env (default "" ip)) 2]. split; [exact Hl|].
    repeat constructor. unfold is_http. eauto.
Qed.

(** A failed lookup is answered with the empty location. *)
Lemma get_location_failure (env : Env) (ip : string) (w : World) :
  skipped_ip (Some ip) = false ->
  (match requests_get env (lookup_url env ip) with
   | inl _ => True
   | inr response =>
       status_code response <> 200
       \/ (exists e, json response = inl e)
       \/ json response = inr JsonOther
       \/ (exists fields, json response = inr (JsonObject fields)
                          /\ utils.data_get (JsonObject fields) "status" <> inr (PyStr "success"))
   end) ->
  fst (utils.get_location_from_ip env (Some ip) w) = inr utils.no_location.
Proof.
  intros H F. unfold utils.get_location_from_ip. fold (skipped_ip (Some ip)). rewrite H.
  unfold utils.requests_get_logged. simpl default. fold (lookup_url env ip). run.
  destruct (requests_get env _) as [e|response]; simpl; [reflexivity|].
  destruct (Z.eqb_spec (status_code response) 200) as [E|E]; simpl; [|reflexivity].
  destruct F as [F|[[e F]|[F|[fields [F1 F2]]]]]; try contradiction.
  - rewrite F. reflexivity.
  - rewrite F. reflexivity.
  - rewrite F1. simpl.
    destruct (utils.data_get (JsonObject fields) "status") as [e|status] eqn:S; simpl;
      [reflexivity|].
    destruct (decide (status = PyStr "success")) as [->|]; [congruence|reflexivity].
Qed.

(** ** The identifier generator *)

Lemma char_at_in (s : string) (i : nat) :
  (i < String.length s)%nat -> Py.char_in (Py.char_at s i) s = true.
Proof.
  revert i. induction s as [|c s IH]; intros i Hi; simpl in *; [lia|].
  destruct i as [|i]; simpl.
  - rewrite Ascii.eqb_refl. reflexivity.
  - rewrite IH by lia. apply orb_true_r.
Qed.

Lemma char_in_filter (keep : ascii -> bool) (s : string) (c : ascii) :
  Py.char_in c (Py.filter_chars keep s) = true ->
  Py.char_in c s = true /\ keep c = true.
Proof.
  induction s as [|d s IH]; simpl; [discriminate|].
  destruct (keep d) eqn:K; simpl.
  - destruct (Ascii.eqb_spec c d) as [->|N]; simpl; [auto|].
    intros H. destruct (IH H). auto.
  - intros H. destruct (IH H) as [H1 H2]. rewrite H1, orb_true_r. auto.
Qed.

Lemma chars_unambiguous (c : ascii) :
  Py.char_in c utils.chars = true ->
  Py.char_in c (utils.ascii_letters +:+ utils.digits) = true
  /\ Py.char_in c "O0l1I" = false.
Proof.
  unfold utils.chars. intros H.
  destruct (char_in_filter _ _ _ H) as [H1 H2]. split; [exact H1|].
  destruct (Py.char_in c "O0l1I"); [discriminate H2 | reflexivity].
Qed.

Lemma code_of_length (rng : nat -> nat) (n : nat) : String.length (code_of rng n) = n.
Proof.
  revert rng. induction n as [|n IH]; intros rng; cbn [code_of String.length]; [reflexivity|].
  by rewrite IH.
Qed.

Lemma code_of_chars (rng : nat -> nat) (n : nat) (c : ascii) :
  Py.char_in c (code_of rng n) = true -> Py.char_in c utils.chars = true.
Proof.
  revert rng. induction n as [|n IH]; intros rng; cbn [code_of Py.char_in]; [discriminate|].
  set (len := String.length utils.chars).
  assert (Hlen : len <> O) by (subst len; vm_compute; discriminate).
  destruct (Ascii.eqb_spec c (Py.char_at utils.chars (rng O mod len)%nat)) as [->|N].
  - intros _. apply char_at_in. fold len. apply Nat.mod_upper_bound. exact Hlen.
  - cbn [orb]. apply IH.
Qed.

Lemma code_of_ext (r1 r2 : nat -> nat) (n : nat) :
  (forall i, r1 i = r2 i) -> code_of r1 n = code_of r2 n.
Proof.
  revert r1 r2. induction n as [|n IH]; intros r1 r2 E; cbn [code_of]; [reflexivity|].
  rewrite (E O). f_equal. apply IH. intros i. unfold advance. apply E.
Qed.

Lemma generate_short_code_run (n : nat) (w : World) :
  utils.generate_short_code n w
  = (inr (code_of (rng w) n), mkWorld (db w) (effects w) (advance n (rng w))).
Proof.
  revert w. induction n as [|n IH]; intros w.
  - destruct w; reflexivity.
  - simpl utils.generate_short_code. unfold utils.random_choice. run.
    rewrite IH. reflexivity.
Qed.

Lemma Url_exists_run (code : string) (w : World) :
  app_tinyurl.Url_exists code w
  = (inr (taken (db w) code),
     mkWorld (db w) (effects w ++ [SqlSelect "tinyurl_url"]) (rng w)).
Proof. reflexivity. Qed.

Lemma candidate_shift (rng : nat -> nat) (k : nat) :
  candidate (advance utils.default_length rng) k = candidate rng (S k).
Proof.
  unfold candidate. apply code_of_ext. intros i. unfold advance. f_equal; lia.
Qed.

Lemma attempts_step (n : nat) (vd : app_tinyurl.ValidatedData) (w : World) :
  app_tinyurl.attempts (S n) vd w
  = let code := candidate (rng w) 0 in
    let w1 := mkWorld (db w) (effects w ++ [SqlSelect "tinyurl_url"])
                (advance utils.default_length (rng w)) in
    if taken (db w) code then app_tinyurl.attempts n vd w1
    else (inr (app_tinyurl.mkValidatedData (Some code)
                 (app_tinyurl.vd_long_url vd) (app_tinyurl.vd_is_active vd)), w1).
Proof.
  cbn [app_tinyurl.attempts]. unfold bind at 1. rewrite generate_short_code_run.
  unfold bind at 1. rewrite Url_exists_run. cbn [db effects rng].
  change (code_of (rng w) utils.default_length) with (candidate (rng w) 0).
  cbv zeta. destruct (taken (db w) (candidate (rng w) 0)); reflexivity.
Qed.

Lemma attempts_exhausted (n : nat) (vd : app_tinyurl.ValidatedData) (w : World) :
  (forall k, (k < n)%nat -> taken (db w) (candidate (rng w) k) = true) ->
  exists w',
    app_tinyurl.attempts n vd w = (inl (ValidationError app_tinyurl.capacity_message), w')
    /\ db w' = db w /\ effects w' = (effects w ++ lookups n)%list.
Proof.
  revert w. induction n as [|n IH]; intros w H.
  - exists w. cbn. rewrite app_nil_r. auto.
  - rewrite attempts_step. cbv zeta. rewrite (H O) by lia.
    destruct (IH (mkWorld (db w) (effects w ++ [SqlSelect "tinyurl_url"])
                    (advance utils.default_length (rng w)))) as (w' & E & D & F).
    { intros k Hk. cbn [db rng]. rewrite candidate_shift. apply H. lia. }
    exists w'. split; [exact E|]. split; [exact D|].
    rewrite F. cbn [effects lookups repeat]. rewrite <- app_assoc. reflexivity.
Qed.

Lemma attempts_found (n k : nat) (vd : app_tinyurl.ValidatedData) (w : World) :
  (k < n)%nat ->
  (forall j, (j < k)%nat -> taken (db w) (candidate (rng w) j) = true) ->
  taken (db w) (candidate (rng w) k) = false ->
  exists w',
    app_tinyurl.attempts n vd w
    = (inr (app_tinyurl.mkValidatedData (Some (candidate (rng w) k))
              (app_tinyurl.vd_long_url vd) (app_tinyurl.vd_is_active vd)), w')
    /\ db w' = db w /\ effects w' = (effects w ++ lookups (S k))%list.
Proof.
  revert k w. induction n as [|n IH]; intros k w Hk Hbefore Hfree; [lia|].
  rewrite attempts_step. cbv zeta. destruct k as [|k].
  - rewrite Hfree. eexists. split; [reflexivity|]. auto.
  - rewrite (Hbefore O) by lia.
    destruct (IH k (mkWorld (db w) (effects w ++ [SqlSelect "tinyurl_url"])
                      (advance utils.default_length (rng w)))) as (w' & E & D & F).
    + lia.
    + intros j Hj. cbn [db rng]. rewrite candidate_shift. apply Hbefore. lia.
    + cbn [db rng]. rewrite candidate_shift. exact Hfree.
    + exists w'. cbn [db rng] in E. rewrite candidate_shift in E.
      split; [exact E|]. split; [exact D|].
      rewrite F. cbn [effects]. rewrite <- app_assoc. reflexivity.
Qed.

(** ** Redirect resolution *)

Lemma bind_inr {St A B} (m : M St A) (k : A -> M St B) (w w' : St) (a : A) :
  m w = (inr a, w') -> bind m k w = k a w'.
Proof. intros E. unfold bind. rewrite E. reflexivity. Qed.

Lemma filter_nil_iff {A} (p : A -> bool) (l : list A) :
  List.filter p l = [] <-> (forall x, In x l -> p x = false).
Proof.
  induction l as [|a l IH]; simpl; [tauto|].
  destruct (p a) eqn:E; split.
  - discriminate.
  - intros H. specialize (H a (or_introl eq_refl)). congruence.
  - intros H x [<-|Hx]; [exact E | apply IH; assumption].
  - intros H. apply IH. intros x Hx. apply H. auto.
Qed.

Lemma filter_unique_key {A K} (key : A -> K) (p : A -> bool) (l : list A) (x : A) :
  NoDup (map key l) -> In x l -> p x = true ->
  (forall y, In y l -> p y = true -> key y = key x) ->
  List.filter p l = [x].
Proof.
  induction l as [|a l IH]; intros ND Hx Px Same; [destruct Hx|].
  simpl in ND. apply NoDup_cons in ND as [Na ND]. simpl.
  destruct Hx as [->|Hx].
  - rewrite Px. f_equal. apply filter_nil_iff. intros y Hy.
    destruct (p y) eqn:Py; [|reflexivity]. exfalso. apply Na.
    rewrite <- (Same y (or_intror Hy) Py). apply list_elem_of_In, in_map, Hy.
  - destruct (p a) eqn:Pa.
    + exfalso. apply Na. rewrite (Same a (or_introl eq_refl) Pa).
      apply list_elem_of_In, in_map, Hx.
    + apply IH; auto. intros y Hy. apply Same. right. exact Hy.
Qed.

Lemma str_in_lower (x : string) (ps : list string) :
  Py.str_in (Py.lower x) (map Py.lower ps) = true
  <-> exists p, In p ps /\ eq_ignore_case x p.
Proof.
  unfold Py.str_in, eq_ignore_case. rewrite existsb_exists. split.
  - intros (y & Hy & E). apply in_map_iff in Hy as (p & <- & Hp).
    apply String.eqb_eq in E. eauto.
  - intros (p & Hp & E). exists (Py.lower p). split; [apply in_map, Hp|].
    apply String.eqb_eq, E.
Qed.

Lemma reserved_test (env : Env) (short_code : string) :
  Py.str_in (Py.lower short_code) (map Py.lower (reserved_paths env)) = true
  <-> reserved env short_code.
Proof. apply str_in_lower. Qed.

(** *** The redirect constructor *)

Lemma scheme_allowed_test (scheme : string) :
  negb (String.eqb scheme "") && negb (Py.str_in scheme allowed_schemes) = false
  <-> scheme_allowed scheme.
Proof.
  unfold scheme_allowed, Py.str_in. rewrite andb_false_iff, !negb_false_iff.
  rewrite String.eqb_eq, existsb_exists. split.
  - intros [E|(x & Hx & E)]; [left; exact E|]. right.
    apply String.eqb_eq in E. subst x. exact Hx.
  - intros [E|H]; [left; exact E|]. right. exists scheme.
    split; [exact H | apply String.eqb_refl].
Qed.

Lemma redirect_allowed (env : Env) (redirect_to scheme : string) :
  urlsplit_scheme env redirect_to = Some scheme -> scheme_allowed scheme ->
  HttpResponseRedirect env redirect_to = inr (Redirect (iri_to_uri redirect_to)).
Proof.
  intros E A. unfold HttpResponseRedirect. rewrite E.
  rewrite (proj2 (scheme_allowed_test scheme) A). reflexivity.
Qed.

Lemma redirect_refused (env : Env) (redirect_to scheme : string) :
  urlsplit_scheme env redirect_to = Some scheme -> ~ scheme_allowed scheme ->
  HttpResponseRedirect env redirect_to = inl DisallowedRedirect.
Proof.
  intros E A. unfold HttpResponseRedirect. rewrite E.
  destruct (negb (String.eqb scheme "") && negb (Py.str_in scheme allowed_schemes)) eqn:T;
    [reflexivity|]. exfalso. apply A, scheme_allowed_test, T.
Qed.

Lemma redirect_unparsed (env : Env) (redirect_to : string) :
  urlsplit_scheme env redirect_to = None -> HttpResponseRedirect env redirect_to = inl ValueError.
Proof. intros E. unfold HttpResponseRedirect. rewrite E. reflexivity. Qed.

(** The constructor raises nothing else. *)
Lemma redirect_raises (env : Env) (redirect_to : string) (e : exn) :
  HttpResponseRedirect env redirect_to = inl e -> e = ValueError \/ e = DisallowedRedirect.
Proof.
  unfold HttpResponseRedirect. destruct (urlsplit_scheme env redirect_to) as [scheme|].
  - destruct (_ && _); [|discriminate]. intros E. injection E as <-. auto.
  - intros E. injection E as <-. auto.
Qed.

(** A response the constructor gives is the redirect to the encoded
    destination, and the scheme was an allowed one. *)
Lemma redirect_built (env : Env) (redirect_to : string) (response : HttpResponse) :
  HttpResponseRedirect env redirect_to = inr response ->
  response = Redirect (iri_to_uri redirect_to)
  /\ exists scheme, urlsplit_scheme env redirect_to = Some scheme /\ scheme_allowed scheme.
Proof.
  unfold HttpResponseRedirect.
  destruct (urlsplit_scheme env redirect_to) as [scheme|]; [|discriminate].
  destruct (negb (String.eqb scheme "") && negb (Py.str_in scheme allowed_schemes)) eqn:T;
    [discriminate|].
  intros E. injection E as <-. split; [reflexivity|].
  exists scheme. split; [reflexivity | apply scheme_allowed_test, T].
Qed.

(** Text of characters that [quote] leaves alone is its own encoding. *)
Lemma iri_to_uri_safe (iri : string) : all_chars uri_safe iri = true -> iri_to_uri iri = iri.
Proof.
  induction iri as [|c r IH]; [reflexivity|]. cbn [all_chars iri_to_uri].
  intros H. apply andb_true_iff in H as [Hc Hr]. rewrite Hc, (IH Hr). reflexivity.
Qed.

(** The encoding holds safe characters only: a line break, a blank or a
    byte beyond ASCII never reaches the [Location] header. *)
Lemma iri_to_uri_is_safe (iri : string) : all_chars uri_safe (iri_to_uri iri) = true.
Proof.
  induction iri as [|c r IH]; [reflexivity|]. cbn [iri_to_uri].
  destruct (uri_safe c) eqn:S; [cbn [all_chars]; rewrite S, IH; reflexivity|].
  change (percent (Py.code c) +:+ iri_to_uri r)
    with (String "%" (String (hex_digit (Py.code c / 16))
                        (String (hex_digit (Py.code c mod 16)) (iri_to_uri r)))).
  cbn [all_chars]. rewrite IH.
  assert (H : forall n, (n < 16)%nat -> uri_safe (hex_digit n) = true).
  { intros n Hn. do 16 (destruct n as [|n]; [reflexivity|]). lia. }
  rewrite !H; [reflexivity| |].
  - apply Nat.mod_upper_bound. lia.
  - apply Nat.Div0.div_lt_upper_bound. pose proof (nat_ascii_bounded c).
    unfold Py.code. lia.
Qed.

Lemma redirect_view_reserved (env : Env) (request : HttpRequest) (sc : string) (w : World) :
  reserved env sc ->
  app_tinyurl.redirect_view env request sc w = (inr (app_tinyurl.not_found_page env), w).
Proof.
  intros R. apply reserved_test in R. unfold app_tinyurl.redirect_view.
  fold (reserved_paths env). cbv zeta. rewrite R. reflexivity.
Qed.

Lemma redirect_view_lookup (env : Env) (request : HttpRequest) (sc : string) (w : World) :
  ~ reserved env sc ->
  app_tinyurl.redirect_view env request sc w
  = match active_urls_for (db w) sc with
    | [] => (inr (app_tinyurl.not_found_page env), logged (SqlSelect "tinyurl_url") w)
    | [url] =>
        (device_type <- utils.get_device_type env (default "" (META request !! "HTTP_USER_AGENT")) ;;
         location <- utils.get_location_from_ip env (utils.get_client_ip request) ;;
         app_tinyurl.UrlStat_create env url
           (String.eqb (Py.lower (QueryDict_get_str (GET request) "qrcode")) "true")
           device_type (utils.city location) (utils.country location)
           (utils.get_client_ip request) (default "" (META request !! "HTTP_USER_AGENT")) ;;;
         lift (HttpResponseRedirect env (Url.long_url url)))
          (logged (SqlSelect "tinyurl_url") w)
    | _ => (inl MultipleObjectsReturned, logged (SqlSelect "tinyurl_url") w)
    end.
Proof.
  intros R. unfold app_tinyurl.redirect_view. fold (reserved_paths env). cbv zeta.
  destruct (Py.str_in _ _) eqn:T; [apply reserved_test in T; contradiction|].
  unfold bind at 1, try_except, app_tinyurl.Url_get_active.
  unfold bind at 1. unfold bind at 1, log. unfold bind at 1, read_db. cbn [db].
  fold (logged (SqlSelect "tinyurl_url") w). unfold active_urls_for.
  destruct (List.filter _ _) as [|url [|other rest]]; reflexivity.
Qed.

Lemma classic_reserved (env : Env) (sc : string) : reserved env sc \/ ~ reserved env sc.
Proof.
  destruct (Py.str_in (Py.lower sc) (map Py.lower (reserved_paths env))) eqn:T.
  - left. apply reserved_test. exact T.
  - right. intros R. apply reserved_test in R. congruence.
Qed.

Lemma qrcode_flag_test (request : HttpRequest) :
  String.eqb (Py.lower (QueryDict_get_str (GET request) "qrcode")) "true" = true
  <-> qrcode_flag request.
Proof. unfold qrcode_flag, eq_ignore_case. rewrite String.eqb_eq. reflexivity. Qed.

Lemma redirect_view_hit (env : Env) (request : HttpRequest) (sc : string) (w : World)
    (url : Url.t) :
  ~ reserved env sc ->
  active_urls_for (db w) sc = [url] ->
  exists stat extra,
    app_tinyurl.redirect_view env request sc w
    = (HttpResponseRedirect env (Url.long_url url),
       mkWorld
         (mkDatabase (tinyurl_url (db w)) (tinyurl_urlstat (db w) ++ [stat])
            (linktree_link (db w)) (linktree_linkstat (db w)))
         (effects w ++ SqlSelect "tinyurl_url" :: extra ++ [SqlInsert "tinyurl_urlstat"])
         (rng w))
    /\ UrlStat.url stat = Url.id url
    /\ (UrlStat.via_qrcode stat = true <-> qrcode_flag request)
    /\ UrlStat.device_type stat ∈ device_classes
    /\ Forall is_http extra.
Proof.
  intros R H. rewrite (redirect_view_lookup _ _ _ _ R), H.
  destruct (get_device_type_run env (default "" (META request !! "HTTP_USER_AGENT"))
              (logged (SqlSelect "tinyurl_url") w)) as (device & Ed & Hd).
  rewrite (bind_inr _ _ _ _ _ Ed).
  destruct (get_location_run env (utils.get_client_ip request)
              (logged (SqlSelect "tinyurl_url") w)) as (location & extra & El & He).
  rewrite (bind_inr _ _ _ _ _ El).
  eexists. exists extra. split.
  - unfold app_tinyurl.UrlStat_create, bind, log, read_db, write_db, ret, lift.
    cbn [db effects rng logged]. rewrite <- !app_assoc. reflexivity.
  - cbn [UrlStat.url UrlStat.via_qrcode UrlStat.device_type].
    split; [reflexivity|]. split; [apply qrcode_flag_test|]. split; assumption.
Qed.

Lemma link_redirect_invalid (env : Env) (request : HttpRequest) (raw : string) (w : World) :
  app_linktree.link_redirect env request (app_linktree.InvalidUUID raw) w
  = (inr (app_linktree.not_found_page env), w).
Proof. reflexivity. Qed.

Lemma link_redirect_lookup (env : Env) (request : HttpRequest) (u : UUID) (w : World) :
  app_linktree.link_redirect env request (app_linktree.ValidUUID u) w
  = match active_links_for (db w) u with
    | [link] =>
        (device_type <- utils.get_device_type env (default "" (META request !! "HTTP_USER_AGENT")) ;;
         location <- utils.get_location_from_ip env (utils.get_client_ip request) ;;
         app_linktree.LinkStat_create env link
           (String.eqb (Py.lower (QueryDict_get_str (GET request) "qrcode")) "true")
           device_type (utils.city location) (utils.country location)
           (utils.get_client_ip request) (default "" (META request !! "HTTP_USER_AGENT")) ;;;
         lift (HttpResponseRedirect env (Link.url link)))
          (logged (SqlSelect "linktree_link") w)
    | _ => (inr (app_linktree.not_found_page env), logged (SqlSelect "linktree_link") w)
    end.
Proof.
  unfold app_linktree.link_redirect.
  unfold bind at 1, try_except, app_linktree.Link_get_active.
  unfold bind at 1. unfold bind at 1, log. unfold bind at 1, read_db. cbn [db].
  fold (logged (SqlSelect "linktree_link") w). unfold active_links_for.
  destruct (List.filter _ _) as [|link [|other rest]]; reflexivity.
Qed.

Lemma link_redirect_hit (env : Env) (request : HttpRequest) (u : UUID) (w : World)
    (link : Link.t) :
  active_links_for (db w) u = [link] ->
  exists stat extra,
    app_linktree.link_redirect env request (app_linktree.ValidUUID u) w
    = (HttpResponseRedirect env (Link.url link),
       mkWorld
         (mkDatabase (tinyurl_url (db w)) (tinyurl_urlstat (db w))
            (linktree_link (db w)) (linktree_linkstat (db w) ++ [stat]))
         (effects w ++ SqlSelect "linktree_link" :: extra ++ [SqlInsert "linktree_linkstat"])
         (rng w))
    /\ LinkStat.link stat = Link.id link
    /\ (LinkStat.via_qrcode stat = true <-> qrcode_flag request)
    /\ LinkStat.device_type stat ∈ device_classes
    /\ Forall is_http extra.
Proof.
  intros H. rewrite link_redirect_lookup, H.
  destruct (get_device_type_run env (default "" (META request !! "HTTP_USER_AGENT"))
              (logged (SqlSelect "linktree_link") w)) as (device & Ed & Hd).
  rewrite (bind_inr _ _ _ _ _ Ed).
  destruct (get_location_run env (utils.get_client_ip request)
              (logged (SqlSelect "linktree_link") w)) as (location & extra & El & He).
  rewrite (bind_inr _ _ _ _ _ El).
  eexists. exists extra. split.
  - unfold app_linktree.LinkStat_create, bind, log, read_db, write_db, ret, lift.
    cbn [db effects rng logged]. rewrite <- !app_assoc. reflexivity.
  - cbn [LinkStat.link LinkStat.via_qrcode LinkStat.device_type].
    split; [reflexivity|]. split; [apply qrcode_flag_test|]. split; assumption.
Qed.

Lemma active_urls_for_spec (d : Database) (sc : string) (url : Url.t) :
  In url (active_urls_for d sc)
  <-> In url (tinyurl_url d) /\ Url.short_code url = sc /\ Url.is_active url = true.
Proof.
  unfold active_urls_for. rewrite filter_In, andb_true_iff, String.eqb_eq. tauto.
Qed.

Lemma active_links_for_spec (d : Database) (u : UUID) (link : Link.t) :
  In link (active_links_for d u)
  <-> In link (linktree_link d) /\ Link.id link = u /\ Link.is_active link = true.
Proof.
  unfold active_links_for. rewrite filter_In, andb_true_iff, N.eqb_eq. tauto.
Qed.

Lemma active_urls_for_unique (d : Database) (sc : string) (url : Url.t) :
  NoDup (map Url.short_code (tinyurl_url d)) ->
  In url (tinyurl_url d) -> Url.short_code url = sc -> Url.is_active url = true ->
  active_urls_for d sc = [url].
Proof.
  intros ND Hin Hsc Hact. apply (filter_unique_key Url.short_code); auto.
  - rewrite Hsc, String.eqb_refl, Hact. reflexivity.
  - intros y _ Py. apply andb_true_iff in Py as [Py _].
    apply String.eqb_eq in Py. congruence.
Qed.

Lemma active_links_for_unique (d : Database) (u : UUID) (link : Link.t) :
  NoDup (map Link.id (linktree_link d)) ->
  In link (linktree_link d) -> Link.id link = u -> Link.is_active link = true ->
  active_links_for d u = [link].
Proof.
  intros ND Hin Hid Hact. apply (filter_unique_key Link.id); auto.
  - rewrite Hid, N.eqb_refl, Hact. reflexivity.
  - intros y _ Py. apply andb_true_iff in Py as [Py _].
    apply N.eqb_eq in Py. congruence.
Qed.

(** ** The claims *)

(** C8.  Device classification: whatever the parser does, [get_device_type]
    returns one of mobile, tablet, desktop, unknown and leaves the state
    alone; the empty string gives unknown; a parser that raises, on the
    string or on any property it is asked for, gives unknown; and the
    signals are read in the order mobile, tablet, desktop, so that an
    earlier signal wins over every later one. *)
Theorem device_classification (env : Env) (ua : string) (w : World) :
  (exists dt, utils.get_device_type env ua w = (inr dt, w) /\ dt ∈ device_classes)
  /\ utils.get_device_type env "" w = (inr "unknown", w)
  /\ (forall e, parse_user_agent env ua = inl e ->
        utils.get_device_type env ua w = (inr "unknown", w))
  /\ (forall r, ua <> "" -> parse_user_agent env ua = inr r ->
        (is_mobile r = inr true ->
           utils.get_device_type env ua w = (inr "mobile", w))
        /\ (is_mobile r = inr false -> is_tablet r = inr true ->
              utils.get_device_type env ua w = (inr "tablet", w))
        /\ (is_mobile r = inr false -> is_tablet r = inr false -> is_pc r = inr true ->
              utils.get_device_type env ua w = (inr "desktop", w))
        /\ (is_mobile r = inr false -> is_tablet r = inr false -> is_pc r = inr false ->
              utils.get_device_type env ua w = (inr "unknown", w))
        /\ (forall e, is_mobile r = inl e
                      \/ (is_mobile r = inr false /\ is_tablet r = inl e)
                      \/ (is_mobile r = inr false /\ is_tablet r = inr false
                          /\ is_pc r = inl e) ->
              utils.get_device_type env ua w = (inr "unknown", w))).
Proof.
  split; [apply get_device_type_run|]. split; [reflexivity|]. split.
  - intros e E. unfold utils.get_device_type. destruct ua as [|c ua]; [reflexivity|].
    cbn [Py.truthy negb]. unfold try_except, bind, lift. rewrite E. reflexivity.
  - intros r Hne E. unfold utils.get_device_type.
    destruct ua as [|c ua]; [congruence|].
    cbn [Py.truthy negb]. unfold try_except, bind, lift, ret. rewrite E.
    repeat split.
    + intros ->. reflexivity.
    + intros -> ->. reflexivity.
    + intros -> -> ->. reflexivity.
    + intros -> -> ->. reflexivity.
    + intros e [->|[[-> ->]|(-> & -> & ->)]]; reflexivity.
Qed.

(** A parser that reports every signal at once: mobile wins. *)
Lemma device_classification_witness :
  utils.get_device_type Fixture.eager_env Fixture.iphone Fixture.promo_world
  = (inr "mobile", Fixture.promo_world).
Proof.
  destruct (device_classification Fixture.eager_env Fixture.iphone Fixture.promo_world)
    as (_ & _ & _ & H).
  destruct (H (mkUserAgent (inr true) (inr true) (inr true))) as (Hm & _);
    [discriminate | reflexivity |].
  apply Hm. reflexivity.
Defined.

(** C7, at the address 192.168.1.10: a private address is not among the
    three literals the resolver skips, so the lookup goes out to the
    network, whatever the service and the settings are. *)
Theorem private_address_is_looked_up (env : Env) (w : World) :
  skipped_ip (Some "192.168.1.10") = false
  /\ effects (snd (utils.get_location_from_ip env (Some "192.168.1.10") w))
     = (effects w ++ [HttpGet (lookup_url env "192.168.1.10") 2])%list.
Proof.
  split; [reflexivity|].
  destruct (get_location_lookup env (Some "192.168.1.10") w eq_refl) as [l E].
  rewrite E. reflexivity.
Qed.

(** C2.  A short code that equals a reserved path up to case is answered
    with the not-found page and the world is left as it was: no query on
    the store, no click row, no effect at all.  With no setting the list
    holds admin, api, app, static and media.  [link_redirect] never reads
    the reserved paths: it behaves the same under every such setting. *)
Theorem reserved_short_circuit (env : Env) (request : HttpRequest) (w : World) :
  (forall sc, reserved env sc ->
     app_tinyurl.redirect_view env request sc w = (inr (app_tinyurl.not_found_page env), w))
  /\ (TINYURL_RESERVED_PATHS (settings env) = None ->
        Forall (reserved env) ["admin"; "api"; "app"; "static"; "media"])
  /\ (forall paths link_id,
        app_linktree.link_redirect (with_reserved_paths env paths) request link_id w
        = app_linktree.link_redirect env request link_id w).
Proof.
  split; [intros sc; apply redirect_view_reserved|]. split.
  - intros E. unfold reserved, reserved_paths. rewrite E.
    repeat constructor; eexists; (split; [|reflexivity]); simpl; tauto.
  - intros paths link_id. reflexivity.
Qed.

Lemma reserved_short_circuit_witness :
  app_tinyurl.redirect_view Bench.env0 (Bench.request_of [("qrcode", ["true"])] [])
    "Admin"
    (Bench.world_of (mkDatabase [Url.Build 7%N "Admin" "https://example.org/" 0 0 true] [] [] []))
  = (inr (render "404.html" [("redirect_url", "https://logmi.example/")] 404),
     Bench.world_of (mkDatabase [Url.Build 7%N "Admin" "https://example.org/" 0 0 true] [] [] [])).
Proof.
  refine (proj1 (reserved_short_circuit Bench.env0 _ _) "Admin" _).
  exists "admin". split; [simpl; tauto | reflexivity].
Defined.

(** C1, as stated, fails on a reserved short code: the row ["static"] is
    stored and active, yet [redirect_view] answers with the not-found
    page. *)
Lemma redirect_resolution_counterexample :
  In Static.stored (tinyurl_url (db Static.stored_world))
  /\ Url.short_code Static.stored = "static"
  /\ Url.is_active Static.stored = true
  /\ fst (app_tinyurl.redirect_view Bench.env0 (Bench.request_of [] []) "static"
            Static.stored_world)
     = inr (render "404.html" [("redirect_url", "https://logmi.example/")] 404)
  /\ fst (app_tinyurl.redirect_view Bench.env0 (Bench.request_of [] []) "static"
            Static.stored_world)
     <> inr (Redirect (Url.long_url Static.stored)).
Proof. repeat split; [simpl; auto | discriminate]. Qed.

(** It fails as well on a destination whose scheme Django does not
    redirect to: the row is stored and active, the click is recorded, and
    the view raises instead of answering. *)
Lemma redirect_refused_example :
  exists w',
    app_tinyurl.redirect_view Bench.env0 (Bench.request_of [] []) "files" Refused.world
    = (inl DisallowedRedirect, w')
    /\ length (tinyurl_urlstat (db w')) = 1%nat.
Proof. eexists. split; [vm_compute; reflexivity | reflexivity]. Qed.

(** C1, amended.  Short codes being unique in [Url] and primary keys in
    [Link], and identifiers and reserved paths being ASCII text: an
    identifier that is not a reserved path and is carried by an active
    row is answered by what [HttpResponseRedirect] makes of the stored
    destination.  When the scheme of the destination is one Django
    redirects to (http, https, ftp, or none) this is the redirect whose
    [Location] is the destination percent-encoded, which is the
    destination itself when it holds only characters the encoding leaves
    alone; for any other scheme the view raises [DisallowedRedirect], and
    a destination [urlsplit] cannot parse raises its [ValueError].  A
    short code that is reserved, and an identifier that no active row
    carries (absent, inactive, or not a UUID), are all answered with one
    and the same not-found page, and the database stays as it was.  An identifier
    whose row is inactive and one that has no row at all give the same
    response after the same single query: nothing tells them apart. *)
Theorem redirect_resolution (env : Env) (request : HttpRequest) (w : World) :
  (forall sc url,
     NoDup (map Url.short_code (tinyurl_url (db w))) ->
     ascii_only sc -> Forall ascii_only (reserved_paths env) ->
     ~ reserved env sc ->
     In url (tinyurl_url (db w)) -> Url.short_code url = sc -> Url.is_active url = true ->
     (forall scheme,
        urlsplit_scheme env (Url.long_url url) = Some scheme -> scheme_allowed scheme ->
        fst (app_tinyurl.redirect_view env request sc w)
        = inr (Redirect (iri_to_uri (Url.long_url url)))
        /\ (all_chars uri_safe (Url.long_url url) = true ->
            fst (app_tinyurl.redirect_view env request sc w)
            = inr (Redirect (Url.long_url url))))
     /\ (forall scheme,
           urlsplit_scheme env (Url.long_url url) = Some scheme -> ~ scheme_allowed scheme ->
           fst (app_tinyurl.redirect_view env request sc w) = inl DisallowedRedirect)
     /\ (urlsplit_scheme env (Url.long_url url) = None ->
         fst (app_tinyurl.redirect_view env request sc w) = inl ValueError))
  /\ (forall sc,
        (ascii_only sc /\ reserved env sc)
        \/ (forall url, In url (tinyurl_url (db w)) -> Url.short_code url = sc ->
                        Url.is_active url = false) ->
        fst (app_tinyurl.redirect_view env request sc w)
        = inr (render "404.html" [("redirect_url", REDIRECT_URL (settings env))] 404)
        /\ db (snd (app_tinyurl.redirect_view env request sc w)) = db w)
  /\ (forall sc,
        ascii_only sc -> Forall ascii_only (reserved_paths env) ->
        ~ reserved env sc ->
        (forall url, In url (tinyurl_url (db w)) -> Url.short_code url = sc ->
                     Url.is_active url = false) ->
        app_tinyurl.redirect_view env request sc w
        = (inr (render "404.html" [("redirect_url", REDIRECT_URL (settings env))] 404),
           logged (SqlSelect "tinyurl_url") w))
  /\ (forall u link,
        NoDup (map Link.id (linktree_link (db w))) ->
        In link (linktree_link (db w)) -> Link.id link = u -> Link.is_active link = true ->
        (forall scheme,
           urlsplit_scheme env (Link.url link) = Some scheme -> scheme_allowed scheme ->
           fst (app_linktree.link_redirect env request (app_linktree.ValidUUID u) w)
           = inr (Redirect (iri_to_uri (Link.url link)))
           /\ (all_chars uri_safe (Link.url link) = true ->
               fst (app_linktree.link_redirect env request (app_linktree.ValidUUID u) w)
               = inr (Redirect (Link.url link))))
        /\ (forall scheme,
              urlsplit_scheme env (Link.url link) = Some scheme -> ~ scheme_allowed scheme ->
              fst (app_linktree.link_redirect env request (app_linktree.ValidUUID u) w)
              = inl DisallowedRedirect)
        /\ (urlsplit_scheme env (Link.url link) = None ->
            fst (app_linktree.link_redirect env request (app_linktree.ValidUUID u) w)
            = inl ValueError))
  /\ (forall link_id,
        match link_id with
        | app_linktree.InvalidUUID _ => True
        | app_linktree.ValidUUID u =>
            forall link, In link (linktree_link (db w)) -> Link.id link = u ->
                         Link.is_active link = false
        end ->
        fst (app_linktree.link_redirect env request link_id w)
        = inr (render "404.html" [("redirect_url", REDIRECT_URL (settings env))] 404)
        /\ db (snd (app_linktree.link_redirect env request link_id w)) = db w)
  /\ (forall u,
        (forall link, In link (linktree_link (db w)) -> Link.id link = u ->
                      Link.is_active link = false) ->
        app_linktree.link_redirect env request (app_linktree.ValidUUID u) w
        = (inr (render "404.html" [("redirect_url", REDIRECT_URL (settings env))] 404),
           logged (SqlSelect "linktree_link") w)).
Proof.
  assert (Hurl : forall sc,
             (forall url, In url (tinyurl_url (db w)) -> Url.short_code url = sc ->
                          Url.is_active url = false) ->
             active_urls_for (db w) sc = []).
  { intros sc Hmiss. apply filter_nil_iff. intros x Hx.
    destruct (String.eqb_spec (Url.short_code x) sc) as [Hs|Hs]; [|reflexivity].
    rewrite (Hmiss x Hx Hs). reflexivity. }
  assert (Hlink : forall u,
             (forall link, In link (linktree_link (db w)) -> Link.id link = u ->
                           Link.is_active link = false) ->
             active_links_for (db w) u = []).
  { intros u Hmiss. apply filter_nil_iff. intros x Hx.
    destruct (N.eqb_spec (Link.id x) u) as [Hu|Hu]; [|reflexivity].
    rewrite (Hmiss x Hx Hu). reflexivity. }
  assert (Built : forall redirect_to (r : exn + HttpResponse),
             r = HttpResponseRedirect env redirect_to ->
             (forall scheme,
                urlsplit_scheme env redirect_to = Some scheme -> scheme_allowed scheme ->
                r = inr (Redirect (iri_to_uri redirect_to))
                /\ (all_chars uri_safe redirect_to = true -> r = inr (Redirect redirect_to)))
             /\ (forall scheme,
                   urlsplit_scheme env redirect_to = Some scheme -> ~ scheme_allowed scheme ->
                   r = inl DisallowedRedirect)
             /\ (urlsplit_scheme env redirect_to = None -> r = inl ValueError)).
  { intros redirect_to r ->. split; [|split].
    - intros scheme E A. rewrite (redirect_allowed env redirect_to scheme E A).
      split; [reflexivity|]. intros S. rewrite (iri_to_uri_safe _ S). reflexivity.
    - intros scheme E A. apply (redirect_refused env redirect_to scheme E A).
    - intros E. apply redirect_unparsed, E. }
  split; [|split; [|split; [|split; [|split]]]].
  - intros sc url ND _ _ R Hin Hsc Hact. apply Built.
    destruct (redirect_view_hit env request sc w url R
                (active_urls_for_unique _ _ _ ND Hin Hsc Hact)) as (stat & extra & E & _).
    rewrite E. reflexivity.
  - intros sc [[_ R]|Hmiss].
    + rewrite (redirect_view_reserved _ _ _ _ R). split; reflexivity.
    + destruct (classic_reserved env sc) as [R|R].
      * rewrite (redirect_view_reserved _ _ _ _ R). split; reflexivity.
      * rewrite (redirect_view_lookup _ _ _ _ R), (Hurl sc Hmiss). split; reflexivity.
  - intros sc _ _ R Hmiss.
    rewrite (redirect_view_lookup _ _ _ _ R), (Hurl sc Hmiss). reflexivity.
  - intros u link ND Hin Hid Hact. apply Built.
    destruct (link_redirect_hit env request u w link
                (active_links_for_unique _ _ _ ND Hin Hid Hact)) as (stat & extra & E & _).
    rewrite E. reflexivity.
  - intros [u|raw] Hmiss; [|split; reflexivity].
    rewrite link_redirect_lookup, (Hlink u Hmiss). split; reflexivity.
  - intros u Hmiss. rewrite link_redirect_lookup, (Hlink u Hmiss). reflexivity.
Qed.

Lemma redirect_resolution_witness :
  fst (app_tinyurl.redirect_view Bench.env0 Fixture.qr_request "promo" Fixture.promo_world)
  = inr (Redirect "https://example.org/landing").
Proof.
  pose proof (proj1 (redirect_resolution Bench.env0 Fixture.qr_request Fixture.promo_world)
                "promo" Fixture.promo) as H.
  destruct H as (H & _).
  - apply (bool_decide_unpack _). vm_compute. exact I.
  - reflexivity.
  - unfold reserved_paths. cbn. repeat constructor.
  - intros R. apply reserved_test in R. vm_compute in R. discriminate R.
  - simpl. auto.
  - reflexivity.
  - reflexivity.
  - destruct (H "https") as [_ K]; [reflexivity | right; simpl; auto |].
    apply K. reflexivity.
Defined.

(** C3.  A request whose identifier resolves to one active link records
    exactly one click, before the response is built: the row is appended
    to the table of the variant, points at that link, and carries
    [via_qrcode = true] exactly when the [qrcode] parameter is [true] up
    to case; the insert is the last effect.  This holds whatever becomes
    of the redirect: a redirect response comes only with such a row, and
    when the constructor refuses the destination the row is stored all
    the same.  The not-found page comes with the click tables as they
    were, and so does a lookup that raises. *)
Theorem click_recorded_once (env : Env) (request : HttpRequest) (w : World) :
  (forall sc,
     match app_tinyurl.redirect_view env request sc w with
     | (inr (Redirect location), w') =>
         exists url stat extra,
           In url (tinyurl_url (db w)) /\ Url.short_code url = sc
           /\ Url.is_active url = true
           /\ location = iri_to_uri (Url.long_url url)
           /\ tinyurl_urlstat (db w') = (tinyurl_urlstat (db w) ++ [stat])%list
           /\ linktree_linkstat (db w') = linktree_linkstat (db w)
           /\ UrlStat.url stat = Url.id url
           /\ (UrlStat.via_qrcode stat = true <-> qrcode_flag request)
           /\ effects w'
              = (effects w ++ SqlSelect "tinyurl_url" :: extra
                   ++ [SqlInsert "tinyurl_urlstat"])%list
           /\ Forall is_http extra
     | (inr (render _ _ _), w') =>
         tinyurl_urlstat (db w') = tinyurl_urlstat (db w)
         /\ linktree_linkstat (db w') = linktree_linkstat (db w)
     | (inl e, w') =>
         (e = MultipleObjectsReturned
          /\ tinyurl_urlstat (db w') = tinyurl_urlstat (db w)
          /\ linktree_linkstat (db w') = linktree_linkstat (db w))
         \/ (exists url stat,
               In url (tinyurl_url (db w)) /\ Url.short_code url = sc
               /\ Url.is_active url = true
               /\ HttpResponseRedirect env (Url.long_url url) = inl e
               /\ tinyurl_urlstat (db w') = (tinyurl_urlstat (db w) ++ [stat])%list
               /\ linktree_linkstat (db w') = linktree_linkstat (db w)
               /\ UrlStat.url stat = Url.id url
               /\ (UrlStat.via_qrcode stat = true <-> qrcode_flag request))
     end)
  /\ (forall link_id,
        match app_linktree.link_redirect env request link_id w with
        | (inr (Redirect location), w') =>
            exists link stat extra,
              In link (linktree_link (db w)) /\ link_id = app_linktree.ValidUUID (Link.id link)
              /\ Link.is_active link = true
              /\ location = iri_to_uri (Link.url link)
              /\ linktree_linkstat (db w') = (linktree_linkstat (db w) ++ [stat])%list
              /\ tinyurl_urlstat (db w') = tinyurl_urlstat (db w)
              /\ LinkStat.link stat = Link.id link
              /\ (LinkStat.via_qrcode stat = true <-> qrcode_flag request)
              /\ effects w'
                 = (effects w ++ SqlSelect "linktree_link" :: extra
                      ++ [SqlInsert "linktree_linkstat"])%list
              /\ Forall is_http extra
        | (inr (render _ _ _), w') =>
            tinyurl_urlstat (db w') = tinyurl_urlstat (db w)
            /\ linktree_linkstat (db w') = linktree_linkstat (db w)
        | (inl e, w') =>
            exists link stat,
              In link (linktree_link (db w)) /\ link_id = app_linktree.ValidUUID (Link.id link)
              /\ Link.is_active link = true
              /\ HttpResponseRedirect env (Link.url link) = inl e
              /\ linktree_linkstat (db w') = (linktree_linkstat (db w) ++ [stat])%list
              /\ tinyurl_urlstat (db w') = tinyurl_urlstat (db w)
              /\ LinkStat.link stat = Link.id link
              /\ (LinkStat.via_qrcode stat = true <-> qrcode_flag request)
        end)
  /\ (forall sc url,
        ascii_only sc -> Forall ascii_only (reserved_paths env) ->
        ~ reserved env sc -> active_urls_for (db w) sc = [url] ->
        exists stat,
          fst (app_tinyurl.redirect_view env request sc w)
          = HttpResponseRedirect env (Url.long_url url)
          /\ tinyurl_urlstat (db (snd (app_tinyurl.redirect_view env request sc w)))
             = (tinyurl_urlstat (db w) ++ [stat])%list
          /\ UrlStat.url stat = Url.id url
          /\ (UrlStat.via_qrcode stat = true <-> qrcode_flag request))
  /\ (forall u link,
        active_links_for (db w) u = [link] ->
        exists stat,
          fst (app_linktree.link_redirect env request (app_linktree.ValidUUID u) w)
          = HttpResponseRedirect env (Link.url link)
          /\ linktree_linkstat
               (db (snd (app_linktree.link_redirect env request (app_linktree.ValidUUID u) w)))
             = (linktree_linkstat (db w) ++ [stat])%list
          /\ LinkStat.link stat = Link.id link
          /\ (LinkStat.via_qrcode stat = true <-> qrcode_flag request)).
Proof.
  split; [|split; [|split]].
  - intros sc. destruct (classic_reserved env sc) as [R|R].
    + rewrite (redirect_view_reserved _ _ _ _ R). split; reflexivity.
    + destruct (active_urls_for (db w) sc) as [|url [|other rest]] eqn:A.
      * rewrite (redirect_view_lookup _ _ _ _ R), A. split; reflexivity.
      * destruct (redirect_view_hit env request sc w url R A)
          as (stat & extra & E & Hu & Hq & _ & He).
        rewrite E.
        assert (Hin : In url (active_urls_for (db w) sc)) by (rewrite A; left; reflexivity).
        apply active_urls_for_spec in Hin as (H1 & H2 & H3).
        destruct (HttpResponseRedirect env (Url.long_url url)) as [e|response] eqn:B.
        -- right. exists url, stat. cbn [db tinyurl_urlstat linktree_linkstat].
           repeat split; auto; apply Hq.
        -- apply redirect_built in B as [-> _].
           exists url, stat, extra. cbn [db effects tinyurl_urlstat linktree_linkstat].
           repeat split; auto; apply Hq.
      * rewrite (redirect_view_lookup _ _ _ _ R), A. left. repeat split.
  - intros [u|raw]; [|split; reflexivity].
    destruct (active_links_for (db w) u) as [|link [|other rest]] eqn:A.
    + rewrite link_redirect_lookup, A. split; reflexivity.
    + destruct (link_redirect_hit env request u w link A)
        as (stat & extra & E & Hu & Hq & _ & He).
      rewrite E.
      assert (Hin : In link (active_links_for (db w) u)) by (rewrite A; left; reflexivity).
      apply active_links_for_spec in Hin as (H1 & H2 & H3).
      destruct (HttpResponseRedirect env (Link.url link)) as [e|response] eqn:B.
      * exists link, stat. cbn [db tinyurl_urlstat linktree_linkstat].
        repeat split; auto; try apply Hq. congruence.
      * apply redirect_built in B as [-> _].
        exists link, stat, extra. cbn [db effects tinyurl_urlstat linktree_linkstat].
        repeat split; auto; try apply Hq. congruence.
    + rewrite link_redirect_lookup, A. split; reflexivity.
  - intros sc url _ _ R A.
    destruct (redirect_view_hit env request sc w url R A) as (stat & extra & E & Hu & Hq & _).
    exists stat. rewrite E. auto.
  - intros u link A.
    destruct (link_redirect_hit env request u w link A) as (stat & extra & E & Hu & Hq & _).
    exists stat. rewrite E. auto.
Qed.

Lemma click_recorded_once_witness :
  exists stat,
    fst (app_tinyurl.redirect_view Bench.env0 Fixture.qr_request "promo" Fixture.promo_world)
    = inr (Redirect "https://example.org/landing")
    /\ tinyurl_urlstat
         (db (snd (app_tinyurl.redirect_view Bench.env0 Fixture.qr_request "promo"
                     Fixture.promo_world)))
       = [stat]
    /\ UrlStat.url stat = 1%N
    /\ (UrlStat.via_qrcode stat = true <-> qrcode_flag Fixture.qr_request).
Proof.
  apply (proj1 (proj2 (proj2
           (click_recorded_once Bench.env0 Fixture.qr_request Fixture.promo_world)))
           "promo" Fixture.promo).
  - reflexivity.
  - unfold reserved_paths. cbn. repeat constructor.
  - intros R. apply reserved_test in R. vm_compute in R. discriminate R.
  - reflexivity.
Defined.

(** C5.  Every code the generator returns has the length asked for (6 by
    default) and holds only ASCII letters and digits other than 0, O, 1, l
    and I; generating touches neither the database nor the effect log.
    [_ensure_short_code] leaves supplied data alone.  Without a supplied
    code it tries the candidates in turn, one existence check each: the
    first of the ten that is free is taken; when all ten are taken it
    raises the validation error, after ten checks, and [create] raises it
    to its caller.  Neither redirect view can raise a validation error. *)
Theorem short_code_allocation (vd : app_tinyurl.ValidatedData) (w : World) :
  (forall length,
     exists code,
       utils.generate_short_code length w
       = (inr code, mkWorld (db w) (effects w) (advance length (rng w)))
       /\ String.length code = length /\ unambiguous code)
  /\ utils.default_length = 6%nat
  /\ (forall k, String.length (candidate (rng w) k) = 6%nat
                /\ unambiguous (candidate (rng w) k))
  /\ (Py.truthy (app_tinyurl.vd_short_code vd) = true ->
        app_tinyurl._ensure_short_code vd w = (inr vd, w))
  /\ (Py.truthy (app_tinyurl.vd_short_code vd) = false ->
        forall k, (k < 10)%nat ->
          (forall j, (j < k)%nat -> taken (db w) (candidate (rng w) j) = true) ->
          taken (db w) (candidate (rng w) k) = false ->
          exists w',
            app_tinyurl._ensure_short_code vd w
            = (inr (app_tinyurl.mkValidatedData (Some (candidate (rng w) k))
                      (app_tinyurl.vd_long_url vd) (app_tinyurl.vd_is_active vd)), w')
            /\ db w' = db w /\ effects w' = (effects w ++ lookups (S k))%list)
  /\ (Py.truthy (app_tinyurl.vd_short_code vd) = false ->
        (forall k, (k < 10)%nat -> taken (db w) (candidate (rng w) k) = true) ->
        exists w',
          app_tinyurl._ensure_short_code vd w
          = (inl (ValidationError app_tinyurl.capacity_message), w')
          /\ db w' = db w /\ effects w' = (effects w ++ lookups 10)%list
          /\ forall env,
               app_tinyurl.create env vd w
               = (inl (ValidationError app_tinyurl.capacity_message), w'))
  /\ (forall env request sc detail,
        fst (app_tinyurl.redirect_view env request sc w) <> inl (ValidationError detail))
  /\ (forall env request link_id detail,
        fst (app_linktree.link_redirect env request link_id w)
        <> inl (ValidationError detail)).
Proof.
  repeat apply conj.
  - intros length. exists (code_of (rng w) length).
    split; [apply generate_short_code_run|]. split; [apply code_of_length|].
    intros c Hc. apply chars_unambiguous. eapply code_of_chars, Hc.
  - reflexivity.
  - intros k. split; [apply code_of_length|].
    intros c Hc. apply chars_unambiguous. eapply code_of_chars, Hc.
  - intros T. unfold app_tinyurl._ensure_short_code. rewrite T. reflexivity.
  - intros T k Hk Hbefore Hfree. unfold app_tinyurl._ensure_short_code. rewrite T.
    apply attempts_found; assumption.
  - intros T Hall. unfold app_tinyurl._ensure_short_code, app_tinyurl.create. rewrite T.
    destruct (attempts_exhausted 10 vd w Hall) as (w' & E & D & F).
    exists w'. cbn [negb]. repeat split; try assumption.
    intros env. unfold app_tinyurl._ensure_short_code, bind. rewrite T. cbn [negb].
    rewrite E. reflexivity.
  - intros env request sc detail.
    destruct (classic_reserved env sc) as [R|R].
    + rewrite (redirect_view_reserved _ _ _ _ R). discriminate.
    + destruct (active_urls_for (db w) sc) as [|url [|other rest]] eqn:A.
      * rewrite (redirect_view_lookup _ _ _ _ R), A. discriminate.
      * destruct (redirect_view_hit env request sc w url R A) as (stat & extra & E & _).
        rewrite E. cbn [fst]. intros B.
        destruct (redirect_raises _ _ _ B); discriminate.
      * rewrite (redirect_view_lookup _ _ _ _ R), A. discriminate.
  - intros env request [u|raw] detail; [|discriminate].
    destruct (active_links_for (db w) u) as [|link [|other rest]] eqn:A.
    + rewrite link_redirect_lookup, A. discriminate.
    + destruct (link_redirect_hit env request u w link A) as (stat & extra & E & _).
      rewrite E. cbn [fst]. intros B.
      destruct (redirect_raises _ _ _ B); discriminate.
    + rewrite link_redirect_lookup, A. discriminate.
Qed.

(** Ten collisions in a row: every draw spells ["aaaaaa"], which is taken. *)
Lemma short_code_allocation_witness :
  exists w',
    app_tinyurl._ensure_short_code Exhausted.blank Exhausted.world
    = (inl (ValidationError "Could not generate unique short code. Please try again."), w')
    /\ db w' = db Exhausted.world
    /\ effects w' = lookups 10
    /\ forall env,
         app_tinyurl.create env Exhausted.blank Exhausted.world
         = (inl (ValidationError "Could not generate unique short code. Please try again."), w').
Proof.
  apply (proj1 (proj2 (proj2 (proj2 (proj2 (proj2
           (short_code_allocation Exhausted.blank Exhausted.world))))))).
  - reflexivity.
  - intros k _. reflexivity.
Defined.

(** A supplied short code that is reserved once trimmed is refused as an
    error of the field before anything is stored; the uniqueness check of
    the field is the one query made. *)
Lemma is_valid_reserved (env : Env) (instance : option Url.t)
    (data : app_tinyurl.ValidatedData) (sent : string) (w : World) :
  app_tinyurl.vd_short_code data = Some sent ->
  Py.strip sent <> "" ->
  reserved env (Py.strip sent) ->
  exists details,
    app_tinyurl.is_valid env instance data w
    = (inl (FieldErrors "short_code" details), logged (SqlSelect "tinyurl_url") w).
Proof.
  intros E Hne R. apply reserved_test in R.
  unfold app_tinyurl.is_valid. rewrite E.
  unfold bind at 1. unfold app_tinyurl.short_code_field.
  destruct (String.eqb_spec (Py.strip sent) "") as [C|_]; [contradiction|].
  cbv zeta. unfold bind at 1, log. unfold bind at 1, read_db.
  fold (logged (SqlSelect "tinyurl_url") w).
  destruct (_ ++ _ ++ _)%list as [|x errors].
  - unfold ret, app_tinyurl.validate_short_code. fold (reserved_paths env). cbv zeta.
    rewrite R. eexists. reflexivity.
  - eexists. reflexivity.
Qed.

Lemma reserved_code_rejected (env : Env) (data : app_tinyurl.ValidatedData)
    (sent : string) (w : World) :
  app_tinyurl.vd_short_code data = Some sent ->
  Py.strip sent <> "" ->
  reserved env (Py.strip sent) ->
  exists details,
    app_tinyurl.perform_create env data w
    = (inl (FieldErrors "short_code" details), logged (SqlSelect "tinyurl_url") w).
Proof.
  intros E Hne R. destruct (is_valid_reserved env None data sent w E Hne R) as [details V].
  exists details. unfold app_tinyurl.perform_create, bind. rewrite V. reflexivity.
Qed.

Lemma reserved_code_rejected_on_update (env : Env) (instance : Url.t)
    (data : app_tinyurl.ValidatedData) (sent : string) (w : World) :
  app_tinyurl.vd_short_code data = Some sent ->
  Py.strip sent <> "" ->
  reserved env (Py.strip sent) ->
  exists details,
    app_tinyurl.perform_update env instance data w
    = (inl (FieldErrors "short_code" details), logged (SqlSelect "tinyurl_url") w).
Proof.
  intros E Hne R.
  destruct (is_valid_reserved env (Some instance) data sent w E Hne R) as [details V].
  exists details. unfold app_tinyurl.perform_update, bind. rewrite V. reflexivity.
Qed.

(** C10, at a creation request with a blank short code and draws that
    spell "static": the code is generated, checked only against the codes
    in use, and stored, although "static" is a reserved path, one that
    [validate_short_code] refuses and [redirect_view] never resolves. *)
Theorem generated_code_is_not_checked :
  exists w',
    app_tinyurl.perform_create Bench.env0 Static.data Static.world = (inr Static.stored, w')
    /\ tinyurl_url (db w') = [Static.stored]
    /\ Url.short_code Static.stored = "static"
    /\ reserved Bench.env0 "static"
    /\ (exists detail,
          app_tinyurl.validate_short_code Bench.env0 "static" = inl (ValidationError detail))
    /\ fst (app_tinyurl.redirect_view Bench.env0 (Bench.request_of [] []) "static" w')
       = inr (app_tinyurl.not_found_page Bench.env0).
Proof.
  eexists. split; [vm_compute; reflexivity|].
  split; [reflexivity|]. split; [reflexivity|].
  split; [exists "static"; split; [simpl; tauto | reflexivity]|].
  split; [eexists; reflexivity|]. reflexivity.
Qed.

Lemma matched_rows_length {A B} (l : list A) (win : list B) :
  length (List.filter (fun r : option A * B => bool_decide (is_Some (fst r)))
            (list_prod (map Some l) win))
  = (length l * length win)%nat.
Proof.
  induction l as [|x l IH]; [reflexivity|].
  cbn [map list_prod length]. rewrite List.filter_app, length_app, IH.
  assert (E : length (List.filter (fun r : option A * B => bool_decide (is_Some (fst r)))
                        (map (fun y => (Some x, y)) win)) = length win).
  { clear IH. induction win as [|t win IH]; [reflexivity|].
    cbn [map List.filter fst]. rewrite bool_decide_eq_true_2 by eauto.
    cbn [length]. f_equal. exact IH. }
  rewrite E. reflexivity.
Qed.

(** The count [top_links] reports for a link: all its clicks, times its
    clicks in the window. *)
Lemma joined_rows_count (start_date : Z) (d : Database) (link : Link.t) :
  QuerySet.count
    (List.filter (fun r => bool_decide (is_Some (fst r)))
       (app_linktree.joined_rows start_date d link))
  = QuerySet.count (app_linktree.related_stats d link)
    * QuerySet.count
        (List.filter (fun t => start_date <=? LinkStat.created_at t)
           (app_linktree.related_stats d link)).
Proof.
  unfold app_linktree.joined_rows, QuerySet.count.
  destruct (app_linktree.related_stats d link) as [|s rel]; [reflexivity|].
  unfold app_linktree.left_outer_join.
  rewrite matched_rows_length. apply Nat2Z.inj_mul.
Qed.

(** C9, at two links: [A] with five old clicks and one in the window, [B]
    with two in the window.  [top_links] puts [A] first with a count of 6
    and [B] second with 4, where the clicks in the window are 1 and 2; on
    the same clicks [top_urls] puts [B] first with 2 and [A] second with
    1. *)
Theorem top_links_counts_outside_window :
  start_date_of Bench.env0 Ranking.request = inr Ranking.start_date
  /\ (exists dash,
        app_linktree.dashboard_stats Bench.env0 Ranking.request Ranking.links_db = inr dash
        /\ app_linktree.dash_top_links dash
           = [app_linktree.mkTopLink 1%N "A" "https://a.example/" 6;
              app_linktree.mkTopLink 2%N "B" "https://b.example/" 4])
  /\ QuerySet.count
       (in_window LinkStat.created_at Ranking.start_date
          (app_linktree.related_stats Ranking.links_db Ranking.link_a)) = 1
  /\ QuerySet.count
       (in_window LinkStat.created_at Ranking.start_date
          (app_linktree.related_stats Ranking.links_db Ranking.link_b)) = 2
  /\ (exists dash,
        app_tinyurl.dashboard_stats Bench.env0 Ranking.request Ranking.urls_db = inr dash
        /\ app_tinyurl.dash_top_urls dash
           = [app_tinyurl.mkTopUrl 2%N "bbb" "https://b.example/" 2;
              app_tinyurl.mkTopUrl 1%N "aaa" "https://a.example/" 1]).
Proof.
  split; [reflexivity|].
  split; [eexists; split; [reflexivity | vm_compute; reflexivity]|].
  split; [reflexivity|]. split; [reflexivity|].
  eexists; split; [reflexivity | vm_compute; reflexivity].
Qed.

(** ** Aggregation *)

Section Grouping.
Context {A K : Type} `{EqDecision K}.

Lemma bump_assoc (k k' : K) (groups : list (K * Z)) :
  assoc k' (QuerySet.bump k groups)
  = if decide (k' = k) then Some (default 0 (assoc k groups) + 1) else assoc k' groups.
Proof.
  induction groups as [|[k0 n] rest IH]; simpl.
  - repeat case_decide; try congruence; reflexivity.
  - destruct (decide (k = k0)) as [->|Hk]; simpl.
    + destruct (decide (k' = k0)) as [->|Hk']; [reflexivity|].
      reflexivity.
    + rewrite IH. destruct (decide (k' = k0)) as [->|Hk'].
      * destruct (decide (k0 = k)); [congruence | reflexivity].
      * reflexivity.
Qed.

Lemma bump_keys (k x : K) (groups : list (K * Z)) :
  In x (map fst (QuerySet.bump k groups)) -> x = k \/ In x (map fst groups).
Proof.
  induction groups as [|[k0 n] rest IH]; simpl; [intuition congruence|].
  destruct (decide (k = k0)) as [->|Hk]; simpl; [intuition congruence|].
  intros [E|Hx]; [tauto|]. destruct (IH Hx); tauto.
Qed.

Lemma bump_NoDup (k : K) (groups : list (K * Z)) :
  NoDup (map fst groups) -> NoDup (map fst (QuerySet.bump k groups)).
Proof.
  induction groups as [|[k0 n] rest IH]; simpl; intros ND.
  - apply NoDup_singleton.
  - destruct (decide (k = k0)) as [->|Hk]; simpl; [exact ND|].
    apply NoDup_cons in ND as [Hk0 ND]. apply NoDup_cons. split; [|apply IH, ND].
    intros Hin. apply list_elem_of_In, bump_keys in Hin as [E|Hin]; [congruence|].
    apply Hk0, list_elem_of_In, Hin.
Qed.

Lemma fold_bump_NoDup (key : A -> K) (rows : list A) (groups : list (K * Z)) :
  NoDup (map fst groups) ->
  NoDup (map fst (fold_left (fun g r => QuerySet.bump (key r) g) rows groups)).
Proof.
  revert groups. induction rows as [|r rows IH]; intros groups ND; simpl; [exact ND|].
  apply IH, bump_NoDup, ND.
Qed.

Lemma fold_bump_assoc (key : A -> K) (k : K) (rows : list A) (groups : list (K * Z)) :
  assoc k (fold_left (fun g r => QuerySet.bump (key r) g) rows groups)
  = if tally key k rows =? 0 then assoc k groups
    else Some (default 0 (assoc k groups) + tally key k rows).
Proof.
  revert groups. unfold tally, QuerySet.count.
  induction rows as [|r rows IH]; intros groups; [reflexivity|].
  cbn [fold_left List.filter]. rewrite IH, bump_assoc. clear IH.
  set (n := Z.of_nat (length (List.filter (fun r0 => bool_decide (key r0 = k)) rows))).
  assert (Hn : 0 <= n) by (subst n; lia).
  destruct (decide (k = key r)) as [E|E].
  - rewrite bool_decide_eq_true_2 by congruence. cbn [length default].
    rewrite Nat2Z.inj_succ. fold n. rewrite <- E.
    destruct (Z.eqb_spec n 0) as [Z0|Z0];
      (destruct (Z.eqb_spec (Z.succ n) 0); [lia|]); simpl; f_equal; lia.
  - rewrite bool_decide_eq_false_2 by congruence. fold n. reflexivity.
Qed.

(** A value of the key has a row in [values_count] exactly when some row
    carries it, and its count is the number of such rows. *)
Lemma values_count_assoc (key : A -> K) (k : K) (rows : list A) :
  assoc k (QuerySet.values_count key rows)
  = if tally key k rows =? 0 then None else Some (tally key k rows).
Proof.
  unfold QuerySet.values_count. rewrite fold_bump_assoc. simpl.
  destruct (_ =? 0); reflexivity.
Qed.

Lemma values_count_NoDup (key : A -> K) (rows : list A) :
  NoDup (map fst (QuerySet.values_count key rows)).
Proof. apply fold_bump_NoDup. constructor. Qed.
End Grouping.

Lemma assoc_app (k : string) (g1 g2 : list (string * Z)) :
  assoc k (g1 ++ g2) = match assoc k g1 with Some n => Some n | None => assoc k g2 end.
Proof.
  induction g1 as [|[k0 n] g1 IH]; simpl; [reflexivity|].
  case_decide; [reflexivity | exact IH].
Qed.

Lemma assoc_None (k : string) (g : list (string * Z)) :
  ~ In k (map fst g) -> assoc k g = None.
Proof.
  induction g as [|[k0 n] g IH]; simpl; [reflexivity|].
  intros N. case_decide; [subst; tauto | apply IH; tauto].
Qed.

Lemma dict_snoc (g : list (string * Z)) (k : string) (n : Z) :
  dict (g ++ [(k, n)]) = <[k := n]> (dict g).
Proof. unfold dict. rewrite fold_left_app. reflexivity. Qed.

(** On groups with distinct keys, [dict] holds what the groups hold. *)
Lemma dict_assoc (g : list (string * Z)) (k : string) :
  NoDup (map fst g) -> dict g !! k = assoc k g.
Proof.
  induction g as [|[k0 n] g IH] using rev_ind; intros ND; [reflexivity|].
  rewrite dict_snoc, assoc_app. rewrite map_app in ND. apply NoDup_app in ND as (ND & Hk0 & _).
  destruct (decide (k0 = k)) as [->|Hne].
  - rewrite lookup_insert_eq. rewrite assoc_None.
    + simpl. case_decide; congruence.
    + intros Hin. apply (Hk0 k); [apply list_elem_of_In, Hin | simpl; set_solver].
  - rewrite lookup_insert_ne by exact Hne. rewrite (IH ND).
    destruct (assoc k g); [reflexivity|]. simpl. case_decide; congruence.
Qed.

(** The device breakdown never holds a zero: a device class is a key of
    [clicks_by_device] exactly when a click in the window carries it. *)
Lemma clicks_by_device_lookup {Stat} (created_at : Stat -> Z) (via_qrcode : Stat -> bool)
    (device_type : Stat -> string) (country : Stat -> option string)
    (env : Env) (stats : list Stat) (k : string) :
  clicks_by_device (aggregate created_at via_qrcode device_type country env stats) !! k
  = if tally device_type k stats =? 0 then None else Some (tally device_type k stats).
Proof.
  unfold aggregate. cbn [clicks_by_device].
  rewrite dict_assoc by apply values_count_NoDup. apply values_count_assoc.
Qed.

(** C4, as stated, fails on the device breakdown: the classes without a
    click in the window, tablet and unknown, are absent rather than
    zero. *)
Lemma stats_worked_example_counterexample :
  exists s,
    app_tinyurl.stats Worked.env Worked.request Worked.url Worked.url_db = inr s
    /\ clicks_by_device s !! "tablet" = None
    /\ clicks_by_device s !! "unknown" = None
    /\ clicks_by_device s <> Worked.zero_filled.
Proof.
  eexists. split; [reflexivity|]. split; [vm_compute; reflexivity|].
  split; [vm_compute; reflexivity|].
  intros E. apply (f_equal (fun m => m !! "tablet")) in E. vm_compute in E. discriminate E.
Qed.

(** C4, amended.  On the worked example, with a window that covers both
    days, both variants return 3 clicks, 1 through a QR code, 2 direct;
    mobile 2 and desktop 1 as the only device classes; FR 2 then US 1;
    day 1 with 2 then day 2 with 1.  In general a device class is listed
    exactly when a click in the window carries it, with the number of such
    clicks, so no class is ever listed with zero. *)
Theorem stats_worked_example :
  app_tinyurl.stats Worked.env Worked.request Worked.url Worked.url_db = inr Worked.summary
  /\ app_linktree.stats Worked.env Worked.request Worked.link Worked.link_db
     = inr Worked.summary
  /\ (forall k, clicks_by_device Worked.summary !! k
                = if decide (k = "mobile") then Some 2
                  else if decide (k = "desktop") then Some 1 else None)
  /\ (forall env request url d s k,
        app_tinyurl.stats env request url d = inr s ->
        clicks_by_device s !! k <> Some 0)
  /\ (forall env request link d s k,
        app_linktree.stats env request link d = inr s ->
        clicks_by_device s !! k <> Some 0).
Proof.
  split; [vm_compute; reflexivity|]. split; [vm_compute; reflexivity|]. split.
  - intros k. unfold Worked.summary. cbn [clicks_by_device].
    destruct (decide (k = "mobile")) as [->|N1]; [apply lookup_insert_eq|].
    rewrite lookup_insert_ne by congruence.
    destruct (decide (k = "desktop")) as [->|N2]; [apply lookup_insert_eq|].
    rewrite lookup_insert_ne by congruence. apply lookup_empty.
  - split.
    + intros env request url d s k. unfold app_tinyurl.stats.
      destruct (start_date_of env request) as [e|start]; [discriminate|].
      intros E. injection E as <-. rewrite clicks_by_device_lookup.
      destruct (Z.eqb_spec (tally UrlStat.device_type k
                  (in_window UrlStat.created_at start (app_tinyurl.related_stats d url))) 0);
        congruence.
    + intros env request link d s k. unfold app_linktree.stats.
      destruct (start_date_of env request) as [e|start]; [discriminate|].
      intros E. injection E as <-. rewrite clicks_by_device_lookup.
      destruct (Z.eqb_spec (tally LinkStat.device_type k
                  (in_window LinkStat.created_at start (app_linktree.related_stats d link))) 0);
        congruence.
Qed.

Lemma stats_worked_example_witness :
  clicks_by_device Worked.summary !! "tablet" <> Some 0.
Proof.
  apply (proj1 (proj2 (proj2 (proj2 stats_worked_example)))
           Worked.env Worked.request Worked.url Worked.url_db).
  vm_compute. reflexivity.
Defined.

(** ** The [days] parameter *)











(** ** Further properties: client address and geolocation *)

Lemma rstrip_cons (c : ascii) (s : string) :
  Py.rstrip (String c s)
  = match Py.rstrip s with
    | EmptyString => if Py.is_whitespace c then EmptyString else String c EmptyString
    | r => String c r
    end.
Proof. reflexivity. Qed.

Lemma rstrip_idempotent (s : string) : Py.rstrip (Py.rstrip s) = Py.rstrip s.
Proof.
  induction s as [|c s IH]; [reflexivity|].
  rewrite rstrip_cons. destruct (Py.rstrip s) as [|d r] eqn:E.
  - destruct (Py.is_whitespace c) eqn:W; [reflexivity|].
    rewrite rstrip_cons. cbn [Py.rstrip]. rewrite W. reflexivity.
  - rewrite rstrip_cons, IH. reflexivity.
Qed.

Lemma rstrip_head (c : ascii) (s : string) :
  Py.is_whitespace c = false -> exists r, Py.rstrip (String c s) = String c r.
Proof.
  intros W. cbn [Py.rstrip]. destruct (Py.rstrip s); [rewrite W|]; eauto.
Qed.

Lemma lstrip_head (s : string) :
  Py.lstrip s = EmptyString
  \/ exists c r, Py.lstrip s = String c r /\ Py.is_whitespace c = false.
Proof.
  induction s as [|c s IH]; [left; reflexivity|].
  cbn [Py.lstrip]. destruct (Py.is_whitespace c) eqn:W; [exact IH|].
  right. eauto.
Qed.

Lemma strip_idempotent (s : string) : Py.strip (Py.strip s) = Py.strip s.
Proof.
  unfold Py.strip. destruct (lstrip_head s) as [E|(c & r & E & W)].
  - rewrite E. reflexivity.
  - rewrite E. destruct (rstrip_head c r W) as [r' E'].
    rewrite E'. cbn [Py.lstrip]. rewrite W, <- E'. apply rstrip_idempotent.
Qed.

Lemma char_in_lstrip (c : ascii) (s : string) :
  Py.char_in c (Py.lstrip s) = true -> Py.char_in c s = true.
Proof.
  induction s as [|d s IH]; [discriminate|].
  cbn [Py.lstrip]. destruct (Py.is_whitespace d); [|auto].
  intros H. cbn [Py.char_in]. rewrite (IH H). apply orb_true_r.
Qed.

Lemma char_in_rstrip (c : ascii) (s : string) :
  Py.char_in c (Py.rstrip s) = true -> Py.char_in c s = true.
Proof.
  induction s as [|d s IH]; [discriminate|].
  cbn [Py.rstrip]. destruct (Py.rstrip s) as [|e r].
  - destruct (Py.is_whitespace d); [discriminate|].
    cbn [Py.char_in]. rewrite orb_false_r. intros ->. reflexivity.
  - cbn [Py.char_in] in *. destruct (Ascii.eqb c d); [reflexivity|]. exact IH.
Qed.

Lemma split_first_no_sep (sep : ascii) (s : string) :
  Py.char_in sep (Py.split_first sep s) = false.
Proof.
  induction s as [|d s IH]; [reflexivity|].
  cbn [Py.split_first]. destruct (Ascii.eqb_spec d sep) as [->|N]; [reflexivity|].
  cbn [Py.char_in]. rewrite IH. destruct (Ascii.eqb_spec sep d); [congruence|reflexivity].
Qed.

Lemma lstrip_split (s : string) :
  exists l, s = l +:+ Py.lstrip s /\ all_chars Py.is_whitespace l = true.
Proof.
  induction s as [|c s (l & E & W)]; [exists ""; split; reflexivity|].
  cbn [Py.lstrip]. destruct (Py.is_whitespace c) eqn:Wc.
  - exists (String c l). split.
    + change (String c l +:+ Py.lstrip s) with (String c (l +:+ Py.lstrip s)).
      rewrite <- E. reflexivity.
    + cbn [all_chars]. rewrite Wc, W. reflexivity.
  - exists "". split; reflexivity.
Qed.

Lemma rstrip_split (s : string) :
  exists r, s = Py.rstrip s +:+ r /\ all_chars Py.is_whitespace r = true.
Proof.
  induction s as [|c s (r & E & W)]; [exists ""; split; reflexivity|].
  rewrite rstrip_cons. destruct (Py.rstrip s) as [|d t] eqn:R.
  - destruct (Py.is_whitespace c) eqn:Wc.
    + exists (String c r). split.
      * change ("" +:+ r) with r in E. rewrite <- E. reflexivity.
      * cbn [all_chars]. rewrite Wc, W. reflexivity.
    + exists r. split; [|exact W].
      change (String c "" +:+ r) with (String c ("" +:+ r)). rewrite <- E. reflexivity.
  - exists r. split; [|exact W].
    change (String c (String d t) +:+ r) with (String c (String d t +:+ r)).
    rewrite <- E. reflexivity.
Qed.

Lemma append_assoc (a b c : string) : (a +:+ b) +:+ c = a +:+ (b +:+ c).
Proof.
  induction a as [|x a IH]; [reflexivity|].
  change (String x a +:+ b) with (String x (a +:+ b)).
  change (String x (a +:+ b) +:+ c) with (String x ((a +:+ b) +:+ c)).
  rewrite IH. reflexivity.
Qed.

Lemma split_first_entry (header entry : string) :
  first_entry header entry -> Py.split_first "," header = entry.
Proof.
  unfold first_entry, free_of. intros [F H]. revert header H.
  induction entry as [|c entry IH]; intros header H.
  - destruct H as [-> |(rest & ->)]; reflexivity.
  - cbn [Py.char_in] in F. apply orb_false_iff in F as [Fc Fe].
    assert (E : Ascii.eqb c "," = false) by (rewrite Ascii.eqb_sym; exact Fc).
    destruct H as [-> |(rest & ->)].
    + cbn [Py.split_first]. rewrite E. f_equal. apply (IH Fe). left. reflexivity.
    + change (String c entry +:+ "," +:+ rest) with (String c (entry +:+ "," +:+ rest)).
      cbn [Py.split_first]. rewrite E. f_equal. apply (IH Fe). right. exists rest.
      reflexivity.
Qed.

(** X1.  [get_client_ip]: a non-empty [X-Forwarded-For] header decides the
    address, whatever [REMOTE_ADDR] says, and the address is the first of
    its comma-separated entries (the whole header when it has no comma)
    without the white space around it: the entry is the address between
    two runs of white space, and the address has none left at either end.
    Without the header, or with an empty one, the address is
    [REMOTE_ADDR], which may be missing. *)
Theorem client_ip_from_forwarded_header (request : HttpRequest) :
  (forall h entry,
     META request !! "HTTP_X_FORWARDED_FOR" = Some h -> h <> "" -> ascii_only h ->
     first_entry h entry ->
     exists ip,
       utils.get_client_ip request = Some ip
       /\ ip = Py.strip entry
       /\ (exists before after,
             entry = before +:+ ip +:+ after
             /\ all_chars Py.is_whitespace before = true
             /\ all_chars Py.is_whitespace after = true)
       /\ Py.strip ip = ip
       /\ Py.char_in "," ip = false)
  /\ (META request !! "HTTP_X_FORWARDED_FOR" = None
      \/ META request !! "HTTP_X_FORWARDED_FOR" = Some "" ->
      utils.get_client_ip request = META request !! "REMOTE_ADDR").
Proof.
  split.
  - intros h entry E Hne _ F. exists (Py.strip entry).
    split; [|split; [reflexivity|split; [|split]]].
    + unfold utils.get_client_ip. rewrite E.
      destruct h as [|c h]; [congruence|]. cbn [Py.truthy].
      change (default "" (Some (String c h))) with (String c h).
      rewrite (split_first_entry _ _ F). reflexivity.
    + destruct (lstrip_split entry) as (l & El & Wl).
      destruct (rstrip_split (Py.lstrip entry)) as (r & Er & Wr).
      exists l, r. split; [|split; assumption].
      unfold Py.strip. rewrite <- Er. exact El.
    + apply strip_idempotent.
    + destruct F as [F _]. unfold free_of in F.
      destruct (Py.char_in "," (Py.strip entry)) eqn:C; [|reflexivity].
      unfold Py.strip in C. apply char_in_rstrip, char_in_lstrip in C. congruence.
  - intros [E|E]; unfold utils.get_client_ip; rewrite E; reflexivity.
Qed.

Lemma client_ip_from_forwarded_header_witness :
  utils.get_client_ip
    (Bench.request_of []
       [("HTTP_X_FORWARDED_FOR", " 203.0.113.7 , 10.0.0.1"); ("REMOTE_ADDR", "10.0.0.1")])
  = Some "203.0.113.7".
Proof.
  destruct (proj1 (client_ip_from_forwarded_header
                     (Bench.request_of []
                        [("HTTP_X_FORWARDED_FOR", " 203.0.113.7 , 10.0.0.1");
                         ("REMOTE_ADDR", "10.0.0.1")]))
              " 203.0.113.7 , 10.0.0.1" " 203.0.113.7 ")
    as (ip & E & -> & _).
  - vm_compute. reflexivity.
  - discriminate.
  - reflexivity.
  - split; [reflexivity|]. right. exists " 10.0.0.1". reflexivity.
  - exact E.
Defined.


(** X2.  [get_location_from_ip] never raises and leaves the database and
    the random stream alone.  It answers [{None, None}] without any
    effect exactly for a missing address, the empty string and the three
    literals 127.0.0.1, localhost and ::1; for every other address it
    sends one GET, with a timeout of 2 seconds, to the service URL
    followed by the address. *)
Theorem geolocation_effects (env : Env) (ip : option string) (w : World) :
  (skipped_ip ip = true
   <-> ip = None \/ ip = Some "" \/ ip = Some "127.0.0.1" \/ ip = Some "localhost"
       \/ ip = Some "::1")
  /\ (skipped_ip ip = true ->
        utils.get_location_from_ip env ip w = (inr utils.no_location, w))
  /\ (skipped_ip ip = false ->
        exists location,
          utils.get_location_from_ip env ip w
          = (inr location,
             mkWorld (db w)
               (effects w ++ [HttpGet (lookup_url env (default "" ip)) 2]) (rng w))).
Proof.
  split; [|split; [apply get_location_skipped | apply get_location_lookup]].
  unfold skipped_ip, Py.str_in. split.
  - destruct ip as [[|c s]|]; [auto | | auto].
    cbn [Py.truthy negb orb existsb]. change (default "" (Some (String c s))) with (String c s).
    rewrite !orb_true_iff, !String.eqb_eq. intros [H|[H|[H|H]]]; [| | |discriminate];
      rewrite H; auto.
  - intros [ -> | [ -> | [ -> | [ -> | -> ] ] ] ]; reflexivity.
Qed.

Lemma geolocation_effects_witness :
  utils.get_location_from_ip Bench.env0 (Some "localhost") Fixture.promo_world
  = (inr utils.no_location, Fixture.promo_world).
Proof.
  apply (proj1 (proj2 (geolocation_effects Bench.env0 (Some "localhost") Fixture.promo_world))).
  reflexivity.
Defined.

(** X3.  Every failure of the lookup is answered with [{None, None}]: a
    request that raises (time-out, connection error, anything), a status
    other than 200, a body that is not JSON, a JSON body that is not an
    object, and an object whose [status] is not the string "success". *)
Theorem geolocation_failures_are_swallowed (env : Env) (ip : string) (w : World) :
  skipped_ip (Some ip) = false ->
  (forall e, requests_get env (lookup_url env ip) = inl e ->
     fst (utils.get_location_from_ip env (Some ip) w) = inr utils.no_location)
  /\ (forall response, requests_get env (lookup_url env ip) = inr response ->
        status_code response <> 200
        \/ (exists e, json response = inl e)
        \/ json response = inr JsonOther
        \/ (exists fields, json response = inr (JsonObject fields)
                           /\ utils.data_get (JsonObject fields) "status"
                              <> inr (PyStr "success")) ->
        fst (utils.get_location_from_ip env (Some ip) w) = inr utils.no_location).
Proof.
  intros S. split.
  - intros e E. apply get_location_failure; [exact S|]. rewrite E. exact I.
  - intros response E F. apply get_location_failure; [exact S|]. rewrite E. exact F.
Qed.

Lemma geolocation_failures_are_swallowed_witness :
  fst (utils.get_location_from_ip Fixture.eager_env (Some "203.0.113.7") Fixture.promo_world)
  = inr utils.no_location.
Proof.
  apply (proj1 (geolocation_failures_are_swallowed Fixture.eager_env "203.0.113.7"
                  Fixture.promo_world eq_refl) ConnectionError).
  reflexivity.
Defined.

(** X4.  When the service answers 200 with a JSON object whose [status] is
    "success", the location returned holds the [city] and the [country]
    of that object as they are, and [None] for the one that is missing. *)
Theorem geolocation_success (env : Env) (ip : string) (w : World)
    (response : Response) (fields : list (string * pyval)) :
  skipped_ip (Some ip) = false ->
  requests_get env (lookup_url env ip) = inr response ->
  status_code response = 200 ->
  json response = inr (JsonObject fields) ->
  utils.data_get (JsonObject fields) "status" = inr (PyStr "success") ->
  exists c k,
    fst (utils.get_location_from_ip env (Some ip) w) = inr (utils.mkLocation c k)
    /\ utils.data_get (JsonObject fields) "city" = inr c
    /\ utils.data_get (JsonObject fields) "country" = inr k
    /\ ((forall v, ~ In ("city", v) fields) -> c = PyNone)
    /\ ((forall v, ~ In ("country", v) fields) -> k = PyNone).
Proof.
  intros S E H200 J St.
  assert (G : forall key, exists v,
             utils.data_get (JsonObject fields) key = inr v
             /\ ((forall x, ~ In (key, x) fields) -> v = PyNone)).
  { intros key. unfold utils.data_get.
    destruct (find _ fields) as [[k' v]|] eqn:F; [|eauto].
    exists v. split; [reflexivity|]. intros N. exfalso.
    apply find_some in F as [Hin Hk]. cbn [fst] in Hk. apply String.eqb_eq in Hk.
    subst. exact (N v Hin). }
  destruct (G "city") as (c & Ec & Nc). destruct (G "country") as (k & Ek & Nk).
  exists c, k. repeat split; try assumption.
  unfold utils.get_location_from_ip. fold (skipped_ip (Some ip)). rewrite S.
  unfold utils.requests_get_logged. change (default "" (Some ip)) with ip.
  fold (lookup_url env ip).
  unfold bind, try_except, log, lift, ret. rewrite E. cbn [fst snd].
  rewrite H200. cbn [Z.eqb Pos.eqb]. rewrite J, St.
  destruct (decide (PyStr "success" = PyStr "success")) as [_|N]; [|congruence].
  rewrite Ec, Ek. reflexivity.
Qed.

Lemma geolocation_success_witness :
  exists c k,
    fst (utils.get_location_from_ip Bench.env0 (Some "203.0.113.7") Fixture.promo_world)
    = inr (utils.mkLocation c k)
    /\ utils.data_get
         (JsonObject [("status", PyStr "success"); ("country", PyStr "France");
                      ("city", PyStr "Paris")]) "city" = inr c
    /\ utils.data_get
         (JsonObject [("status", PyStr "success"); ("country", PyStr "France");
                      ("city", PyStr "Paris")]) "country" = inr k
    /\ ((forall v, ~ In ("city", v)
                     [("status", PyStr "success"); ("country", PyStr "France");
                      ("city", PyStr "Paris")]) -> c = PyNone)
    /\ ((forall v, ~ In ("country", v)
                     [("status", PyStr "success"); ("country", PyStr "France");
                      ("city", PyStr "Paris")]) -> k = PyNone).
Proof.
  apply (geolocation_success Bench.env0 "203.0.113.7" Fixture.promo_world Bench.geo_reply);
    reflexivity.
Defined.

(** ** Further properties: the serializer *)

Lemma attempts_inr (n : nat) (vd vd' : app_tinyurl.ValidatedData) (w w' : World) :
  app_tinyurl.attempts n vd w = (inr vd', w') ->
  exists k,
    (k < n)%nat
    /\ vd' = app_tinyurl.mkValidatedData (Some (candidate (rng w) k))
               (app_tinyurl.vd_long_url vd) (app_tinyurl.vd_is_active vd)
    /\ taken (db w) (candidate (rng w) k) = false
    /\ db w' = db w.
Proof.
  revert w. induction n as [|n IH]; intros w H; [discriminate H|].
  rewrite attempts_step in H. cbv zeta in H.
  destruct (taken (db w) (candidate (rng w) 0)) eqn:T.
  - apply IH in H as (k & Hk & E & F & D). cbn [db rng] in *.
    rewrite candidate_shift in E, F. exists (S k). repeat split; [lia | assumption ..].
  - injection H as <- <-. exists O. repeat split; [lia | assumption].
Qed.

Lemma taken_app (d : Database) (url : Url.t) (code : string) :
  existsb (fun u => String.eqb (Url.short_code u) code) (tinyurl_url d ++ [url])
  = taken d code || String.eqb (Url.short_code url) code.
Proof. unfold taken. rewrite existsb_app. cbn [existsb]. rewrite orb_false_r. reflexivity. Qed.

Lemma not_taken_not_in (d : Database) (code : string) :
  taken d code = false -> ~ In code (map Url.short_code (tinyurl_url d)).
Proof.
  unfold taken. intros T Hin. apply in_map_iff in Hin as (u & E & Hu).
  assert (X : existsb (fun u => String.eqb (Url.short_code u) code) (tinyurl_url d) = true).
  { apply existsb_exists. exists u. split; [exact Hu|]. apply String.eqb_eq, E. }
  congruence.
Qed.

(** X5.  [validate_short_code] refuses the values that equal a reserved
    path up to case and, values and reserved paths being ASCII text,
    returns every other value unchanged; what it refuses is what
    [redirect_view] never looks up.  A creation or an update that sends a
    short code (ASCII text) which is a reserved path once the white space
    around it is trimmed is refused with an error of the field
    [short_code]: the uniqueness check of the field is the one query that
    was made, and nothing is drawn or stored. *)
Theorem reserved_codes_are_refused (env : Env) (value : string) :
  (reserved env value ->
   exists detail,
     app_tinyurl.validate_short_code env value = inl (ValidationError detail))
  /\ (ascii_only value -> Forall ascii_only (reserved_paths env) ->
      ~ reserved env value -> app_tinyurl.validate_short_code env value = inr value)
  /\ (reserved env value ->
      forall request w,
        app_tinyurl.redirect_view env request value w
        = (inr (app_tinyurl.not_found_page env), w))
  /\ (reserved env value -> value <> "" ->
      forall data sent w,
        app_tinyurl.vd_short_code data = Some sent ->
        ascii_only sent -> Py.strip sent = value ->
        (exists details,
           app_tinyurl.perform_create env data w
           = (inl (FieldErrors "short_code" details), logged (SqlSelect "tinyurl_url") w))
        /\ forall instance,
             exists details,
               app_tinyurl.perform_update env instance data w
               = (inl (FieldErrors "short_code" details),
                  logged (SqlSelect "tinyurl_url") w)).
Proof.
  assert (H : app_tinyurl.validate_short_code env value
              = if Py.str_in (Py.lower value) (map Py.lower (reserved_paths env))
                then inl (ValidationError
                            ("'" +:+ value
                             +:+ "' is a reserved path and cannot be used as a short code."))
                else inr value) by reflexivity.
  split; [|split; [|split]].
  - rewrite H. intros R. apply reserved_test in R. rewrite R. eexists. reflexivity.
  - intros _ _ N. rewrite H.
    destruct (Py.str_in _ _) eqn:T; [|reflexivity].
    exfalso. apply N, reserved_test, T.
  - intros R request w. apply redirect_view_reserved, R.
  - intros R Hne data sent w E _ S. subst value. split.
    + apply (reserved_code_rejected env data sent w E Hne R).
    + intros instance. apply (reserved_code_rejected_on_update env instance data sent w E Hne R).
Qed.

Lemma reserved_codes_are_refused_witness :
  exists details,
    app_tinyurl.perform_create Bench.env0
      (app_tinyurl.mkValidatedData (Some " Admin ") (Some "https://example.org/") None)
      Fixture.promo_world
    = (inl (FieldErrors "short_code" details),
       logged (SqlSelect "tinyurl_url") Fixture.promo_world).
Proof.
  pose proof (reserved_codes_are_refused Bench.env0 "Admin") as (_ & _ & _ & H).
  destruct (H ltac:(exists "admin"; split; [simpl; tauto | reflexivity])
              ltac:(discriminate)
              (app_tinyurl.mkValidatedData (Some " Admin ") (Some "https://example.org/") None)
              " Admin " Fixture.promo_world eq_refl eq_refl eq_refl) as [K _].
  exact K.
Defined.

(** X6.  A creation that succeeds appends exactly one row to [Url] and
    touches no other table.  The short code of that row is never empty
    and was free before; short codes that were distinct stay distinct.
    The code is the one supplied, or, without one, one of the ten
    candidates: six characters without look-alikes.  A missing
    [is_active] is stored as true. *)
Theorem create_stores_a_usable_code (env : Env) (vd : app_tinyurl.ValidatedData)
    (w w' : World) (url : Url.t) :
  app_tinyurl.create env vd w = (inr url, w') ->
  tinyurl_url (db w') = (tinyurl_url (db w) ++ [url])%list
  /\ tinyurl_urlstat (db w') = tinyurl_urlstat (db w)
  /\ linktree_link (db w') = linktree_link (db w)
  /\ linktree_linkstat (db w') = linktree_linkstat (db w)
  /\ Url.short_code url <> ""
  /\ taken (db w) (Url.short_code url) = false
  /\ (NoDup (map Url.short_code (tinyurl_url (db w))) ->
      NoDup (map Url.short_code (tinyurl_url (db w'))))
  /\ (Py.truthy (app_tinyurl.vd_short_code vd) = true ->
      app_tinyurl.vd_short_code vd = Some (Url.short_code url))
  /\ (Py.truthy (app_tinyurl.vd_short_code vd) = false ->
      exists k, (k < 10)%nat /\ Url.short_code url = candidate (rng w) k
                /\ String.length (Url.short_code url) = 6%nat
                /\ unambiguous (Url.short_code url))
  /\ Url.is_active url = default true (app_tinyurl.vd_is_active vd).
Proof.
  unfold app_tinyurl.create. unfold bind at 1.
  destruct (app_tinyurl._ensure_short_code vd w) as [[e|vd1] w1] eqn:E; [discriminate|].
  assert (H1 : Py.truthy (app_tinyurl.vd_short_code vd1) = true
               /\ db w1 = db w
               /\ app_tinyurl.vd_is_active vd1 = app_tinyurl.vd_is_active vd
               /\ (Py.truthy (app_tinyurl.vd_short_code vd) = true -> vd1 = vd)
               /\ (Py.truthy (app_tinyurl.vd_short_code vd) = false ->
                   exists k, (k < 10)%nat
                             /\ app_tinyurl.vd_short_code vd1 = Some (candidate (rng w) k))).
  { unfold app_tinyurl._ensure_short_code in E.
    destruct (Py.truthy (app_tinyurl.vd_short_code vd)) eqn:T; cbn [negb] in E.
    - injection E as <- <-. repeat split; auto. congruence.
    - apply attempts_inr in E as (k & Hk & -> & F & D).
      cbn [app_tinyurl.vd_short_code app_tinyurl.vd_is_active].
      split; [|split; [exact D|split; [reflexivity|split; [intros X; discriminate X|eauto]]]].
      unfold candidate. destruct (code_of _ utils.default_length) eqn:C; [|reflexivity].
      apply (f_equal String.length) in C. rewrite code_of_length in C. discriminate C. }
  destruct H1 as (T1 & D1 & A1 & S1 & G1).
  unfold app_tinyurl.Url_create, bind, log, read_db, write_db, ret, raise. cbn [db effects rng].
  rewrite D1. fold (taken (db w) (default "" (app_tinyurl.vd_short_code vd1))).
  destruct (taken (db w) (default "" (app_tinyurl.vd_short_code vd1))) eqn:Tk; [discriminate|].
  intros H. injection H as <- <-. cbn [db tinyurl_url tinyurl_urlstat linktree_link
    linktree_linkstat Url.short_code Url.is_active].
  destruct (app_tinyurl.vd_short_code vd1) as [[|c code]|] eqn:V; try discriminate T1.
  change (default "" (Some (String c code))) with (String c code) in *.
  repeat apply conj; try reflexivity.
  - discriminate.
  - exact Tk.
  - intros ND. rewrite map_app. apply NoDup_app. split; [exact ND|].
    split; [|apply NoDup_singleton].
    intros x Hx Hs. apply list_elem_of_singleton in Hs. subst x.
    apply (not_taken_not_in _ _ Tk), list_elem_of_In, Hx.
  - intros T. rewrite <- (S1 T). exact V.
  - intros T. destruct (G1 T) as (k & Hk & Ek).
    assert (Ek' : String c code = candidate (rng w) k) by congruence.
    exists k. rewrite Ek'.
    split; [exact Hk|]. split; [reflexivity|]. split; [apply code_of_length|].
    intros a Ha. apply chars_unambiguous. eapply code_of_chars, Ha.
  - rewrite A1. reflexivity.
Qed.

Lemma create_stores_a_usable_code_witness :
  tinyurl_url (db (snd (app_tinyurl.create Bench.env0 Exhausted.blank Fixture.promo_world)))
  = [Fixture.promo; Fixture.retired;
     Url.Build 4242%N "aaaaaa" "https://example.org/b" 1700000000 1700000000 true].
Proof.
  apply (create_stores_a_usable_code Bench.env0 Exhausted.blank Fixture.promo_world
           (snd (app_tinyurl.create Bench.env0 Exhausted.blank Fixture.promo_world))
           (Url.Build 4242%N "aaaaaa" "https://example.org/b" 1700000000 1700000000 true)).
  vm_compute. reflexivity.
Defined.

(** X7.  An update that does not send a short code does not keep the one
    the row has: it draws a new one.  When the first candidate is free,
    the row is saved under that candidate, which differs from its former
    code, with its primary key and creation time unchanged. *)
Theorem update_without_code_draws_a_new_one (env : Env) (instance : Url.t)
    (vd : app_tinyurl.ValidatedData) (w : World) :
  Py.truthy (app_tinyurl.vd_short_code vd) = false ->
  In instance (tinyurl_url (db w)) ->
  taken (db w) (candidate (rng w) 0) = false ->
  exists row w',
    app_tinyurl.update env instance vd w = (inr row, w')
    /\ Url.short_code row = candidate (rng w) 0
    /\ Url.short_code row <> Url.short_code instance
    /\ Url.id row = Url.id instance
    /\ Url.created_at row = Url.created_at instance
    /\ In row (tinyurl_url (db w'))
    /\ length (tinyurl_url (db w')) = length (tinyurl_url (db w)).
Proof.
  intros T Hin Free.
  destruct (attempts_found 10 0 vd w) as (w1 & E & D & F); [lia | intros j Hj; lia | exact Free |].
  unfold app_tinyurl.update, app_tinyurl._ensure_short_code. rewrite T. cbn [negb].
  unfold bind at 1. rewrite E. cbn [app_tinyurl.vd_short_code app_tinyurl.vd_long_url
    app_tinyurl.vd_is_active].
  change (default (Url.short_code instance) (Some (candidate (rng w) 0)))
    with (candidate (rng w) 0).
  unfold app_tinyurl.Url_save, bind, log, read_db, write_db, ret, raise.
  cbn [db effects rng Url.short_code Url.id]. rewrite D.
  assert (X : existsb (fun u => String.eqb (Url.short_code u) (candidate (rng w) 0)
                                && negb (N.eqb (Url.id u) (Url.id instance)))
                (tinyurl_url (db w)) = false).
  { apply not_true_is_false. intros X. apply existsb_exists in X as (u & Hu & P).
    apply andb_true_iff in P as [P _].
    assert (Y : taken (db w) (candidate (rng w) 0) = true)
      by (apply existsb_exists; eauto).
    congruence. }
  rewrite X. eexists. eexists. split; [reflexivity|].
  cbn [Url.short_code Url.id Url.created_at db tinyurl_url].
  repeat split.
  - intros C. apply (not_taken_not_in _ _ Free). rewrite C. apply in_map, Hin.
  - apply in_map_iff. exists instance. rewrite N.eqb_refl. auto.
  - apply length_map.
Qed.

Lemma update_without_code_draws_a_new_one_witness :
  exists row w',
    app_tinyurl.update Bench.env0 Fixture.promo
      (app_tinyurl.mkValidatedData None None (Some false)) Fixture.promo_world
    = (inr row, w')
    /\ Url.short_code row = "aaaaaa"
    /\ Url.short_code row <> "promo"
    /\ Url.id row = 1%N
    /\ Url.created_at row = 0
    /\ In row (tinyurl_url (db w'))
    /\ length (tinyurl_url (db w')) = 2%nat.
Proof.
  apply (update_without_code_draws_a_new_one Bench.env0 Fixture.promo
           (app_tinyurl.mkValidatedData None None (Some false)) Fixture.promo_world).
  - reflexivity.
  - simpl. auto.
  - reflexivity.
Defined.

(** ** Further properties: querysets *)

Section Ordering.
Context {A : Type} (before : A -> A -> bool).
Hypothesis before_total : forall x y, before x y = false -> before y x = true.
Hypothesis before_trans : forall x y z, before x y = true -> before y z = true ->
                                        before x z = true.

Lemma insert_by_perm (x : A) (l : list A) :
  Permutation (QuerySet.insert_by before x l) (x :: l).
Proof.
  induction l as [|y l IH]; cbn [QuerySet.insert_by]; [reflexivity|].
  destruct (before x y); [reflexivity|].
  rewrite IH. apply perm_swap.
Qed.

Lemma order_by_perm (l : list A) : Permutation (QuerySet.order_by before l) l.
Proof.
  unfold QuerySet.order_by. induction l as [|x l IH]; cbn [foldr]; [reflexivity|].
  rewrite insert_by_perm. constructor. exact IH.
Qed.

Lemma insert_by_sorted (x : A) (l : list A) :
  StronglySorted (fun a b => before a b = true) l ->
  StronglySorted (fun a b => before a b = true) (QuerySet.insert_by before x l).
Proof.
  induction 1 as [|y l Hl IH Hy]; cbn [QuerySet.insert_by].
  - repeat constructor.
  - destruct (before x y) eqn:B.
    + constructor; [constructor; assumption|].
      constructor; [exact B|].
      rewrite List.Forall_forall in Hy |- *. intros z Hz. eauto.
    + constructor; [exact IH|].
      eapply Permutation_Forall; [symmetry; apply insert_by_perm|].
      constructor; [apply before_total, B | exact Hy].
Qed.

Lemma order_by_sorted (l : list A) :
  StronglySorted (fun a b => before a b = true) (QuerySet.order_by before l).
Proof.
  unfold QuerySet.order_by. induction l as [|x l IH]; cbn [foldr]; [constructor|].
  apply insert_by_sorted, IH.
Qed.
End Ordering.

Lemma StronglySorted_firstn {A} (R : A -> A -> Prop) (n : nat) (l : list A) :
  StronglySorted R l -> StronglySorted R (firstn n l).
Proof.
  intros H. revert n. induction H as [|x l Hl IH Hx]; intros [|n]; cbn [firstn];
    try constructor; [apply IH|].
  apply List.Forall_forall. intros y Hy. rewrite List.Forall_forall in Hx. apply Hx.
  rewrite <- (firstn_skipn n l). apply in_or_app. left. exact Hy.
Qed.

Lemma StronglySorted_split {A} (R : A -> A -> Prop) (n : nat) (l : list A) (x y : A) :
  StronglySorted R l -> In x (firstn n l) -> In y (skipn n l) -> R x y.
Proof.
  intros H. revert n. induction H as [|z l Hl IH Hz]; intros n Hx Hy.
  - destruct n; destruct Hx.
  - destruct n as [|n]; [destruct Hx|]. cbn [firstn skipn] in *.
    destruct Hx as [<-|Hx]; [|eapply IH; eassumption].
    rewrite List.Forall_forall in Hz. apply Hz.
    rewrite <- (firstn_skipn n l). apply in_or_app. right. exact Hy.
Qed.

Lemma In_firstn {A} (n : nat) (l : list A) (x : A) : In x (firstn n l) -> In x l.
Proof. intros H. rewrite <- (firstn_skipn n l). apply in_or_app. left. exact H. Qed.

Lemma In_assoc {K} `{EqDecision K} (g : list (K * Z)) (k : K) (n : Z) :
  NoDup (map fst g) -> (In (k, n) g <-> assoc k g = Some n).
Proof.
  induction g as [|[k0 n0] g IH]; cbn [map fst assoc In]; intros ND.
  - split; [tauto | discriminate].
  - apply NoDup_cons in ND as [N0 ND]. destruct (decide (k = k0)) as [->|Hk].
    + split.
      * intros [E|Hin]; [congruence|]. exfalso. apply N0, list_elem_of_In.
        apply (in_map fst) in Hin. exact Hin.
      * intros E. left. congruence.
    + rewrite <- (IH ND). split; [intros [E|Hin]; [congruence | exact Hin] | tauto].
Qed.

Lemma sum_counts_bump {K} `{EqDecision K} (k : K) (g : list (K * Z)) :
  sum_counts (QuerySet.bump k g) = sum_counts g + 1.
Proof.
  induction g as [|[k0 n0] g IH]; cbn [QuerySet.bump sum_counts fold_right snd]; [lia|].
  destruct (decide (k = k0)); cbn [sum_counts fold_right snd]; [lia|].
  fold (sum_counts (QuerySet.bump k g)). fold (sum_counts g). rewrite IH. lia.
Qed.

Lemma sum_counts_values_count {A K} `{EqDecision K} (key : A -> K) (rows : list A) :
  sum_counts (QuerySet.values_count key rows) = QuerySet.count rows.
Proof.
  unfold QuerySet.values_count, QuerySet.count.
  assert (G : forall g, sum_counts (fold_left (fun g r => QuerySet.bump (key r) g) rows g)
                        = sum_counts g + Z.of_nat (length rows)).
  { induction rows as [|r rows IH]; intros g; cbn [fold_left length]; [lia|].
    rewrite IH, sum_counts_bump. lia. }
  rewrite G. reflexivity.
Qed.

Lemma sum_counts_perm {K} (g1 g2 : list (K * Z)) :
  Permutation g1 g2 -> sum_counts g1 = sum_counts g2.
Proof.
  induction 1; cbn [sum_counts fold_right]; try fold (sum_counts l);
    try fold (sum_counts l'); lia.
Qed.

Lemma tally_nonneg {A K} `{EqDecision K} (key : A -> K) (k : K) (rows : list A) :
  0 <= tally key k rows.
Proof. unfold tally, QuerySet.count. lia. Qed.

(** The rows of [values_count]: one per key, with its tally. *)
Lemma values_count_In {A K} `{EqDecision K} (key : A -> K) (rows : list A) (k : K) (n : Z) :
  In (k, n) (QuerySet.values_count key rows) <-> n = tally key k rows /\ 0 < n.
Proof.
  rewrite (In_assoc _ _ _ (values_count_NoDup key rows)), values_count_assoc.
  pose proof (tally_nonneg key k rows).
  destruct (Z.eqb_spec (tally key k rows) 0); split.
  - discriminate.
  - intros [-> ?]. lia.
  - intros E. injection E as <-. split; [reflexivity | lia].
  - intros [-> _]. reflexivity.
Qed.

Lemma tally_omap {A} (f : A -> option string) (c : string) (rows : list A) :
  tally id c (omap f rows) = tally f (Some c) rows.
Proof.
  unfold tally, QuerySet.count. f_equal.
  induction rows as [|r rows IH]; [reflexivity|].
  simpl. destruct (f r) as [c'|] eqn:E; simpl.
  - destruct (decide (c' = c)) as [->|N].
    + rewrite !bool_decide_eq_true_2 by reflexivity. simpl. f_equal. exact IH.
    + rewrite !bool_decide_eq_false_2 by (unfold id; congruence). exact IH.
  - try rewrite bool_decide_eq_false_2 by discriminate. exact IH.
Qed.

(** ** Further properties: the aggregates *)

Lemma StronglySorted_weaken {A} (R R' : A -> A -> Prop) (l : list A) :
  (forall x y, In x l -> In y l -> R x y -> R' x y) ->
  StronglySorted R l -> StronglySorted R' l.
Proof.
  intros W H. induction H as [|x l Hl IH Hx]; constructor.
  - apply IH. intros a b Ha Hb. apply W; right; assumption.
  - rewrite List.Forall_forall in Hx |- *. intros y Hy.
    apply W; [left; reflexivity | right; exact Hy | apply Hx, Hy].
Qed.

Lemma StronglySorted_strict (l : list (Z * Z)) :
  StronglySorted (fun x y => fst x <= fst y) l -> NoDup (map fst l) ->
  StronglySorted (fun x y => fst x < fst y) l.
Proof.
  intros H. induction H as [|x l Hl IH Hx]; intros ND; constructor.
  - apply IH. cbn [map] in ND. apply NoDup_cons in ND as [_ ND]. exact ND.
  - cbn [map] in ND. apply NoDup_cons in ND as [Nx _].
    rewrite List.Forall_forall in Hx |- *. intros y Hy.
    specialize (Hx y Hy). cbn beta in Hx.
    assert (fst x <> fst y); [|lia].
    intros E. apply Nx. rewrite E. apply list_elem_of_In, in_map, Hy.
Qed.

Lemma date_asc_sorted (l : list (Z * Z)) :
  StronglySorted (fun x y => fst x <= fst y) (QuerySet.order_by QuerySet.date_asc l).
Proof.
  eapply StronglySorted_weaken; [|apply order_by_sorted].
  - intros x y _ _ H. apply Z.leb_le, H.
  - intros x y H. unfold QuerySet.date_asc in *. apply Z.leb_le. apply Z.leb_gt in H. lia.
  - intros x y z H1 H2. unfold QuerySet.date_asc in *. apply Z.leb_le.
    apply Z.leb_le in H1, H2. lia.
Qed.

Lemma count_desc_sorted {K} (l : list (K * Z)) :
  descending (QuerySet.order_by QuerySet.count_desc l).
Proof.
  eapply StronglySorted_weaken; [|apply order_by_sorted].
  - intros x y _ _ H. apply Z.leb_le, H.
  - intros x y H. unfold QuerySet.count_desc in *. apply Z.leb_le. apply Z.leb_gt in H. lia.
  - intros x y z H1 H2. unfold QuerySet.count_desc in *. apply Z.leb_le.
    apply Z.leb_le in H1, H2. lia.
Qed.

Section AggregateFacts.
Context {Stat : Type}.
Variable created_at : Stat -> Z.
Variable via_qrcode : Stat -> bool.
Variable device_type : Stat -> string.
Variable country : Stat -> option string.
Variable env : Env.
Variable clicks : list Stat.

Lemma by_day_rows : day_rows created_at env clicks (by_day created_at env clicks).
Proof.
  unfold day_rows, by_day.
  set (key := fun s => TruncDate env (created_at s)).
  set (groups := QuerySet.values_count key clicks).
  pose proof (order_by_perm QuerySet.date_asc groups) as P.
  split; [|split].
  - apply StronglySorted_strict; [apply date_asc_sorted|].
    rewrite (Permutation_map fst P). apply values_count_NoDup.
  - intros day n. rewrite <- (values_count_In key clicks day n). fold groups.
    split; apply Permutation_in; [exact P | symmetry; exact P].
  - rewrite (sum_counts_perm _ _ P). apply sum_counts_values_count.
Qed.

Lemma by_country_rows :
  country_rows country clicks
    (clicks_by_country
       (aggregate created_at via_qrcode device_type country env clicks)).
Proof.
  unfold country_rows, aggregate. cbn [clicks_by_country]. unfold QuerySet.limit.
  set (groups := QuerySet.values_count id (omap country clicks)).
  set (sorted := QuerySet.order_by QuerySet.count_desc groups).
  pose proof (order_by_perm QuerySet.count_desc groups : Permutation sorted groups) as P.
  pose proof (count_desc_sorted groups : descending sorted) as S.
  assert (ND : NoDup (map fst sorted)).
  { rewrite (Permutation_map fst P). apply values_count_NoDup. }
  assert (G : forall c n, In (c, n) sorted <-> n = tally country (Some c) clicks /\ 0 < n).
  { intros c n. rewrite <- tally_omap, <- (values_count_In id (omap country clicks) c n).
    fold groups. split; apply Permutation_in; [exact P | symmetry; exact P]. }
  repeat apply conj.
  - apply firstn_le_length.
  - apply StronglySorted_firstn, S.
  - rewrite <- (firstn_skipn 10 sorted), map_app in ND.
    apply NoDup_app in ND as [ND _]. exact ND.
  - intros c n H. apply G, (In_firstn 10), H.
  - intros c Hc c' n' H.
    pose proof (tally_nonneg country (Some c) clicks) as T0.
    destruct (Z.eq_dec (tally country (Some c) clicks) 0) as [Z0|Z0].
    + apply (In_firstn 10), G in H. lia.
    + assert (Hin : In (c, tally country (Some c) clicks) sorted)
        by (apply G; split; [reflexivity | lia]).
      rewrite <- (firstn_skipn 10 sorted) in Hin. apply in_app_or in Hin as [Hin|Hin].
      * exfalso. apply Hc. apply (in_map fst) in Hin. exact Hin.
      * apply (StronglySorted_split _ 10 sorted (c', n') _ S H Hin).
  - intros L c Hc.
    assert (E : firstn 10 sorted = sorted).
    { apply firstn_all2. rewrite length_firstn in L. lia. }
    rewrite E. change c with (fst (c, tally country (Some c) clicks)).
    apply in_map, G. split; [reflexivity | exact Hc].
Qed.

Lemma aggregate_totals :
  let s := aggregate created_at via_qrcode device_type country env clicks in
  total_clicks s = QuerySet.count clicks
  /\ qrcode_clicks s = QuerySet.count (List.filter via_qrcode clicks)
  /\ 0 <= qrcode_clicks s <= total_clicks s
  /\ direct_clicks s
     = QuerySet.count (List.filter (fun c => negb (via_qrcode c)) clicks)
  /\ total_clicks s = qrcode_clicks s + direct_clicks s.
Proof.
  cbv zeta. unfold aggregate, QuerySet.count.
  cbn [total_clicks qrcode_clicks direct_clicks].
  assert (L : (length (List.filter via_qrcode clicks)
               + length (List.filter (fun c => negb (via_qrcode c)) clicks)
               = length clicks)%nat).
  { clear. induction clicks as [|c l IH]; [reflexivity|].
    cbn [List.filter]. destruct (via_qrcode c); cbn [negb length]; lia. }
  repeat split; lia.
Qed.
End AggregateFacts.

Lemma filter_filter {A} (p q : A -> bool) (l : list A) :
  List.filter q (List.filter p l) = List.filter (fun x => p x && q x) l.
Proof.
  induction l as [|x l IH]; [reflexivity|]. cbn [List.filter].
  destruct (p x); cbn [List.filter andb]; [destruct (q x)|]; rewrite IH; reflexivity.
Qed.

(** X8.  The totals of a link's statistics.  The clicks counted are the
    rows of the click table, each as often as it is stored, that point at
    the link and were made at or after the start of the window;
    [total_clicks] is their number, [qrcode_clicks] the number of those
    that came through a QR code and [direct_clicks] the number of the
    others, so that both lie between 0 and [total_clicks] and add up to
    it. *)
Theorem stats_totals (env : Env) (request : HttpRequest) (d : Database) :
  (forall url s,
     app_tinyurl.stats env request url d = inr s ->
     exists start,
       start_date_of env request = inr start
       /\ total_clicks s
          = QuerySet.count
              (List.filter
                 (fun c => N.eqb (UrlStat.url c) (Url.id url)
                           && (start <=? UrlStat.created_at c))
                 (tinyurl_urlstat d))
       /\ qrcode_clicks s
          = QuerySet.count
              (List.filter
                 (fun c => N.eqb (UrlStat.url c) (Url.id url)
                           && (start <=? UrlStat.created_at c)
                           && UrlStat.via_qrcode c)
                 (tinyurl_urlstat d))
       /\ direct_clicks s
          = QuerySet.count
              (List.filter
                 (fun c => N.eqb (UrlStat.url c) (Url.id url)
                           && (start <=? UrlStat.created_at c)
                           && negb (UrlStat.via_qrcode c))
                 (tinyurl_urlstat d))
       /\ 0 <= qrcode_clicks s <= total_clicks s
       /\ 0 <= direct_clicks s <= total_clicks s
       /\ total_clicks s = qrcode_clicks s + direct_clicks s)
  /\ (forall link s,
        app_linktree.stats env request link d = inr s ->
        exists start,
          start_date_of env request = inr start
          /\ total_clicks s
             = QuerySet.count
                 (List.filter
                    (fun c => N.eqb (LinkStat.link c) (Link.id link)
                              && (start <=? LinkStat.created_at c))
                    (linktree_linkstat d))
          /\ qrcode_clicks s
             = QuerySet.count
                 (List.filter
                    (fun c => N.eqb (LinkStat.link c) (Link.id link)
                              && (start <=? LinkStat.created_at c)
                              && LinkStat.via_qrcode c)
                    (linktree_linkstat d))
          /\ direct_clicks s
             = QuerySet.count
                 (List.filter
                    (fun c => N.eqb (LinkStat.link c) (Link.id link)
                              && (start <=? LinkStat.created_at c)
                              && negb (LinkStat.via_qrcode c))
                    (linktree_linkstat d))
          /\ 0 <= qrcode_clicks s <= total_clicks s
          /\ 0 <= direct_clicks s <= total_clicks s
          /\ total_clicks s = qrcode_clicks s + direct_clicks s).
Proof.
  split.
  - intros url s. unfold app_tinyurl.stats.
    destruct (start_date_of env request) as [e|start]; [discriminate|].
    intros E. injection E as <-. exists start.
    destruct (aggregate_totals UrlStat.created_at UrlStat.via_qrcode UrlStat.device_type
                UrlStat.country env
                (in_window UrlStat.created_at start (app_tinyurl.related_stats d url)))
      as (T & Q & B & D & S).
    unfold in_window, app_tinyurl.related_stats in *.
    repeat rewrite filter_filter in *.
    repeat split; try assumption; try lia.
  - intros link s. unfold app_linktree.stats.
    destruct (start_date_of env request) as [e|start]; [discriminate|].
    intros E. injection E as <-. exists start.
    destruct (aggregate_totals LinkStat.created_at LinkStat.via_qrcode LinkStat.device_type
                LinkStat.country env
                (in_window LinkStat.created_at start (app_linktree.related_stats d link)))
      as (T & Q & B & D & S).
    unfold in_window, app_linktree.related_stats in *.
    repeat rewrite filter_filter in *.
    repeat split; try assumption; try lia.
Qed.

Lemma stats_totals_witness :
  exists start,
    start_date_of Worked.env Worked.request = inr start
    /\ total_clicks Worked.summary
       = QuerySet.count
           (List.filter
              (fun c => N.eqb (UrlStat.url c) (Url.id Worked.url)
                        && (start <=? UrlStat.created_at c))
              (tinyurl_urlstat Worked.url_db))
    /\ total_clicks Worked.summary = 3.
Proof.
  destruct (proj1 (stats_totals Worked.env Worked.request Worked.url_db) Worked.url
              Worked.summary) as (start & E & T & _).
  - vm_compute. reflexivity.
  - exists start. split; [exact E|]. split; [exact T | reflexivity].
Defined.

(** X9.  The breakdown by day, in the two statistics views and the two
    dashboards: the dates are strictly ascending, a date is listed exactly
    when a counted click falls on it (in the configured time zone), with
    the number of such clicks, never zero, and the counts add up to the
    clicks counted. *)
Theorem clicks_by_day_rows (env : Env) (request : HttpRequest) (d : Database)
    (start : Z) :
  start_date_of env request = inr start ->
  (forall url, exists s,
      app_tinyurl.stats env request url d = inr s
      /\ day_rows UrlStat.created_at env
           (in_window UrlStat.created_at start (app_tinyurl.related_stats d url))
           (clicks_by_day s))
  /\ (forall link, exists s,
         app_linktree.stats env request link d = inr s
         /\ day_rows LinkStat.created_at env
              (in_window LinkStat.created_at start (app_linktree.related_stats d link))
              (clicks_by_day s))
  /\ (exists dash,
         app_tinyurl.dashboard_stats env request d = inr dash
         /\ day_rows UrlStat.created_at env
              (in_window UrlStat.created_at start (tinyurl_urlstat d))
              (app_tinyurl.dash_clicks_by_day dash))
  /\ (exists dash,
         app_linktree.dashboard_stats env request d = inr dash
         /\ day_rows LinkStat.created_at env
              (in_window LinkStat.created_at start (linktree_linkstat d))
              (app_linktree.dash_clicks_by_day dash)).
Proof.
  intros S. unfold app_tinyurl.stats, app_linktree.stats, app_tinyurl.dashboard_stats,
    app_linktree.dashboard_stats. rewrite S.
  repeat split; intros; eexists; (split; [reflexivity|]); apply by_day_rows.
Qed.

Lemma clicks_by_day_rows_witness :
  exists s,
    app_tinyurl.stats Worked.env Worked.request Worked.url Worked.url_db = inr s
    /\ day_rows UrlStat.created_at Worked.env
         (in_window UrlStat.created_at (3 * 86400 - 30 * 86400)
            (app_tinyurl.related_stats Worked.url_db Worked.url))
         (clicks_by_day s).
Proof.
  assert (E : start_date_of Worked.env Worked.request = inr (3 * 86400 - 30 * 86400))
    by (vm_compute; reflexivity).
  exact (proj1 (clicks_by_day_rows Worked.env Worked.request Worked.url_db _ E) Worked.url).
Defined.

(** X10.  The breakdown by country of a link's statistics: at most ten
    rows, in descending order of their counts, one per country; each row
    holds the number of counted clicks from that country, never zero;
    clicks without a country are in no row; a country left out has no
    more clicks than any country listed, and none is left out while
    fewer than ten are listed. *)
Theorem clicks_by_country_rows (env : Env) (request : HttpRequest) (d : Database)
    (start : Z) :
  start_date_of env request = inr start ->
  (forall url, exists s,
      app_tinyurl.stats env request url d = inr s
      /\ country_rows UrlStat.country
           (in_window UrlStat.created_at start (app_tinyurl.related_stats d url))
           (clicks_by_country s))
  /\ (forall link, exists s,
         app_linktree.stats env request link d = inr s
         /\ country_rows LinkStat.country
              (in_window LinkStat.created_at start (app_linktree.related_stats d link))
              (clicks_by_country s)).
Proof.
  intros S. unfold app_tinyurl.stats, app_linktree.stats. rewrite S.
  split; intros; eexists; (split; [reflexivity|]); apply by_country_rows.
Qed.

Lemma clicks_by_country_rows_witness :
  exists s,
    app_tinyurl.stats Worked.env Worked.request Worked.url Worked.url_db = inr s
    /\ country_rows UrlStat.country
         (in_window UrlStat.created_at (3 * 86400 - 30 * 86400)
            (app_tinyurl.related_stats Worked.url_db Worked.url))
         (clicks_by_country s).
Proof.
  assert (E : start_date_of Worked.env Worked.request = inr (3 * 86400 - 30 * 86400))
    by (vm_compute; reflexivity).
  exact (proj1 (clicks_by_country_rows Worked.env Worked.request Worked.url_db _ E)
           Worked.url).
Defined.

Lemma urlstat_window_app (d : Database) (c : UrlStat.t) (url : Url.t) (start : Z) :
  in_window UrlStat.created_at start (app_tinyurl.related_stats (add_urlstat d c) url)
  = (in_window UrlStat.created_at start (app_tinyurl.related_stats d url)
     ++ (if N.eqb (UrlStat.url c) (Url.id url) && (start <=? UrlStat.created_at c)
         then [c] else []))%list.
Proof.
  unfold in_window, app_tinyurl.related_stats, add_urlstat. cbn [tinyurl_urlstat].
  rewrite !List.filter_app. f_equal. cbn [List.filter].
  destruct (N.eqb (UrlStat.url c) (Url.id url)); [|reflexivity].
  cbn [List.filter andb]. destruct (start <=? UrlStat.created_at c); reflexivity.
Qed.

Lemma linkstat_window_app (d : Database) (c : LinkStat.t) (link : Link.t) (start : Z) :
  in_window LinkStat.created_at start (app_linktree.related_stats (add_linkstat d c) link)
  = (in_window LinkStat.created_at start (app_linktree.related_stats d link)
     ++ (if N.eqb (LinkStat.link c) (Link.id link) && (start <=? LinkStat.created_at c)
         then [c] else []))%list.
Proof.
  unfold in_window, app_linktree.related_stats, add_linkstat. cbn [linktree_linkstat].
  rewrite !List.filter_app. f_equal. cbn [List.filter].
  destruct (N.eqb (LinkStat.link c) (Link.id link)); [|reflexivity].
  cbn [List.filter andb]. destruct (start <=? LinkStat.created_at c); reflexivity.
Qed.

(** X11.  The statistics of a link do not move when a click is stored for
    another link, or with a time before the start of the window, or in
    the table of the other variant. *)
Theorem stats_ignore_unrelated_clicks (env : Env) (request : HttpRequest) (d : Database) :
  (forall url c,
     UrlStat.url c <> Url.id url
     \/ (exists start, start_date_of env request = inr start
                       /\ UrlStat.created_at c < start) ->
     app_tinyurl.stats env request url (add_urlstat d c)
     = app_tinyurl.stats env request url d)
  /\ (forall url c,
        app_tinyurl.stats env request url (add_linkstat d c)
        = app_tinyurl.stats env request url d)
  /\ (forall link c,
        LinkStat.link c <> Link.id link
        \/ (exists start, start_date_of env request = inr start
                          /\ LinkStat.created_at c < start) ->
        app_linktree.stats env request link (add_linkstat d c)
        = app_linktree.stats env request link d)
  /\ (forall link c,
        app_linktree.stats env request link (add_urlstat d c)
        = app_linktree.stats env request link d).
Proof.
  repeat apply conj.
  - intros url c H. unfold app_tinyurl.stats.
    destruct (start_date_of env request) as [e|start] eqn:S; [reflexivity|].
    rewrite urlstat_window_app.
    destruct H as [H|(start' & E & H)].
    + destruct (N.eqb_spec (UrlStat.url c) (Url.id url)); [contradiction|].
      cbn [andb]. rewrite app_nil_r. reflexivity.
    + injection E as <-. destruct (Z.leb_spec start (UrlStat.created_at c)); [lia|].
      rewrite andb_false_r, app_nil_r. reflexivity.
  - intros url c. reflexivity.
  - intros link c H. unfold app_linktree.stats.
    destruct (start_date_of env request) as [e|start] eqn:S; [reflexivity|].
    rewrite linkstat_window_app.
    destruct H as [H|(start' & E & H)].
    + destruct (N.eqb_spec (LinkStat.link c) (Link.id link)); [contradiction|].
      cbn [andb]. rewrite app_nil_r. reflexivity.
    + injection E as <-. destruct (Z.leb_spec start (LinkStat.created_at c)); [lia|].
      rewrite andb_false_r, app_nil_r. reflexivity.
  - intros link c. reflexivity.
Qed.

Lemma stats_ignore_unrelated_clicks_witness :
  app_tinyurl.stats Worked.env Worked.request Worked.url
    (add_urlstat Worked.url_db
       (UrlStat.Build 104%N 2%N Worked.day2 true "tablet" None (Some "DE") None None))
  = app_tinyurl.stats Worked.env Worked.request Worked.url Worked.url_db.
Proof.
  apply (proj1 (stats_ignore_unrelated_clicks Worked.env Worked.request Worked.url_db)).
  left. discriminate.
Defined.






(** ** Further properties: the dashboards *)

Lemma click_count_desc_sorted {R} (count : R -> Z) (l : list R) :
  StronglySorted (fun x y => count y <= count x)
    (QuerySet.order_by (fun x y => count y <=? count x) l).
Proof.
  eapply StronglySorted_weaken; [|apply order_by_sorted].
  - intros x y _ _ H. apply Z.leb_le, H.
  - intros x y H. apply Z.leb_le. apply Z.leb_gt in H. lia.
  - intros x y z H1 H2. apply Z.leb_le. apply Z.leb_le in H1, H2. lia.
Qed.

(** The ten first rows of a list sorted by descending count: what is left
    out counts no more than what is kept, and nothing is left out of a
    list of fewer than ten. *)
Lemma top_ten {R} (count : R -> Z) (l : list R) :
  let rows := QuerySet.limit 10 (QuerySet.order_by (fun x y => count y <=? count x) l) in
  (length rows <= 10)%nat
  /\ StronglySorted (fun x y => count y <= count x) rows
  /\ (forall r, In r rows -> In r l)
  /\ (forall r, In r l -> In r rows \/ forall r', In r' rows -> count r <= count r')
  /\ ((length rows < 10)%nat -> forall r, In r l -> In r rows).
Proof.
  cbv zeta. unfold QuerySet.limit.
  set (sorted := QuerySet.order_by (fun x y => count y <=? count x) l).
  pose proof (order_by_perm (fun x y => count y <=? count x) l : Permutation sorted l) as P.
  pose proof (click_count_desc_sorted count l : StronglySorted _ sorted) as S.
  repeat apply conj.
  - apply firstn_le_length.
  - apply StronglySorted_firstn, S.
  - intros r H. apply (Permutation_in _ P), (In_firstn 10), H.
  - intros r H. apply (Permutation_in _ (Permutation_sym P)) in H.
    rewrite <- (firstn_skipn 10 sorted) in H. apply in_app_or in H as [H|H]; [left; exact H|].
    right. intros r' H'. apply (StronglySorted_split _ 10 sorted r' r S H' H).
  - intros L r H. apply (Permutation_in _ (Permutation_sym P)) in H.
    rewrite firstn_all2; [exact H|]. rewrite length_firstn in L. lia.
Qed.

(** X13.  [top_urls] of the dashboard: at most ten rows in descending
    order of their counts; each row is the identifier, short code and
    destination of a stored short URL with the number of its clicks in
    the window, which is never zero; a short URL with clicks in the
    window that is left out has no more of them than any listed one, and
    none is left out while fewer than ten are listed. *)
Theorem top_urls_rows (start_date : Z) (d : Database) :
  let rows := app_tinyurl.top_urls start_date d in
  (length rows <= 10)%nat
  /\ StronglySorted
       (fun x y => app_tinyurl.click_count y <= app_tinyurl.click_count x) rows
  /\ (forall r, In r rows ->
        0 < app_tinyurl.click_count r
        /\ exists u, In u (tinyurl_url d) /\ r = url_row start_date d u)
  /\ (forall u, In u (tinyurl_url d) -> 0 < url_window_clicks start_date d u ->
        In (url_row start_date d u) rows
        \/ forall r, In r rows -> url_window_clicks start_date d u <= app_tinyurl.click_count r)
  /\ ((length rows < 10)%nat ->
        forall u, In u (tinyurl_url d) -> 0 < url_window_clicks start_date d u ->
                  In (url_row start_date d u) rows).
Proof.
  cbv zeta. unfold app_tinyurl.top_urls.
  fold (url_window_clicks start_date d). 
  change (map (fun u => app_tinyurl.mkTopUrl (Url.id u) (Url.short_code u) (Url.long_url u)
                          (url_window_clicks start_date d u)) (tinyurl_url d))
    with (map (url_row start_date d) (tinyurl_url d)).
  set (kept := List.filter (fun r => 0 <? app_tinyurl.click_count r)
                 (map (url_row start_date d) (tinyurl_url d))).
  destruct (top_ten app_tinyurl.click_count kept) as (L & S & Sub & Top & All).
  assert (K : forall u, In u (tinyurl_url d) -> 0 < url_window_clicks start_date d u ->
                        In (url_row start_date d u) kept).
  { intros u Hu Hc. apply filter_In. split; [apply in_map, Hu|].
    apply Z.ltb_lt. exact Hc. }
  repeat apply conj.
  - exact L.
  - exact S.
  - intros r H. apply Sub, filter_In in H as [H C]. apply Z.ltb_lt in C.
    apply in_map_iff in H as (u & <- & Hu). eauto.
  - intros u Hu Hc. destruct (Top _ (K u Hu Hc)) as [H|H]; [left; exact H | right; exact H].
  - intros Lt u Hu Hc. apply (All Lt), K; assumption.
Qed.

Lemma joined_rows_nil (start_date : Z) (d : Database) (l : Link.t) :
  app_linktree.joined_rows start_date d l = [] <-> link_window_clicks start_date d l = 0.
Proof.
  unfold app_linktree.joined_rows, link_window_clicks, QuerySet.count.
  set (rel := app_linktree.related_stats d l).
  set (win := List.filter (fun t => start_date <=? LinkStat.created_at t) rel).
  assert (L : (0 < length (app_linktree.left_outer_join rel))%nat).
  { unfold app_linktree.left_outer_join. destruct rel; cbn [length map]; lia. }
  pose proof (length_prod (app_linktree.left_outer_join rel) win) as P.
  split; intros H.
  - rewrite H in P. cbn [length] in P. nia.
  - assert (W : length win = O) by lia. rewrite W in P.
    destruct (list_prod _ win); [reflexivity|]. cbn [length] in P. lia.
Qed.

Lemma top_link_annotation (start_date : Z) (d : Database) (l : Link.t) :
  match app_linktree.joined_rows start_date d l with
  | [] => None
  | rows =>
      Some (app_linktree.mkTopLink (Link.id l) (Link.name l) (Link.url l)
              (QuerySet.count
                 (List.filter (fun r => bool_decide (is_Some (fst r))) rows)))
  end
  = if 0 <? link_window_clicks start_date d l
    then Some (link_row start_date d l) else None.
Proof.
  pose proof (joined_rows_count start_date d l) as C.
  pose proof (joined_rows_nil start_date d l) as N.
  unfold link_row. fold (link_all_clicks d l) in C.
  fold (link_window_clicks start_date d l) in C. rewrite <- C.
  assert (W0 : 0 <= link_window_clicks start_date d l)
    by (unfold link_window_clicks, QuerySet.count; lia).
  destruct (app_linktree.joined_rows start_date d l) as [|p rows].
  - rewrite (proj1 N eq_refl). reflexivity.
  - destruct (Z.ltb_spec 0 (link_window_clicks start_date d l)); [reflexivity|].
    assert (Z : link_window_clicks start_date d l = 0) by lia.
    apply N in Z. discriminate Z.
Qed.

(** X14.  [top_links] of the dashboard: at most ten rows in descending
    order of their counts; each row is the identifier, name and URL of a
    stored link that has a click in the window, and its count is the
    number of all clicks of that link, of any date, times the number of
    its clicks in the window; a link with a click in the window is left
    out only for links whose product is no smaller. *)
Theorem top_links_rows (start_date : Z) (d : Database) :
  let rows := app_linktree.top_links start_date d in
  (length rows <= 10)%nat
  /\ StronglySorted
       (fun x y => app_linktree.click_count y <= app_linktree.click_count x) rows
  /\ (forall r, In r rows ->
        exists l, In l (linktree_link d) /\ r = link_row start_date d l
                  /\ 0 < link_window_clicks start_date d l
                  /\ link_window_clicks start_date d l <= link_all_clicks d l)
  /\ (forall l, In l (linktree_link d) -> 0 < link_window_clicks start_date d l ->
        In (link_row start_date d l) rows
        \/ forall r, In r rows ->
             link_all_clicks d l * link_window_clicks start_date d l
             <= app_linktree.click_count r)
  /\ ((length rows < 10)%nat ->
        forall l, In l (linktree_link d) -> 0 < link_window_clicks start_date d l ->
                  In (link_row start_date d l) rows).
Proof.
  cbv zeta. unfold app_linktree.top_links.
  set (annotate := fun l : Link.t =>
         match app_linktree.joined_rows start_date d l with
         | [] => None
         | rows =>
             Some (app_linktree.mkTopLink (Link.id l) (Link.name l) (Link.url l)
                     (QuerySet.count
                        (List.filter (fun r => bool_decide (is_Some (fst r))) rows)))
         end).
  assert (A : forall l,
             annotate l = if 0 <? link_window_clicks start_date d l
                          then Some (link_row start_date d l) else None)
    by (intros l; apply top_link_annotation).
  set (kept := omap annotate (linktree_link d)).
  assert (Kin : forall r, In r kept <->
                  exists l, In l (linktree_link d) /\ r = link_row start_date d l
                            /\ 0 < link_window_clicks start_date d l).
  { intros r. unfold kept. rewrite <- list_elem_of_In, list_elem_of_omap. split.
    - intros (l & Hl & E). rewrite A in E. apply list_elem_of_In in Hl.
      destruct (Z.ltb_spec 0 (link_window_clicks start_date d l)); [|discriminate].
      injection E as <-. eauto.
    - intros (l & Hl & -> & Hc). exists l. split; [apply list_elem_of_In, Hl|].
      rewrite A. destruct (Z.ltb_spec 0 (link_window_clicks start_date d l)); [reflexivity|lia]. }
  destruct (top_ten app_linktree.click_count kept) as (L & S & Sub & Top & All).
  repeat apply conj.
  - exact L.
  - exact S.
  - intros r H. apply Sub, Kin in H as (l & Hl & -> & Hc). exists l.
    repeat split; try assumption.
    unfold link_window_clicks, link_all_clicks, QuerySet.count.
    apply inj_le, filter_length_le.
  - intros l Hl Hc.
    assert (K : In (link_row start_date d l) kept) by (apply Kin; eauto).
    destruct (Top _ K) as [H|H]; [left; exact H | right; exact H].
  - intros Lt l Hl Hc. apply (All Lt), Kin. eauto.
Qed.

Lemma top_urls_rows_witness :
  0 < app_tinyurl.click_count (app_tinyurl.mkTopUrl 2%N "bbb" "https://b.example/" 2)
  /\ exists u,
       In u (tinyurl_url Ranking.urls_db)
       /\ app_tinyurl.mkTopUrl 2%N "bbb" "https://b.example/" 2
          = url_row Ranking.start_date Ranking.urls_db u.
Proof.
  apply (proj1 (proj2 (proj2 (top_urls_rows Ranking.start_date Ranking.urls_db)))).
  vm_compute. auto.
Defined.

Lemma top_links_rows_witness :
  exists l,
    In l (linktree_link Ranking.links_db)
    /\ app_linktree.mkTopLink 1%N "A" "https://a.example/" 6
       = link_row Ranking.start_date Ranking.links_db l
    /\ 0 < link_window_clicks Ranking.start_date Ranking.links_db l
    /\ link_window_clicks Ranking.start_date Ranking.links_db l
       <= link_all_clicks Ranking.links_db l.
Proof.
  apply (proj1 (proj2 (proj2 (top_links_rows Ranking.start_date Ranking.links_db)))).
  vm_compute. auto.
Defined.

(** X15.  [recent_clicks] of the two dashboards: at most ten stored
    clicks, newest first, whatever the window asked for; a click that is
    left out is no newer than any click listed, and none is left out
    while fewer than ten are listed. *)
Theorem recent_clicks_are_the_newest (d : Database) :
  ((length (recent_url_clicks d) <= 10)%nat
   /\ StronglySorted (fun x y => UrlStat.created_at y <= UrlStat.created_at x)
        (recent_url_clicks d)
   /\ (forall r, In r (recent_url_clicks d) -> In r (tinyurl_urlstat d))
   /\ (forall c, In c (tinyurl_urlstat d) ->
         In c (recent_url_clicks d)
         \/ forall r, In r (recent_url_clicks d) ->
              UrlStat.created_at c <= UrlStat.created_at r)
   /\ ((length (recent_url_clicks d) < 10)%nat ->
         forall c, In c (tinyurl_urlstat d) -> In c (recent_url_clicks d)))
  /\ ((length (recent_link_clicks d) <= 10)%nat
      /\ StronglySorted (fun x y => LinkStat.created_at y <= LinkStat.created_at x)
           (recent_link_clicks d)
      /\ (forall r, In r (recent_link_clicks d) -> In r (linktree_linkstat d))
      /\ (forall c, In c (linktree_linkstat d) ->
            In c (recent_link_clicks d)
            \/ forall r, In r (recent_link_clicks d) ->
                 LinkStat.created_at c <= LinkStat.created_at r)
      /\ ((length (recent_link_clicks d) < 10)%nat ->
            forall c, In c (linktree_linkstat d) -> In c (recent_link_clicks d))).
Proof.
  split.
  - exact (top_ten UrlStat.created_at (tinyurl_urlstat d)).
  - exact (top_ten LinkStat.created_at (linktree_linkstat d)).
Qed.

Lemma recent_clicks_are_the_newest_witness :
  In (Ranking.hit 22 2 Ranking.recent) (tinyurl_urlstat Ranking.urls_db).
Proof.
  apply (proj1 (proj2 (proj2 (proj1 (recent_clicks_are_the_newest Ranking.urls_db))))).
  vm_compute. auto 12.
Defined.

Lemma StronglySorted_filter {A} (R : A -> A -> Prop) (p : A -> bool) (l : list A) :
  StronglySorted R l -> StronglySorted R (List.filter p l).
Proof.
  induction 1 as [|x l Hl IH Hx]; cbn [List.filter]; [constructor|].
  destruct (p x); [|exact IH]. constructor; [exact IH|].
  rewrite List.Forall_forall in Hx |- *. intros y Hy. apply Hx.
  apply filter_In in Hy as [Hy _]. exact Hy.
Qed.

Lemma filter_by_id_unique {A} (ident : A -> N) (l : list A) (x : A) :
  NoDup (map ident l) -> In x l ->
  List.filter (fun y => N.eqb (ident y) (ident x)) l = [x].
Proof.
  intros ND Hin. apply (filter_unique_key ident); auto.
  - apply N.eqb_refl.
  - intros y _ E. apply N.eqb_eq, E.
Qed.

Lemma newest_first_sorted (l : list Url.t) :
  StronglySorted (fun x y => Url.created_at y <= Url.created_at x)
    (QuerySet.order_by UrlViewSet.newest_first l).
Proof. apply (click_count_desc_sorted Url.created_at). Qed.

(** X16.  The listing of [UrlViewSet]: without [is_active] it holds every
    stored short URL; with it, exactly the rows whose flag is true when
    the value is [true] up to case, and exactly the inactive rows for any
    other value; newest first either way.  The detail routes look the row
    up in that listing: primary keys being unique, a listed row is found,
    and a key that no listed row carries gives [Http404], for the
    statistics too. *)
Theorem url_listing (request : HttpRequest) (d : Database) :
  (forall u,
     In u (UrlViewSet.get_queryset request d)
     <-> In u (tinyurl_url d)
         /\ forall v, QueryDict_get_opt (GET request) "is_active" = Some v ->
                      (Url.is_active u = true <-> eq_ignore_case v "true"))
  /\ StronglySorted (fun x y => Url.created_at y <= Url.created_at x)
       (UrlViewSet.get_queryset request d)
  /\ (NoDup (map Url.id (tinyurl_url d)) ->
      forall u, In u (UrlViewSet.get_queryset request d) ->
                UrlViewSet.get_object request (Url.id u) d = inr u)
  /\ (forall pk,
        (forall u, In u (UrlViewSet.get_queryset request d) -> Url.id u <> pk) ->
        UrlViewSet.get_object request pk d = inl Http404
        /\ forall env, UrlViewSet.stats env request pk d = inl Http404).
Proof.
  pose proof (order_by_perm UrlViewSet.newest_first (tinyurl_url d)) as P.
  fold (UrlViewSet.queryset d) in P.
  assert (Q : forall u, In u (UrlViewSet.queryset d) <-> In u (tinyurl_url d)).
  { intros u. split; apply Permutation_in; [exact P | symmetry; exact P]. }
  repeat apply conj.
  - intros u. unfold UrlViewSet.get_queryset.
    destruct (QueryDict_get_opt (GET request) "is_active") as [v|].
    + rewrite filter_In, Q. unfold eq_ignore_case.
      change (Py.lower "true") with "true". split.
      * intros [H E]. split; [exact H|]. intros v' Hv. injection Hv as <-.
        rewrite <- String.eqb_eq. apply Bool.eqb_prop in E. rewrite E. tauto.
      * intros [H E]. split; [exact H|]. specialize (E v eq_refl).
        rewrite <- String.eqb_eq in E.
        destruct (Url.is_active u), (String.eqb (Py.lower v) "true"); try reflexivity;
          exfalso; destruct E as [E1 E2]; [specialize (E1 eq_refl) | specialize (E2 eq_refl)];
          discriminate.
    + rewrite Q. split; [intros H; split; [exact H | discriminate] | tauto].
  - unfold UrlViewSet.get_queryset.
    destruct (QueryDict_get_opt (GET request) "is_active");
      [apply StronglySorted_filter|]; apply newest_first_sorted.
  - intros ND u Hu. unfold UrlViewSet.get_object.
    rewrite (filter_by_id_unique Url.id _ u); [reflexivity| |exact Hu].
    unfold UrlViewSet.get_queryset.
    assert (NQ : NoDup (map Url.id (UrlViewSet.queryset d)))
      by (rewrite (Permutation_map Url.id P); exact ND).
    destruct (QueryDict_get_opt (GET request) "is_active"); [|exact NQ].
    revert NQ. generalize (UrlViewSet.queryset d). clear. intros l.
    induction l as [|x l IH]; cbn [map List.filter]; intros ND; [constructor|].
    apply NoDup_cons in ND as [Nx ND]. destruct (Bool.eqb _ _); [|apply IH, ND].
    cbn [map]. apply NoDup_cons. split; [|apply IH, ND].
    intros Hin. apply Nx. apply list_elem_of_In in Hin. apply list_elem_of_In.
    apply in_map_iff in Hin as (y & E & Hy). apply filter_In in Hy as [Hy _].
    rewrite <- E. apply in_map, Hy.
  - intros pk H.
    assert (E : UrlViewSet.get_object request pk d = inl Http404).
    { unfold UrlViewSet.get_object.
      rewrite (proj2 (filter_nil_iff _ _)); [reflexivity|].
      intros u Hu. apply N.eqb_neq, H, Hu. }
    split; [exact E|]. intros env. unfold UrlViewSet.stats. rewrite E. reflexivity.
Qed.

Lemma url_listing_witness :
  UrlViewSet.get_object (Bench.request_of [("is_active", ["no"])] []) 2%N
    (db Fixture.promo_world)
  = inr Fixture.retired.
Proof.
  pose proof (proj1 (proj2 (proj2 (url_listing
                 (Bench.request_of [("is_active", ["no"])] []) (db Fixture.promo_world)))))
    as H.
  apply (H ltac:(apply (bool_decide_unpack _); vm_compute; exact I) Fixture.retired).
  vm_compute. auto.
Defined.

(** X17.  The counters of the [app_tinyurl] dashboard: [active_urls] is
    at most [total_urls], [qrcode_clicks] at most [total_clicks], and the
    device breakdown of the window, listed in descending order of counts
    with one row per device class that occurs, adds up to
    [total_clicks]. *)
Theorem dashboard_counters (env : Env) (request : HttpRequest) (d : Database)
    (start : Z) (dash : app_tinyurl.Dashboard) :
  start_date_of env request = inr start ->
  app_tinyurl.dashboard_stats env request d = inr dash ->
  0 <= app_tinyurl.active_urls dash <= app_tinyurl.total_urls dash
  /\ app_tinyurl.total_urls dash = QuerySet.count (tinyurl_url d)
  /\ 0 <= app_tinyurl.dash_qrcode_clicks dash <= app_tinyurl.dash_total_clicks dash
  /\ sum_counts (dashboard_clicks_by_device start d) = app_tinyurl.dash_total_clicks dash
  /\ descending (dashboard_clicks_by_device start d)
  /\ NoDup (map fst (dashboard_clicks_by_device start d))
  /\ (forall device n,
        In (device, n) (dashboard_clicks_by_device start d)
        <-> n = tally UrlStat.device_type device
                  (in_window UrlStat.created_at start (tinyurl_urlstat d))
            /\ 0 < n).
Proof.
  intros S. unfold app_tinyurl.dashboard_stats. rewrite S. intros E. injection E as <-.
  cbn [app_tinyurl.active_urls app_tinyurl.total_urls app_tinyurl.dash_qrcode_clicks
       app_tinyurl.dash_total_clicks].
  unfold dashboard_clicks_by_device.
  set (clicks := in_window UrlStat.created_at start (tinyurl_urlstat d)).
  set (groups := QuerySet.values_count UrlStat.device_type clicks).
  pose proof (order_by_perm QuerySet.count_desc groups) as P.
  unfold QuerySet.count.
  split; [split; [lia | apply inj_le, filter_length_le]|].
  split; [reflexivity|].
  split; [split; [lia | apply inj_le, filter_length_le]|].
  split; [rewrite (sum_counts_perm _ _ P); apply sum_counts_values_count|].
  split; [apply count_desc_sorted|].
  split; [rewrite (Permutation_map fst P); apply values_count_NoDup|].
  intros device n. rewrite <- values_count_In. fold groups.
  split; apply Permutation_in; [exact P | symmetry; exact P].
Qed.

Lemma dashboard_counters_witness :
  sum_counts (dashboard_clicks_by_device Ranking.start_date Ranking.urls_db) = 3.
Proof.
  assert (S : start_date_of Bench.env0 Ranking.request = inr Ranking.start_date)
    by (vm_compute; reflexivity).
  destruct (app_tinyurl.dashboard_stats Bench.env0 Ranking.request Ranking.urls_db)
    as [e|dash] eqn:E; [vm_compute in E; discriminate E|].
  destruct (dashboard_counters Bench.env0 Ranking.request Ranking.urls_db _ dash S E)
    as (_ & _ & _ & H & _).
  rewrite H. vm_compute in E. injection E as <-. reflexivity.
Defined.

(** ** Links: listing, creation and the public page *)

Lemma display_order_total (x y : Link.t) :
  LinkViewSet.display_order x y = false -> LinkViewSet.display_order y x = true.
Proof.
  unfold LinkViewSet.display_order. intros H.
  apply orb_false_iff in H as [H1 H2]. apply Z.ltb_ge in H1.
  apply orb_true_iff.
  destruct (Z.eq_dec (Link.order x) (Link.order y)) as [E|N].
  - right. apply andb_true_iff. split; [apply Z.eqb_eq; lia|].
    apply Z.leb_le. apply andb_false_iff in H2 as [H2|H2].
    + apply Z.eqb_neq in H2. lia.
    + apply Z.leb_gt in H2. lia.
  - left. apply Z.ltb_lt. lia.
Qed.

Lemma display_order_spec (x y : Link.t) :
  LinkViewSet.display_order x y = true <-> shown_before x y.
Proof.
  unfold LinkViewSet.display_order, shown_before.
  rewrite orb_true_iff, andb_true_iff, Z.ltb_lt, Z.eqb_eq, Z.leb_le. tauto.
Qed.

Lemma display_order_trans (x y z : Link.t) :
  LinkViewSet.display_order x y = true -> LinkViewSet.display_order y z = true ->
  LinkViewSet.display_order x z = true.
Proof.
  rewrite !display_order_spec. unfold shown_before. lia.
Qed.

Lemma display_order_sorted (l : list Link.t) :
  StronglySorted shown_before (QuerySet.order_by LinkViewSet.display_order l).
Proof.
  apply (StronglySorted_weaken (fun a b => LinkViewSet.display_order a b = true)).
  - intros a b _ _ H. apply display_order_spec, H.
  - apply order_by_sorted; [apply display_order_total | apply display_order_trans].
Qed.

(** Filtering commutes with the stable sort. *)
Section StableFilter.
Context {A : Type} (before : A -> A -> bool) (p : A -> bool).
Hypothesis before_total : forall x y, before x y = false -> before y x = true.
Hypothesis before_trans : forall x y z, before x y = true -> before y z = true ->
  before x z = true.

Lemma insert_by_first (x : A) (s : list A) :
  List.Forall (fun z => before x z = true) s -> QuerySet.insert_by before x s = x :: s.
Proof.
  intros H. destruct s as [|y r]; [reflexivity|].
  cbn [QuerySet.insert_by]. inversion H as [|? ? Hy Hr]; subst. rewrite Hy. reflexivity.
Qed.

Lemma filter_insert_by (x : A) (s : list A) :
  StronglySorted (fun a b => before a b = true) s ->
  List.filter p (QuerySet.insert_by before x s)
  = if p x then QuerySet.insert_by before x (List.filter p s) else List.filter p s.
Proof.
  induction 1 as [|y r Hr IH Hy]; cbn [QuerySet.insert_by List.filter].
  - destruct (p x); reflexivity.
  - destruct (before x y) eqn:B.
    + cbn [List.filter]. destruct (p x) eqn:Px; [|reflexivity].
      symmetry. apply (insert_by_first x (List.filter p (y :: r))).
      rewrite List.Forall_forall in Hy |- *. intros z Hz.
      apply filter_In in Hz as [[<-|Hz] _]; [exact B|].
      apply (before_trans x y z B), Hy, Hz.
    + cbn [List.filter]. rewrite IH. destruct (p y) eqn:Py, (p x) eqn:Px;
        try reflexivity.
      cbn [QuerySet.insert_by]. rewrite B. reflexivity.
Qed.

Lemma filter_order_by (l : list A) :
  List.filter p (QuerySet.order_by before l) = QuerySet.order_by before (List.filter p l).
Proof.
  induction l as [|x l IH]; [reflexivity|].
  change (QuerySet.order_by before (x :: l))
    with (QuerySet.insert_by before x (QuerySet.order_by before l)).
  rewrite filter_insert_by by (apply order_by_sorted; assumption).
  cbn [List.filter]. destruct (p x); rewrite IH; reflexivity.
Qed.
End StableFilter.

Lemma owned_links (user : Z) (d : Database) (l : Link.t) :
  In l (QuerySet.order_by LinkViewSet.display_order
          (List.filter (fun l => bool_decide (Link.user l = Some user)) (linktree_link d)))
  <-> In l (linktree_link d) /\ Link.user l = Some user.
Proof.
  pose proof (order_by_perm LinkViewSet.display_order
                (List.filter (fun l => bool_decide (Link.user l = Some user))
                   (linktree_link d))) as P.
  split.
  - intros H. apply (Permutation_in _ P) in H. apply filter_In in H as [H E].
    split; [exact H | apply bool_decide_eq_true in E; exact E].
  - intros [H E]. apply (Permutation_in _ (Permutation_sym P)).
    apply filter_In. split; [exact H | apply bool_decide_eq_true, E].
Qed.

Lemma link_listing_members (user : Z) (request : HttpRequest) (d : Database) (l : Link.t) :
  In l (LinkViewSet.get_queryset user request d)
  <-> In l (linktree_link d) /\ Link.user l = Some user
      /\ forall v, QueryDict_get_opt (GET request) "is_active" = Some v ->
                   (Link.is_active l = true <-> eq_ignore_case v "true").
Proof.
  unfold LinkViewSet.get_queryset.
    destruct (QueryDict_get_opt (GET request) "is_active") as [v|].
    - rewrite filter_In, owned_links. unfold eq_ignore_case.
      change (Py.lower "true") with "true". split.
      + intros [[H U] E]. split; [exact H|]. split; [exact U|].
        intros v' Hv. injection Hv as <-.
        rewrite <- String.eqb_eq. apply Bool.eqb_prop in E. rewrite E. tauto.
      + intros (H & U & E). split; [split; assumption|]. specialize (E v eq_refl).
        rewrite <- String.eqb_eq in E.
        destruct (Link.is_active l), (String.eqb (Py.lower v) "true"); try reflexivity;
          exfalso; destruct E as [E1 E2]; [specialize (E1 eq_refl) | specialize (E2 eq_refl)];
          discriminate.
    - rewrite owned_links. split.
      + intros [H U]. split; [exact H|]. split; [exact U | discriminate].
      + intros (H & U & _). split; assumption.
Qed.

(** X18.  The listing of [LinkViewSet] holds the links of the user of the
    request and no others: all of them without [is_active], those whose
    flag agrees with the parameter otherwise ([true] up to case selects
    the active ones, any other value the inactive ones), by [order] and
    then newest first.  A key that belongs to no link of that user gives
    [Http404] on the detail route and on its statistics, whoever else
    owns the link. *)
Theorem link_listing (user : Z) (request : HttpRequest) (d : Database) :
  (forall l,
     In l (LinkViewSet.get_queryset user request d)
     <-> In l (linktree_link d) /\ Link.user l = Some user
         /\ forall v, QueryDict_get_opt (GET request) "is_active" = Some v ->
                      (Link.is_active l = true <-> eq_ignore_case v "true"))
  /\ StronglySorted shown_before (LinkViewSet.get_queryset user request d)
  /\ (forall pk,
        (forall l, In l (linktree_link d) -> Link.id l = pk -> Link.user l <> Some user) ->
        LinkViewSet.get_object user request pk d = inl Http404
        /\ forall env, LinkViewSet.stats env user request pk d = inl Http404).
Proof.
  pose proof (link_listing_members user request d) as M.
  split; [exact M|]. split.
  - unfold LinkViewSet.get_queryset.
    destruct (QueryDict_get_opt (GET request) "is_active");
      [apply StronglySorted_filter|]; apply display_order_sorted.
  - intros pk H.
    assert (E : LinkViewSet.get_object user request pk d = inl Http404).
    { unfold LinkViewSet.get_object.
      rewrite (proj2 (filter_nil_iff _ _)); [reflexivity|].
      intros l Hl. apply N.eqb_neq. intros Hpk.
      apply M in Hl as (Hl & U & _). exact (H l Hl Hpk U). }
    split; [exact E|]. intros env. unfold LinkViewSet.stats. rewrite E. reflexivity.
Qed.

Lemma link_listing_witness :
  LinkViewSet.get_queryset 1 Tree.active_only Tree.database = [Tree.talks; Tree.blog]
  /\ LinkViewSet.get_queryset 1 Tree.plain Tree.database
     = [Tree.draft; Tree.talks; Tree.blog]
  /\ LinkViewSet.get_object 1 Tree.plain 14%N Tree.database = inl Http404
  /\ forall env, LinkViewSet.stats env 1 Tree.plain 14%N Tree.database = inl Http404.
Proof.
  split; [vm_compute; reflexivity|]. split; [vm_compute; reflexivity|].
  pose proof (link_listing 1 Tree.plain Tree.database) as (_ & _ & H).
  apply (H 14%N). intros l Hl Hpk.
  cbn [Tree.database linktree_link] in Hl.
  destruct Hl as [<-|[<-|[<-|[<-|[]]]]]; vm_compute in Hpk |- *; congruence.
Defined.

(** X19.  [perform_create] always succeeds with one insert into the link
    table and stores the validated data under the user of the request,
    whatever the data say; absent keys take the defaults of the model (an
    active link of order 0 without icon).  The new link shows up in the
    listing of that user, and the listing of every other user is what it
    was; the tables of short URLs and of clicks are not touched. *)
Theorem created_link_belongs_to_the_user (env : Env) (user : Z)
    (data : LinkViewSet.LinkData) (w : World) :
  exists row w',
    LinkViewSet.perform_create env user data w = (inr row, w')
    /\ effects w' = (effects w ++ [SqlInsert "linktree_link"])%list
    /\ linktree_link (db w') = (linktree_link (db w) ++ [row])%list
    /\ tinyurl_url (db w') = tinyurl_url (db w)
    /\ tinyurl_urlstat (db w') = tinyurl_urlstat (db w)
    /\ linktree_linkstat (db w') = linktree_linkstat (db w)
    /\ Link.user row = Some user
    /\ Link.name row = LinkViewSet.ld_name data
    /\ Link.url row = LinkViewSet.ld_url data
    /\ Link.is_active row = default true (LinkViewSet.ld_is_active data)
    /\ Link.order row = default 0 (LinkViewSet.ld_order data)
    /\ Link.icon row = default "" (LinkViewSet.ld_icon data)
    /\ (forall request,
          QueryDict_get_opt (GET request) "is_active" = None ->
          In row (LinkViewSet.get_queryset user request (db w')))
    /\ (forall other request,
          other <> user ->
          LinkViewSet.get_queryset other request (db w')
          = LinkViewSet.get_queryset other request (db w)).
Proof.
  eexists. eexists.
  split; [cbv [LinkViewSet.perform_create bind log read_db write_db ret]; reflexivity|].
  cbn [db effects linktree_link tinyurl_url tinyurl_urlstat linktree_linkstat
       Link.user Link.name Link.url Link.is_active Link.order Link.icon].
  do 11 (split; [reflexivity|]). split.
  - intros request Hq.
    match goal with |- In ?r _ => set (row := r) end.
    apply link_listing_members. cbn [linktree_link]. split; [apply in_or_app; right; left; reflexivity|].
    split; [reflexivity|]. intros v Hv. rewrite Hq in Hv. discriminate Hv.
  - intros other request Ho. unfold LinkViewSet.get_queryset. cbn [linktree_link].
    rewrite List.filter_app. cbn [List.filter Link.user].
    rewrite bool_decide_eq_false_2 by congruence. rewrite app_nil_r. reflexivity.
Qed.

Lemma created_link_belongs_to_the_user_witness :
  exists row w',
    LinkViewSet.perform_create Bench.env0 1 Tree.new_link (Bench.world_of Tree.database)
    = (inr row, w')
    /\ In row (LinkViewSet.get_queryset 1 Tree.plain (db w'))
    /\ LinkViewSet.get_queryset 2 Tree.plain (db w') = [Tree.shop].
Proof.
  destruct (created_link_belongs_to_the_user Bench.env0 1 Tree.new_link
              (Bench.world_of Tree.database)) as (row & w' & E & H).
  exists row, w'. split; [exact E|].
  destruct H as (_ & _ & _ & _ & _ & _ & _ & _ & _ & _ & _ & Hin & Hother).
  split; [apply Hin; vm_compute; reflexivity|].
  rewrite (Hother 2 Tree.plain) by lia. vm_compute. reflexivity.
Defined.


(** ** The public page *)

Lemma profile_of_some (accounts : Accounts) (user : User.t) (p : UserProfile.t) :
  profile_of accounts user = Some p ->
  In p (linktree_userprofile accounts) /\ UserProfile.user p = Some (User.id user).
Proof.
  unfold profile_of. intros H.
  set (rows := List.filter _ _) in H.
  pose proof (order_by_perm (fun x y => (UserProfile.id x <=? UserProfile.id y)%N) rows) as P.
  assert (Hin : In p rows).
  { apply (Permutation_in _ P). destruct (QuerySet.order_by _ rows) as [|q r];
      [discriminate H|]. injection H as ->. left. reflexivity. }
  apply filter_In in Hin as [Hin E]. split; [exact Hin|].
  apply bool_decide_eq_true in E. exact E.
Qed.

Lemma profile_of_none (accounts : Accounts) (user : User.t) :
  profile_of accounts user = None
  <-> forall p, In p (linktree_userprofile accounts) ->
                UserProfile.user p <> Some (User.id user).
Proof.
  unfold profile_of.
  set (rows := List.filter _ _).
  pose proof (order_by_perm (fun x y => (UserProfile.id x <=? UserProfile.id y)%N) rows) as P.
  split.
  - intros H p Hp U.
    assert (Hin : In p rows)
      by (apply filter_In; split; [exact Hp | apply bool_decide_eq_true, U]).
    apply (Permutation_in _ (Permutation_sym P)) in Hin.
    destruct (QuerySet.order_by _ rows); [destruct Hin | discriminate H].
  - intros H. destruct (QuerySet.order_by _ rows) as [|q r] eqn:E; [reflexivity|].
    exfalso. assert (Hin : In q rows) by (apply (Permutation_in _ P); left; reflexivity).
    apply filter_In in Hin as [Hin U]. apply bool_decide_eq_true in U.
    exact (H q Hin U).
Qed.

Lemma user_by_name_unknown (accounts : Accounts) (username : string) :
  (forall u, In u (auth_user accounts) -> User.username u <> username) ->
  user_by_name accounts username = [].
Proof.
  intros H. unfold user_by_name. apply filter_nil_iff. intros u Hu.
  apply String.eqb_neq, H, Hu.
Qed.

Lemma user_by_name_unique (accounts : Accounts) (user : User.t) :
  NoDup (map User.username (auth_user accounts)) ->
  In user (auth_user accounts) ->
  user_by_name accounts (User.username user) = [user].
Proof.
  intros ND Hin. unfold user_by_name.
  apply (filter_unique_key User.username); auto.
  - apply String.eqb_refl.
  - intros y _ E. apply String.eqb_eq, E.
Qed.

(** X20.  The public page.  A username that no user carries gets the
    not-found page with status 404.  Usernames being unique, the page of
    a user shows exactly the active links of that user, by [order] and
    then newest first: it is the list the owner gets from the API with
    [is_active] set to [true] in any casing.  The profile on the page is
    one of that user, and there is none only if the user has no profile
    row. *)
Theorem public_page (env : Env) (accounts : Accounts) (d : Database) (username : string) :
  ((forall u, In u (auth_user accounts) -> User.username u <> username) ->
   linktree_page env accounts d username
   = inr (PageNotFound
            (render "404.html" [("redirect_url", REDIRECT_URL (settings env))] 404)))
  /\ (NoDup (map User.username (auth_user accounts)) ->
      forall user,
        In user (auth_user accounts) -> User.username user = username ->
        exists links,
          linktree_page env accounts d username
          = inr (PageRendered "linktree/public_page.html" links
                   (profile_of accounts user) user)
          /\ (forall l,
                In l links
                <-> In l (linktree_link d) /\ Link.user l = Some (User.id user)
                    /\ Link.is_active l = true)
          /\ StronglySorted shown_before links
          /\ (forall request v,
                QueryDict_get_opt (GET request) "is_active" = Some v ->
                eq_ignore_case v "true" ->
                LinkViewSet.get_queryset (User.id user) request d = links)
          /\ (forall p,
                profile_of accounts user = Some p ->
                In p (linktree_userprofile accounts)
                /\ UserProfile.user p = Some (User.id user))
          /\ (profile_of accounts user = None
              <-> forall p, In p (linktree_userprofile accounts) ->
                            UserProfile.user p <> Some (User.id user))).
Proof.
  split.
  - intros H. unfold linktree_page. rewrite (user_by_name_unknown _ _ H). reflexivity.
  - intros ND user Hin <-. eexists. split.
    { unfold linktree_page. rewrite (user_by_name_unique _ _ ND Hin). reflexivity. }
    split; [|split; [|split; [|split]]].
    + intros l.
      match goal with |- In l (QuerySet.order_by ?b ?rows) <-> _ =>
        pose proof (order_by_perm b rows) as P end.
      split.
      * intros H. apply (Permutation_in _ P) in H. apply filter_In in H as [H E].
        apply andb_true_iff in E as [E1 E2]. apply bool_decide_eq_true in E1. auto.
      * intros (H & U & Act). apply (Permutation_in _ (Permutation_sym P)).
        apply filter_In. split; [exact H|]. apply andb_true_iff.
        split; [apply bool_decide_eq_true, U | exact Act].
    + apply display_order_sorted.
    + intros request v Hv E. unfold LinkViewSet.get_queryset. rewrite Hv.
      unfold eq_ignore_case in E. change (Py.lower "true") with "true" in E.
      rewrite E, String.eqb_refl.
      rewrite (filter_order_by _ _ display_order_total display_order_trans).
      rewrite filter_filter. f_equal. apply List.filter_ext. intros l.
      destruct (Link.is_active l); reflexivity.
    + apply profile_of_some.
    + apply profile_of_none.
Qed.

Lemma public_page_witness :
  linktree_page Bench.env0 Tree.accounts Tree.database "nobody"
  = inr (PageNotFound
           (render "404.html" [("redirect_url", REDIRECT_URL (settings Bench.env0))] 404))
  /\ exists links,
       linktree_page Bench.env0 Tree.accounts Tree.database "ada"
       = inr (PageRendered "linktree/public_page.html" links
                (profile_of Tree.accounts Tree.ada) Tree.ada)
       /\ LinkViewSet.get_queryset 1 Tree.active_only Tree.database = links.
Proof.
  pose proof (public_page Bench.env0 Tree.accounts Tree.database "nobody") as [H _].
  split.
  - apply H. intros u Hu. cbn [Tree.accounts auth_user] in Hu.
    destruct Hu as [<-|[<-|[]]]; vm_compute; congruence.
  - pose proof (public_page Bench.env0 Tree.accounts Tree.database "ada") as [_ K].
    assert (ND : NoDup (map User.username (auth_user Tree.accounts))).
    { cbn [Tree.accounts auth_user map]. apply NoDup_cons. split.
      - intros X. apply list_elem_of_In in X. destruct X as [X|[]].
        vm_compute in X. congruence.
      - apply NoDup_cons. split; [intros X; apply list_elem_of_In in X; destruct X
                                 | constructor]. }
    destruct (K ND Tree.ada (or_introl eq_refl) eq_refl) as (links & E & _ & _ & Q & _).
    exists links. split; [exact E|].
    apply (Q Tree.active_only "True"); vm_compute; reflexivity.
Defined.

(** ** Saving a profile *)

Lemma nonempty_false (s : string) : nonempty s = false <-> s = "".
Proof. destruct s; split; intros H; try reflexivity; discriminate H. Qed.

Lemma nonempty_true (s : string) : nonempty s = true <-> s <> "".
Proof. destruct s; split; intros H; try reflexivity; try discriminate; congruence. Qed.

(** X21.  What [UserProfile.save] writes.  A first name, last name or
    e-mail address the profile has is kept; one it lacks is taken from
    the user and stays empty only if the user has none either; without
    user nothing is filled.  Primary key, user, phone and picture are
    left alone.  [updated_at] is the time of the save, [created_at] is
    that time when the row is inserted and is kept otherwise.  Saving
    again, at any later time, changes nothing but [updated_at]. *)
Theorem profile_autofill (env : Env) (adding : bool) (owner : option User.t)
    (self : UserProfile.t) :
  let saved := UserProfile_save env adding owner self in
  (UserProfile.first_name self <> "" ->
   UserProfile.first_name saved = UserProfile.first_name self)
  /\ (UserProfile.last_name self <> "" ->
      UserProfile.last_name saved = UserProfile.last_name self)
  /\ (UserProfile.email self <> "" -> UserProfile.email saved = UserProfile.email self)
  /\ (forall user,
        owner = Some user ->
        (UserProfile.first_name self = "" ->
         UserProfile.first_name saved = User.first_name user)
        /\ (UserProfile.last_name self = "" ->
            UserProfile.last_name saved = User.last_name user)
        /\ (UserProfile.email self = "" -> UserProfile.email saved = User.email user))
  /\ (owner = None ->
      UserProfile.first_name saved = UserProfile.first_name self
      /\ UserProfile.last_name saved = UserProfile.last_name self
      /\ UserProfile.email saved = UserProfile.email self)
  /\ UserProfile.id saved = UserProfile.id self
  /\ UserProfile.user saved = UserProfile.user self
  /\ UserProfile.phone saved = UserProfile.phone self
  /\ UserProfile.profile_picture saved = UserProfile.profile_picture self
  /\ UserProfile.updated_at saved = timezone_now env
  /\ UserProfile.created_at saved
     = (if adding then timezone_now env else UserProfile.created_at self)
  /\ (forall later,
        UserProfile_save later false owner saved
        = UserProfile.Build (UserProfile.id saved) (UserProfile.user saved)
            (UserProfile.first_name saved) (UserProfile.last_name saved)
            (UserProfile.email saved) (UserProfile.phone saved)
            (UserProfile.profile_picture saved) (UserProfile.created_at saved)
            (timezone_now later)).
Proof.
  destruct self as [i u f l e ph pic c up]. destruct owner as [[ui un uf ul ue]|];
    unfold UserProfile_save;
    cbn [autofill UserProfile.first_name UserProfile.last_name UserProfile.email
         UserProfile.id UserProfile.user UserProfile.phone UserProfile.profile_picture
         UserProfile.created_at UserProfile.updated_at
         User.first_name User.last_name User.email].
  - split; [intros H; apply nonempty_true in H; rewrite H; reflexivity|].
    split; [intros H; apply nonempty_true in H; rewrite H; reflexivity|].
    split; [intros H; apply nonempty_true in H; rewrite H; reflexivity|].
    split.
    { intros user [= <-].
      cbn [User.first_name User.last_name User.email].
      split; [|split]; intros ->; cbn [nonempty negb andb];
        match goal with |- (if nonempty ?s then _ else _) = _ => destruct s; reflexivity end. }
    split; [discriminate|].
    do 6 (split; [reflexivity|]).
    intros later. destruct f, l, e, uf, ul, ue; reflexivity.
  - split; [reflexivity|]. split; [reflexivity|]. split; [reflexivity|].
    split; [discriminate|]. split; [auto|].
    do 6 (split; [reflexivity|]). intros later. reflexivity.
Qed.

Lemma profile_autofill_witness :
  UserProfile.first_name (UserProfile_save Bench.env0 false (Some Tree.ada) Tree.profile)
  = "Ada"
  /\ UserProfile.last_name (UserProfile_save Bench.env0 false (Some Tree.ada) Tree.profile)
     = "Lovelace"
  /\ UserProfile.email (UserProfile_save Bench.env0 false (Some Tree.ada) Tree.profile)
     = "ada@example.org"
  /\ UserProfile.updated_at (UserProfile_save Bench.env0 false (Some Tree.ada) Tree.profile)
     = 1700000000.
Proof.
  pose proof (profile_autofill Bench.env0 false (Some Tree.ada) Tree.profile) as H.
  cbv zeta in H. destruct H as (_ & L & _ & F & _ & _ & _ & _ & _ & U & _).
  destruct (F Tree.ada eq_refl) as (F1 & _ & F3).
  split; [exact (F1 eq_refl)|]. split; [apply L; discriminate|].
  split; [exact (F3 eq_refl) | exact U].
Defined.


(** ** The vCard *)

Lemma rstrip_nonspace (c : ascii) (s : string) :
  Py.is_whitespace c = false -> Py.rstrip (String c s) = String c (Py.rstrip s).
Proof.
  intros W. rewrite rstrip_cons. destruct (Py.rstrip s); [rewrite W|]; reflexivity.
Qed.

Lemma full_name_line (first_name last_name : string) :
  Py.strip ("FN:" +:+ first_name +:+ " " +:+ last_name)
  = "FN:" +:+ Py.rstrip (first_name +:+ " " +:+ last_name).
Proof.
  unfold Py.strip.
  change ("FN:" +:+ first_name +:+ " " +:+ last_name)
    with (String "F" (String "N" (String ":" (first_name +:+ " " +:+ last_name)))).
  change (Py.lstrip (String "F" ?s)) with (String "F" s).
  rewrite !rstrip_nonspace by reflexivity. reflexivity.
Qed.

Lemma char_in_append (c : ascii) (a b : string) :
  Py.char_in c (a +:+ b) = Py.char_in c a || Py.char_in c b.
Proof.
  induction a as [|d a IH]; [reflexivity|].
  change (String d a +:+ b) with (String d (a +:+ b)).
  cbn [Py.char_in]. rewrite IH, orb_assoc. reflexivity.
Qed.

Lemma str_replace_removes (c : ascii) (by_ s : string) :
  Py.char_in c by_ = false -> Py.char_in c (str_replace c by_ s) = false.
Proof.
  intros B. induction s as [|d s IH]; [reflexivity|]. cbn [str_replace].
  destruct (Ascii.eqb d c) eqn:E.
  - rewrite char_in_append, B, IH. reflexivity.
  - cbn [Py.char_in]. rewrite IH, Ascii.eqb_sym, E. reflexivity.
Qed.

Lemma str_replace_keeps_free (d c : ascii) (by_ s : string) :
  Py.char_in d by_ = false -> Py.char_in d s = false ->
  Py.char_in d (str_replace c by_ s) = false.
Proof.
  intros B. induction s as [|e s IH]; [reflexivity|]. cbn [str_replace Py.char_in].
  intros H. apply orb_false_iff in H as [H1 H2]. destruct (Ascii.eqb e c).
  - rewrite char_in_append, B, (IH H2). reflexivity.
  - cbn [Py.char_in]. rewrite H1, (IH H2). reflexivity.
Qed.

Lemma str_replace_free (c : ascii) (by_ s : string) :
  Py.char_in c s = false -> str_replace c by_ s = s.
Proof.
  induction s as [|d s IH]; [reflexivity|]. cbn [str_replace Py.char_in].
  intros H. apply orb_false_iff in H as [H1 H2].
  rewrite Ascii.eqb_sym, H1, (IH H2). reflexivity.
Qed.

Lemma rstrip_char_suffix (ch : ascii) (s : string) :
  s <> "" -> Py.char_in ch s = false ->
  Py.rstrip_char ch (s +:+ String ch "") = s.
Proof.
  induction s as [|d s IH]; [congruence|]. intros _ H.
  cbn [Py.char_in] in H. apply orb_false_iff in H as [H1 H2].
  change (String d s +:+ String ch "") with (String d (s +:+ String ch "")).
  cbn [Py.rstrip_char]. destruct s as [|e s].
  - change ("" +:+ String ch "") with (String ch "").
    cbn [Py.rstrip_char]. rewrite Ascii.eqb_refl, Ascii.eqb_sym, H1.
    reflexivity.
  - rewrite IH by (congruence || exact H2). reflexivity.
Qed.

Lemma rstrip_char_free (ch : ascii) (s : string) :
  Py.char_in ch s = false -> Py.rstrip_char ch s = s.
Proof.
  induction s as [|d s IH]; [reflexivity|]. cbn [Py.char_in Py.rstrip_char].
  intros H. apply orb_false_iff in H as [H1 H2]. rewrite (IH H2).
  destruct s; [rewrite Ascii.eqb_sym, H1|]; reflexivity.
Qed.

Lemma rstrip_char_app (ch : ascii) (a b : string) :
  Py.rstrip_char ch b <> "" ->
  Py.rstrip_char ch (a +:+ b) = a +:+ Py.rstrip_char ch b.
Proof.
  intros H. induction a as [|d a IH]; [reflexivity|].
  change (String d a +:+ b) with (String d (a +:+ b)).
  cbn [Py.rstrip_char]. rewrite IH.
  change (String d a +:+ Py.rstrip_char ch b)
    with (String d (a +:+ Py.rstrip_char ch b)).
  destruct (a +:+ Py.rstrip_char ch b) eqn:E; [|reflexivity].
  exfalso. destruct a; [exact (H E) | discriminate E].
Qed.

Lemma lstrip_char_free (ch : ascii) (s : string) :
  Py.char_in ch s = false -> lstrip_char ch s = s.
Proof.
  destruct s as [|d s]; [reflexivity|]. cbn [Py.char_in lstrip_char].
  intros H. apply orb_false_iff in H as [H1 _]. rewrite Ascii.eqb_sym, H1. reflexivity.
Qed.

Lemma filename_of_first (first_name : string) :
  first_name <> "" -> free_of "_" first_name ->
  strip_char "_" (first_name +:+ "_" +:+ "") = first_name.
Proof.
  unfold free_of, strip_char. intros F Ff.
  change (first_name +:+ "_" +:+ "") with (first_name +:+ String "_" "").
  assert (E : lstrip_char "_" (first_name +:+ String "_" "")
              = first_name +:+ String "_" "").
  { destruct first_name as [|d f]; [congruence|]. cbn [Py.char_in] in Ff.
    apply orb_false_iff in Ff as [H1 _].
    change (String d f +:+ String "_" "") with (String d (f +:+ String "_" "")).
    cbn [lstrip_char]. rewrite Ascii.eqb_sym, H1. reflexivity. }
  rewrite E. apply rstrip_char_suffix; assumption.
Qed.

Lemma filename_of_last (last_name : string) :
  free_of "_" last_name -> strip_char "_" ("" +:+ "_" +:+ last_name) = last_name.
Proof.
  unfold free_of, strip_char. intros Fl.
  change ("" +:+ "_" +:+ last_name) with (String "_" last_name).
  cbn [lstrip_char]. rewrite Ascii.eqb_refl, (lstrip_char_free _ _ Fl).
  apply rstrip_char_free, Fl.
Qed.

Lemma filename_of_both (first_name last_name : string) :
  first_name <> "" -> last_name <> "" ->
  free_of "_" first_name -> free_of "_" last_name ->
  strip_char "_" (first_name +:+ "_" +:+ last_name) = first_name +:+ "_" +:+ last_name.
Proof.
  unfold free_of, strip_char. intros F L Ff Fl.
  assert (E : lstrip_char "_" (first_name +:+ "_" +:+ last_name)
              = first_name +:+ "_" +:+ last_name).
  { destruct first_name as [|d f]; [congruence|]. cbn [Py.char_in] in Ff.
    apply orb_false_iff in Ff as [H1 _].
    change (String d f +:+ "_" +:+ last_name) with (String d (f +:+ "_" +:+ last_name)).
    cbn [lstrip_char]. rewrite Ascii.eqb_sym, H1. reflexivity. }
  rewrite E.
  assert (R : Py.rstrip_char "_" ("_" +:+ last_name) = "_" +:+ last_name).
  { change ("_" +:+ last_name) with (String "_" last_name).
    cbn [Py.rstrip_char]. rewrite (rstrip_char_free _ _ Fl).
    destruct last_name; [congruence | reflexivity]. }
  rewrite rstrip_char_app; rewrite R; [reflexivity | discriminate].
Qed.

Lemma address_on_one_line (address : string) :
  str_replace CR "" (str_replace LF ";" address) = on_one_line address.
Proof.
  induction address as [|c r IH]; [reflexivity|].
  cbn [str_replace on_one_line]. destruct (Ascii.eqb c LF) eqn:L.
  - change (";" +:+ str_replace LF ";" r) with (String ";" (str_replace LF ";" r)).
    cbn [str_replace]. change (Ascii.eqb ";" CR) with false. cbv iota.
    rewrite IH. reflexivity.
  - cbn [str_replace]. destruct (Ascii.eqb c CR).
    + change ("" +:+ str_replace CR "" (str_replace LF ";" r))
        with (str_replace CR "" (str_replace LF ";" r)).
      exact IH.
    + rewrite IH. reflexivity.
Qed.

(** X22.  The lines of the vCard.  The card opens with [BEGIN:VCARD] and
    [VERSION:3.0] and closes with [END:VCARD].  It always has a formatted
    name: the username when the profile has neither first nor last name,
    else, for names in ASCII text, the two names around a space with
    trailing white space removed (the space stays in front when only the
    last name is set), next to the structured name.  Of the companies
    only the first is used, and its address is written on one line:
    every line feed replaced by a semicolon, every carriage return
    dropped and every other character kept, so that no line break is
    left and an address without one is written as it is. *)
Theorem vcard_lines_shape (user : User.t) (p : UserProfile.t) (companies : list Company.t) :
  let first_name := UserProfile.first_name p in
  let last_name := UserProfile.last_name p in
  let lines := vcard_lines user p companies in
  (exists body, lines = ("BEGIN:VCARD" :: "VERSION:3.0" :: body ++ ["END:VCARD"])%list)
  /\ (first_name = "" -> last_name = "" -> In ("FN:" +:+ User.username user) lines)
  /\ (first_name <> "" \/ last_name <> "" ->
      In ("N:" +:+ last_name +:+ ";" +:+ first_name +:+ ";;;") lines
      /\ (ascii_only first_name -> ascii_only last_name ->
          In ("FN:" +:+ Py.rstrip (first_name +:+ " " +:+ last_name)) lines))
  /\ (first_name = "" -> ascii_only last_name -> Py.rstrip last_name <> "" ->
      In ("FN: " +:+ Py.rstrip last_name) lines)
  /\ (forall company rest,
        companies = company :: rest ->
        lines = vcard_lines user p [company]
        /\ In ("ORG:" +:+ Company.name company) lines
        /\ (Company.address company <> "" ->
            In ("ADR;TYPE=WORK:;;" +:+ on_one_line (Company.address company) +:+ ";;;;")
              lines
            /\ free_of CR (on_one_line (Company.address company))
            /\ free_of LF (on_one_line (Company.address company))
            /\ (free_of CR (Company.address company) ->
                free_of LF (Company.address company) ->
                on_one_line (Company.address company) = Company.address company))).
Proof.
  intros first_name last_name lines.
  assert (Name : forall line,
            In line (vcard_name_lines user first_name last_name) -> In line lines).
  { intros line H. unfold lines, vcard_lines. fold first_name last_name.
    apply in_or_app. right. apply in_or_app. left. exact H. }
  assert (Org : forall line, In line (vcard_company_lines companies) -> In line lines).
  { intros line H. unfold lines, vcard_lines.
    apply in_or_app. right. apply in_or_app. right. apply in_or_app. right.
    apply in_or_app. right. apply in_or_app. left. exact H. }
  assert (Full : first_name <> "" \/ last_name <> "" ->
            vcard_name_lines user first_name last_name
            = ["N:" +:+ last_name +:+ ";" +:+ first_name +:+ ";;;";
               "FN:" +:+ Py.rstrip (first_name +:+ " " +:+ last_name)]).
  { intros H. unfold vcard_name_lines. rewrite full_name_line.
    destruct first_name, last_name; try reflexivity. destruct H; congruence. }
  split; [|split; [|split; [|split]]].
  - unfold lines, vcard_lines. eexists.
    cbn [app]. rewrite !app_assoc. reflexivity.
  - intros F L. apply Name. unfold vcard_name_lines. rewrite F, L. left. reflexivity.
  - intros H. split; [|intros _ _]; apply Name; rewrite (Full H);
      [left | right; left]; reflexivity.
  - intros F _ L. apply Name.
    assert (L' : last_name <> "") by (intros E; apply L; rewrite E; reflexivity).
    rewrite (Full (or_intror L')). right. left.
    rewrite F. change ("" +:+ " " +:+ last_name) with (String " " last_name).
    rewrite rstrip_cons. destruct (Py.rstrip last_name); [congruence | reflexivity].
  - intros company rest ->. split; [reflexivity|]. split.
    + apply Org. left. reflexivity.
    + intros A. rewrite <- address_on_one_line.
      split; [|split; [|split]].
      * apply Org. cbn [vcard_company_lines].
        apply nonempty_true in A. rewrite A. right. left. reflexivity.
      * apply str_replace_removes. reflexivity.
      * apply str_replace_keeps_free; [reflexivity|].
        apply str_replace_removes. reflexivity.
      * unfold free_of. intros H1 H2.
        rewrite (str_replace_free LF ";" _ H2). apply str_replace_free, H1.
Qed.

Lemma vcard_lines_shape_witness :
  In "FN: Lovelace" (vcard_lines Tree.ada Tree.profile [Tree.engines])
  /\ In "ADR;TYPE=WORK:;;12 St James Square;London;;;;"
       (vcard_lines Tree.ada Tree.profile [Tree.engines]).
Proof.
  pose proof (vcard_lines_shape Tree.ada Tree.profile [Tree.engines]) as H.
  cbv zeta in H. destruct H as (_ & _ & _ & F & C).
  split.
  - apply (F eq_refl); [reflexivity|]. vm_compute. discriminate.
  - destruct (C Tree.engines [] eq_refl) as (_ & _ & A).
    destruct A as (H1 & _); [vm_compute; discriminate|]. exact H1.
Defined.

Lemma char_in_lstrip_char (c ch : ascii) (s : string) :
  Py.char_in c (lstrip_char ch s) = true -> Py.char_in c s = true.
Proof.
  induction s as [|d s IH]; [discriminate|]. cbn [lstrip_char].
  destruct (Ascii.eqb d ch); [|auto]. intros H. cbn [Py.char_in].
  rewrite (IH H). apply orb_true_r.
Qed.

Lemma char_in_rstrip_char (c ch : ascii) (s : string) :
  Py.char_in c (Py.rstrip_char ch s) = true -> Py.char_in c s = true.
Proof.
  induction s as [|d s IH]; [discriminate|]. cbn [Py.rstrip_char Py.char_in].
  destruct (Py.rstrip_char ch s) as [|x r].
  - destruct (Ascii.eqb d ch); [discriminate|]. cbn [Py.char_in].
    rewrite orb_false_r. intros ->. reflexivity.
  - cbn [Py.char_in] in *. intros H. apply orb_true_iff in H as [H|H].
    + rewrite H. reflexivity.
    + rewrite (IH H). apply orb_true_r.
Qed.

(** A character other than the underscore that is in none of the names
    is not in the file name. *)
Lemma filename_free (c : ascii) (username first_name last_name : string) :
  c <> "_"%char ->
  free_of c username -> free_of c first_name -> free_of c last_name ->
  free_of c (vcard_filename username first_name last_name).
Proof.
  unfold free_of, vcard_filename. intros N U F L.
  destruct (nonempty (strip_char "_" (first_name +:+ "_" +:+ last_name))); [|exact U].
  destruct (Py.char_in c (strip_char "_" _)) eqn:C; [|reflexivity].
  unfold strip_char in C. apply char_in_rstrip_char, char_in_lstrip_char in C.
  rewrite !char_in_append, F, L in C. cbn [Py.char_in orb] in C.
  rewrite !orb_false_r in C. apply Ascii.eqb_eq in C. contradiction.
Qed.

(** The header of the download holds a line break exactly when the file
    name does. *)
Lemma disposition_test (filename : string) :
  Py.char_in CR ("attachment; filename=" +:+ DQUOTE +:+ filename +:+ ".vcf" +:+ DQUOTE)
  || Py.char_in LF ("attachment; filename=" +:+ DQUOTE +:+ filename +:+ ".vcf" +:+ DQUOTE)
  = Py.char_in CR filename || Py.char_in LF filename.
Proof.
  rewrite !char_in_append.
  change (Py.char_in CR "attachment; filename=") with false.
  change (Py.char_in LF "attachment; filename=") with false.
  change (Py.char_in CR DQUOTE) with false. change (Py.char_in LF DQUOTE) with false.
  change (Py.char_in CR ".vcf") with false. change (Py.char_in LF ".vcf") with false.
  rewrite !orb_false_r. reflexivity.
Qed.

Lemma all_chars_app (p : ascii -> bool) (a b : string) :
  all_chars p (a +:+ b) = all_chars p a && all_chars p b.
Proof.
  induction a as [|c a IH]; [reflexivity|].
  change (String c a +:+ b) with (String c (a +:+ b)). cbn [all_chars].
  rewrite IH, andb_assoc. reflexivity.
Qed.

Lemma ascii_is_latin_1 (value : string) : ascii_only value -> latin_1 value = true.
Proof.
  unfold ascii_only. induction value as [|c r IH]; [reflexivity|].
  cbn [all_chars latin_1]. intros H. apply andb_true_iff in H as [H1 H2].
  rewrite H1. exact (IH H2).
Qed.

Lemma disposition_ascii (filename : string) :
  ascii_only filename ->
  ascii_only ("attachment; filename=" +:+ DQUOTE +:+ filename +:+ ".vcf" +:+ DQUOTE).
Proof.
  unfold ascii_only. intros H. rewrite !all_chars_app, H. reflexivity.
Qed.

(** X23.  The outcomes of [vcard_download].  A username that no user
    carries, and a user without profile row, get the not-found page with
    status 404.  Otherwise the file name is the username when the profile
    has no name, the one name it has, or both joined by an underscore
    (for names without underscores), and is not empty when the username
    is not.  When the file name holds no line break, which is so when
    neither the names nor the username hold one, the answer is the card
    of the first profile of the user, its lines joined by CR LF, served
    as [text/vcard] for download under that name: the header is the
    text [attachment; filename=...vcf] itself when it fits Latin-1, as
    it does for a file name in ASCII text, and its MIME encoding
    otherwise.  When the file name holds a line break the header is
    refused and the view raises [BadHeaderError]. *)
Theorem vcard_download_outcomes (env : Env) (accounts : Accounts) (username : string) :
  let not_found :=
    render "404.html" [("redirect_url", REDIRECT_URL (settings env))] 404 in
  ((forall u, In u (auth_user accounts) -> User.username u <> username) ->
   vcard_download env accounts username = inr (inl not_found))
  /\ (NoDup (map User.username (auth_user accounts)) ->
      forall user,
        In user (auth_user accounts) -> User.username user = username ->
        ((forall p, In p (linktree_userprofile accounts) ->
                    UserProfile.user p <> Some (User.id user)) ->
         vcard_download env accounts username = inr (inl not_found))
        /\ forall p,
             profile_of accounts user = Some p ->
             let first_name := UserProfile.first_name p in
             let last_name := UserProfile.last_name p in
             let filename := vcard_filename username first_name last_name in
             let disposition :=
               "attachment; filename=" +:+ DQUOTE +:+ filename +:+ ".vcf" +:+ DQUOTE in
             let card := str_join CRLF (vcard_lines user p (companies_of accounts p)) in
             (free_of CR filename -> free_of LF filename ->
              vcard_download env accounts username
              = inr (inr (mkFileResponse card "text/vcard; charset=utf-8"
                            (if latin_1 disposition then Plain disposition
                             else MimeEncoded disposition)))
              /\ (ascii_only filename ->
                  vcard_download env accounts username
                  = inr (inr (mkFileResponse card "text/vcard; charset=utf-8"
                                (Plain disposition)))))
             /\ (~ (free_of CR filename /\ free_of LF filename) ->
                 vcard_download env accounts username = inl BadHeaderError)
             /\ (free_of CR username -> free_of LF username ->
                 free_of CR first_name -> free_of LF first_name ->
                 free_of CR last_name -> free_of LF last_name ->
                 free_of CR filename /\ free_of LF filename)
             /\ (first_name = "" -> last_name = "" -> filename = username)
             /\ (first_name <> "" -> last_name = "" -> free_of "_" first_name ->
                 filename = first_name)
             /\ (first_name = "" -> last_name <> "" -> free_of "_" last_name ->
                 filename = last_name)
             /\ (first_name <> "" -> last_name <> "" ->
                 free_of "_" first_name -> free_of "_" last_name ->
                 filename = first_name +:+ "_" +:+ last_name)
             /\ (username <> "" -> filename <> "")).
Proof.
  intros not_found. split.
  - intros H. unfold vcard_download. rewrite (user_by_name_unknown _ _ H). reflexivity.
  - intros ND user Hin <-. split.
    + intros H. unfold vcard_download. rewrite (user_by_name_unique _ _ ND Hin).
      rewrite (proj2 (profile_of_none accounts user) H). reflexivity.
    + intros p Hp first_name last_name filename disposition card.
      assert (Run : vcard_download env accounts (User.username user)
                    = match header_value disposition with
                      | inl e => inl e
                      | inr value =>
                          inr (inr (mkFileResponse card "text/vcard; charset=utf-8" value))
                      end).
      { unfold vcard_download. rewrite (user_by_name_unique _ _ ND Hin), Hp.
        reflexivity. }
      unfold header_value in Run. unfold disposition in Run at 1 2.
      rewrite disposition_test in Run. fold disposition in Run.
      split; [|split; [|split]].
      * unfold free_of. intros C L. rewrite Run, C, L. cbn [orb]. split.
        -- destruct (latin_1 disposition); reflexivity.
        -- intros A. unfold disposition.
           rewrite (ascii_is_latin_1 _ (disposition_ascii _ A)). reflexivity.
      * unfold free_of. intros N. rewrite Run.
        destruct (Py.char_in CR filename), (Py.char_in LF filename); try reflexivity.
        exfalso. apply N. auto.
      * intros U1 U2 F1 F2 L1 L2.
        split; apply filename_free; try assumption; discriminate.
      * unfold filename, vcard_filename.
        split; [|split; [|split; [|split]]].
        -- intros -> ->. reflexivity.
        -- intros F -> Ff. rewrite (filename_of_first _ F Ff).
           apply nonempty_true in F. rewrite F. reflexivity.
        -- intros -> L Fl. rewrite (filename_of_last _ Fl).
           apply nonempty_true in L. rewrite L. reflexivity.
        -- intros F L Ff Fl. rewrite (filename_of_both _ _ F L Ff Fl).
           destruct first_name; [congruence | reflexivity].
        -- intros U. destruct (nonempty (strip_char "_" _)) eqn:E; [|exact U].
           apply nonempty_true, E.
Qed.

Lemma vcard_download_outcomes_witness :
  vcard_download Bench.env0 Tree.accounts "bob"
  = inr (inl (render "404.html"
                [("redirect_url", REDIRECT_URL (settings Bench.env0))] 404))
  /\ vcard_download Bench.env0 Tree.accounts "ada"
     = inr (inr (mkFileResponse
                   (str_join CRLF
                      (vcard_lines Tree.ada Tree.profile
                         (companies_of Tree.accounts Tree.profile)))
                   "text/vcard; charset=utf-8"
                   (Plain ("attachment; filename=" +:+ DQUOTE +:+ "Lovelace" +:+ ".vcf"
                           +:+ DQUOTE)))).
Proof.
  assert (ND : NoDup (map User.username (auth_user Tree.accounts))).
  { cbn [Tree.accounts auth_user map]. apply NoDup_cons. split.
    - intros X. apply list_elem_of_In in X. destruct X as [X|[]].
      vm_compute in X. congruence.
    - apply NoDup_cons. split; [intros X; apply list_elem_of_In in X; destruct X
                               | constructor]. }
  split.
  - pose proof (vcard_download_outcomes Bench.env0 Tree.accounts "bob") as H.
    cbv zeta in H. destruct H as [_ H].
    destruct (H ND Tree.bob (or_intror (or_introl eq_refl)) eq_refl) as [K _].
    apply K. intros p Hp. cbn [Tree.accounts linktree_userprofile] in Hp.
    destruct Hp as [<-|[]]. vm_compute. congruence.
  - pose proof (vcard_download_outcomes Bench.env0 Tree.accounts "ada") as H.
    cbv zeta in H. destruct H as [_ H].
    destruct (H ND Tree.ada (or_introl eq_refl) eq_refl) as [_ K].
    destruct (K Tree.profile eq_refl) as (E & _).
    destruct E as [_ E]; [reflexivity | reflexivity |].
    apply E. reflexivity.
Defined.


(** ** The dashboard: clicks by city *)

Lemma tally_omap_key {A K} `{EqDecision K} (f : A -> option K) (k : K) (rows : list A) :
  tally id k (omap f rows) = tally f (Some k) rows.
Proof.
  unfold tally, QuerySet.count. f_equal.
  induction rows as [|r rows IH]; [reflexivity|].
  simpl. destruct (f r) as [k'|] eqn:E; simpl.
  - destruct (decide (k' = k)) as [->|N].
    + rewrite !bool_decide_eq_true_2 by reflexivity. simpl. f_equal. exact IH.
    + rewrite !bool_decide_eq_false_2 by (unfold id; congruence). exact IH.
  - try rewrite bool_decide_eq_false_2 by discriminate. exact IH.
Qed.

Lemma top_rows_of_key {A K} `{EqDecision K} (key : A -> option K) (clicks : list A) :
  top_rows key clicks
    (QuerySet.limit 10
       (QuerySet.order_by QuerySet.count_desc
          (QuerySet.values_count id (omap key clicks)))).
Proof.
  unfold top_rows, QuerySet.limit.
  set (groups := QuerySet.values_count id (omap key clicks)).
  set (sorted := QuerySet.order_by QuerySet.count_desc groups).
  pose proof (order_by_perm QuerySet.count_desc groups : Permutation sorted groups) as P.
  pose proof (count_desc_sorted groups : descending sorted) as S.
  assert (ND : NoDup (map fst sorted)).
  { rewrite (Permutation_map fst P). apply values_count_NoDup. }
  assert (G : forall c n, In (c, n) sorted <-> n = tally key (Some c) clicks /\ 0 < n).
  { intros c n. rewrite <- tally_omap_key, <- (values_count_In id (omap key clicks) c n).
    fold groups. split; apply Permutation_in; [exact P | symmetry; exact P]. }
  repeat apply conj.
  - apply firstn_le_length.
  - apply StronglySorted_firstn, S.
  - rewrite <- (firstn_skipn 10 sorted), map_app in ND.
    apply NoDup_app in ND as [ND _]. exact ND.
  - intros c n H. apply G, (In_firstn 10), H.
  - intros c Hc c' n' H.
    pose proof (tally_nonneg key (Some c) clicks) as T0.
    destruct (Z.eq_dec (tally key (Some c) clicks) 0) as [Z0|Z0].
    + apply (In_firstn 10), G in H. lia.
    + assert (Hin : In (c, tally key (Some c) clicks) sorted)
        by (apply G; split; [reflexivity | lia]).
      rewrite <- (firstn_skipn 10 sorted) in Hin. apply in_app_or in Hin as [Hin|Hin].
      * exfalso. apply Hc. apply (in_map fst) in Hin. exact Hin.
      * apply (StronglySorted_split _ 10 sorted (c', n') _ S H Hin).
  - intros L c Hc.
    assert (E : firstn 10 sorted = sorted).
    { apply firstn_all2. rewrite length_firstn in L. lia. }
    rewrite E. change c with (fst (c, tally key (Some c) clicks)).
    apply in_map, G. split; [reflexivity | exact Hc].
Qed.

(** X24.  [clicks_by_city] of the dashboard: the ten most frequent pairs
    of city and country among the clicks of the window whose city is
    known, with their numbers of clicks in descending order.  A click
    without city is in no row; two clicks from one city count together
    only if their countries agree too, a missing country being a value
    of its own. *)
Theorem dashboard_city_rows (start_date : Z) (d : Database) :
  let clicks := in_window UrlStat.created_at start_date (tinyurl_urlstat d) in
  top_rows city_key clicks (dashboard_clicks_by_city start_date d)
  /\ (forall s city country,
        city_key s = Some (city, country)
        <-> UrlStat.city s = Some city /\ UrlStat.country s = country)
  /\ (forall place n,
        In (place, n) (dashboard_clicks_by_city start_date d) ->
        exists s, In s clicks /\ UrlStat.city s = Some (fst place)
                  /\ UrlStat.country s = snd place).
Proof.
  intros clicks.
  assert (K : forall s city country,
            city_key s = Some (city, country)
            <-> UrlStat.city s = Some city /\ UrlStat.country s = country).
  { intros s city country. unfold city_key. destruct (UrlStat.city s) as [c|].
    - split; [intros [= -> ->]; auto | intros [[= ->] ->]; reflexivity].
    - split; [discriminate | intros [X _]; discriminate X]. }
  pose proof (top_rows_of_key city_key clicks) as T.
  split; [exact T|]. split; [exact K|].
  intros [city country] n H. destruct T as (_ & _ & _ & T & _).
  apply T in H as [-> Pos]. unfold tally, QuerySet.count in Pos.
  destruct (List.filter _ clicks) as [|s rest] eqn:E; [cbn in Pos; lia|].
  assert (Hs : In s (List.filter (fun r => bool_decide (city_key r = Some (city, country)))
                       clicks)) by (rewrite E; left; reflexivity).
  apply filter_In in Hs as [Hs B]. apply bool_decide_eq_true in B.
  exists s. split; [exact Hs|]. apply K, B.
Qed.

Lemma dashboard_city_rows_witness :
  dashboard_clicks_by_city 0 Cities.database
  = [(("Paris", Some "FR"), 2); (("Paris", None), 1)]
  /\ exists s,
       In s (in_window UrlStat.created_at 0 (tinyurl_urlstat Cities.database))
       /\ UrlStat.city s = Some "Paris" /\ UrlStat.country s = None.
Proof.
  split; [vm_compute; reflexivity|].
  pose proof (dashboard_city_rows 0 Cities.database) as H. cbv zeta in H.
  destruct H as (_ & _ & H). apply (H ("Paris", None) 1).
  vm_compute. right. left. reflexivity.
Defined.


(** ** Profiles and companies *)

Lemma filter_by_key_unique {A K} `{EqDecision K} (f : A -> option K) (k : K) (l : list A) :
  NoDup (omap f l) ->
  List.filter (fun x => bool_decide (f x = Some k)) l = []
  \/ exists x, List.filter (fun x => bool_decide (f x = Some k)) l = [x].
Proof.
  induction l as [|x l IH]; [left; reflexivity|].
  cbn [omap list_omap List.filter]. intros ND.
  destruct (f x) as [k'|] eqn:E.
  - apply NoDup_cons in ND as [Nk ND].
    destruct (decide (k' = k)) as [->|N].
    + rewrite bool_decide_eq_true_2 by reflexivity. right. exists x. f_equal.
      apply filter_nil_iff. intros y Hy. apply bool_decide_eq_false. intros Ey.
      apply Nk. apply list_elem_of_omap. exists y. split; [apply list_elem_of_In, Hy | exact Ey].
    + rewrite bool_decide_eq_false_2 by congruence. apply IH, ND.
  - rewrite bool_decide_eq_false_2 by discriminate. apply IH, ND.
Qed.

Lemma get_or_create_found (env : Env) (user : User.t) (a : Accounts) (p : UserProfile.t) :
  List.filter (fun p => bool_decide (UserProfile.user p = Some (User.id user)))
    (linktree_userprofile a) = [p] ->
  UserProfile_get_or_create env user a = (inr p, a).
Proof.
  intros H. unfold UserProfile_get_or_create, bind, read_accounts. rewrite H. reflexivity.
Qed.

Lemma get_or_create_outcome (env : Env) (user : User.t) (a : Accounts) :
  one_profile_per_user a ->
  exists profile a',
    UserProfile_get_or_create env user a = (inr profile, a')
    /\ List.filter (fun p => bool_decide (UserProfile.user p = Some (User.id user)))
         (linktree_userprofile a') = [profile]
    /\ auth_user a' = auth_user a
    /\ linktree_company a' = linktree_company a
    /\ linktree_userprofile_companies a' = linktree_userprofile_companies a.
Proof.
  intros U.
  destruct (filter_by_key_unique UserProfile.user (User.id user) _ U) as [E|[p E]].
  - unfold UserProfile_get_or_create, bind, read_accounts, write_accounts, ret.
    rewrite E. eexists. eexists. split; [reflexivity|].
    cbn [linktree_userprofile auth_user linktree_company linktree_userprofile_companies].
    split; [|auto]. rewrite List.filter_app, E. cbn [List.filter app].
    rewrite bool_decide_eq_true_2; [reflexivity|]. reflexivity.
  - exists p, a. split; [apply get_or_create_found, E | auto].
Qed.

Lemma profile_of_single (a : Accounts) (user : User.t) (p : UserProfile.t) :
  List.filter (fun p => bool_decide (UserProfile.user p = Some (User.id user)))
    (linktree_userprofile a) = [p] ->
  profile_of a user = Some p /\ UserProfile.user p = Some (User.id user).
Proof.
  intros H. unfold profile_of. rewrite H. split; [reflexivity|].
  assert (Hin : In p [p]) by (left; reflexivity). rewrite <- H in Hin.
  apply filter_In in Hin as [_ E]. apply bool_decide_eq_true in E. exact E.
Qed.

Lemma find_company_found (a : Accounts) (company : Company.t) :
  NoDup (map Company.id (linktree_company a)) -> In company (linktree_company a) ->
  UserProfileViewSet.find_company (app_linktree.ValidUUID (Company.id company)) a
  = (inr (Some company), a).
Proof.
  intros ND Hin.
  unfold UserProfileViewSet.find_company, try_except, Company_get, bind, read_accounts.
  rewrite (filter_by_id_unique Company.id _ company ND Hin). reflexivity.
Qed.

Lemma find_company_unknown (a : Accounts) (u : UUID) :
  (forall c, In c (linktree_company a) -> Company.id c <> u) ->
  UserProfileViewSet.find_company (app_linktree.ValidUUID u) a = (inr None, a).
Proof.
  intros H.
  unfold UserProfileViewSet.find_company, try_except, Company_get, bind, read_accounts.
  rewrite (proj2 (filter_nil_iff _ _)); [reflexivity|].
  intros c Hc. apply N.eqb_neq, H, Hc.
Qed.

Lemma is_member_app (t : list (UUID * UUID)) (p : UserProfile.t) (c : Company.t) :
  is_member (t ++ [(UserProfile.id p, Company.id c)]) p c = true.
Proof.
  unfold is_member. rewrite existsb_app. cbn [existsb fst snd].
  rewrite !N.eqb_refl. apply orb_true_iff. right. reflexivity.
Qed.

Lemma is_member_removed (t : list (UUID * UUID)) (p : UserProfile.t) (c c' : Company.t) :
  is_member
    (List.filter (fun pc => negb (N.eqb (fst pc) (UserProfile.id p)
                                  && N.eqb (snd pc) (Company.id c))) t) p c'
  = is_member t p c' && negb (N.eqb (Company.id c') (Company.id c)).
Proof.
  unfold is_member. induction t as [|[x y] t IH]; [reflexivity|].
  cbn [List.filter existsb fst snd].
  destruct (N.eqb_spec x (UserProfile.id p)) as [->|Nx];
    destruct (N.eqb_spec y (Company.id c)) as [->|Ny];
    cbn [andb negb existsb fst snd]; rewrite ?IH.
  - destruct (N.eqb_spec (Company.id c) (Company.id c')) as [E|N].
    + rewrite <- E, N.eqb_refl. cbn. rewrite andb_false_r. reflexivity.
    + reflexivity.
  - rewrite N.eqb_refl. cbn [andb].
    destruct (N.eqb_spec y (Company.id c')) as [<-|N]; [|reflexivity].
    cbn [orb andb]. apply N.eqb_neq in Ny. rewrite Ny. reflexivity.
  - apply N.eqb_neq in Nx. rewrite Nx. reflexivity.
  - apply N.eqb_neq in Nx. rewrite Nx. reflexivity.
Qed.

Lemma companies_of_In (a : Accounts) (p : UserProfile.t) (c : Company.t) :
  In c (companies_of a p)
  <-> In c (linktree_company a) /\ is_member (linktree_userprofile_companies a) p c = true.
Proof.
  unfold companies_of.
  pose proof (order_by_perm by_name
                (List.filter (is_member (linktree_userprofile_companies a) p)
                   (linktree_company a))) as P.
  rewrite <- filter_In. split; apply Permutation_in; [exact P | symmetry; exact P].
Qed.

Lemma add_company_run (env : Env) (user : User.t) (a a1 : Accounts)
    (company : Company.t) (profile : UserProfile.t) :
  NoDup (map Company.id (linktree_company a)) -> In company (linktree_company a) ->
  UserProfile_get_or_create env user a = (inr profile, a1) ->
  UserProfileViewSet.add_company env user
    (Some (app_linktree.ValidUUID (Company.id company))) a
  = if is_member (linktree_userprofile_companies a1) profile company
    then (inr (UserProfileViewSet.ProfileResponse profile (companies_of a1 profile)), a1)
    else
      let a2 := mkAccounts (auth_user a1) (linktree_userprofile a1) (linktree_company a1)
                  (linktree_userprofile_companies a1
                   ++ [(UserProfile.id profile, Company.id company)]) in
      (inr (UserProfileViewSet.ProfileResponse profile (companies_of a2 profile)), a2).
Proof.
  intros ND Hin Hg.
  unfold UserProfileViewSet.add_company, truthy_id, bind.
  rewrite (find_company_found a company ND Hin).
  unfold UserProfileViewSet.get_object. rewrite Hg.
  unfold companies_add, UserProfileViewSet.serialized, bind, read_accounts,
    write_accounts, ret.
  destruct (is_member (linktree_userprofile_companies a1) profile company); reflexivity.
Qed.

Lemma remove_company_run (env : Env) (user : User.t) (a a1 : Accounts)
    (company : Company.t) (profile : UserProfile.t) :
  NoDup (map Company.id (linktree_company a)) -> In company (linktree_company a) ->
  UserProfile_get_or_create env user a = (inr profile, a1) ->
  UserProfileViewSet.remove_company env user
    (Some (app_linktree.ValidUUID (Company.id company))) a
  = let a2 := mkAccounts (auth_user a1) (linktree_userprofile a1) (linktree_company a1)
                (List.filter
                   (fun pc => negb (N.eqb (fst pc) (UserProfile.id profile)
                                    && N.eqb (snd pc) (Company.id company)))
                   (linktree_userprofile_companies a1)) in
    (inr (UserProfileViewSet.ProfileResponse profile (companies_of a2 profile)), a2).
Proof.
  intros ND Hin Hg.
  unfold UserProfileViewSet.remove_company, truthy_id, bind.
  rewrite (find_company_found a company ND Hin).
  unfold UserProfileViewSet.get_object. rewrite Hg. reflexivity.
Qed.

(** What one successful [add_company] leaves behind. *)
Lemma add_company_outcome (env : Env) (user : User.t) (a : Accounts) (company : Company.t) :
  NoDup (map Company.id (linktree_company a)) -> one_profile_per_user a ->
  In company (linktree_company a) ->
  exists profile a',
    UserProfileViewSet.add_company env user
      (Some (app_linktree.ValidUUID (Company.id company))) a
    = (inr (UserProfileViewSet.ProfileResponse profile (companies_of a' profile)), a')
    /\ List.filter (fun p => bool_decide (UserProfile.user p = Some (User.id user)))
         (linktree_userprofile a') = [profile]
    /\ is_member (linktree_userprofile_companies a') profile company = true
    /\ auth_user a' = auth_user a
    /\ linktree_company a' = linktree_company a.
Proof.
  intros ND U Hin.
  destruct (get_or_create_outcome env user a U) as (profile & a1 & Hg & F & A1 & C1 & _).
  exists profile. rewrite (add_company_run env user a a1 company profile ND Hin Hg).
  destruct (is_member (linktree_userprofile_companies a1) profile company) eqn:Mem.
  - exists a1. auto.
  - eexists. split; [reflexivity|].
    cbn [linktree_userprofile linktree_userprofile_companies auth_user linktree_company].
    split; [exact F|]. split; [apply is_member_app | auto].
Qed.

(** X25.  Companies of a profile.  [add_company] and [remove_company]
    answer 400 without a usable [company_id] and 404 for the id of no
    company, and leave every table as it was (no profile is created on
    the way); a non-empty id that is no UUID is not answered at all: the
    lookup raises a validation error that nothing catches.  For a stored
    company, with unique keys, adding answers with the profile of the
    user (created when there was none) and its companies, the company
    among them; this is the list [CompanyViewSet] shows under
    [mine=true].  Adding once more changes nothing, and removing
    afterwards takes out that company and no other. *)
Theorem company_membership (env : Env) (user : User.t) (a : Accounts) :
  (forall company_id,
     truthy_id company_id = None ->
     UserProfileViewSet.add_company env user company_id a
     = (inr (UserProfileViewSet.ErrorResponse "company_id is required" 400), a)
     /\ UserProfileViewSet.remove_company env user company_id a
        = (inr (UserProfileViewSet.ErrorResponse "company_id is required" 400), a))
  /\ (forall raw,
        raw <> "" ->
        UserProfileViewSet.add_company env user (Some (app_linktree.InvalidUUID raw)) a
        = (inl DjangoValidationError, a)
        /\ UserProfileViewSet.remove_company env user
             (Some (app_linktree.InvalidUUID raw)) a
           = (inl DjangoValidationError, a))
  /\ (forall u,
        (forall c, In c (linktree_company a) -> Company.id c <> u) ->
        UserProfileViewSet.add_company env user (Some (app_linktree.ValidUUID u)) a
        = (inr (UserProfileViewSet.ErrorResponse "Company not found" 404), a)
        /\ UserProfileViewSet.remove_company env user (Some (app_linktree.ValidUUID u)) a
           = (inr (UserProfileViewSet.ErrorResponse "Company not found" 404), a))
  /\ (NoDup (map Company.id (linktree_company a)) ->
      one_profile_per_user a ->
      forall company,
        In company (linktree_company a) ->
        let company_id := Some (app_linktree.ValidUUID (Company.id company)) in
        exists profile companies a',
          UserProfileViewSet.add_company env user company_id a
          = (inr (UserProfileViewSet.ProfileResponse profile companies), a')
          /\ UserProfile.user profile = Some (User.id user)
          /\ profile_of a' user = Some profile
          /\ In company companies
          /\ (forall request,
                eq_ignore_case (QueryDict_get_str (GET request) "mine") "true" ->
                CompanyViewSet.get_queryset user request a' = companies)
          /\ auth_user a' = auth_user a
          /\ linktree_company a' = linktree_company a
          /\ UserProfileViewSet.add_company env user company_id a'
             = (inr (UserProfileViewSet.ProfileResponse profile companies), a')
          /\ exists companies' a'',
               UserProfileViewSet.remove_company env user company_id a'
               = (inr (UserProfileViewSet.ProfileResponse profile companies'), a'')
               /\ (forall c, In c companies'
                             <-> In c companies /\ Company.id c <> Company.id company)
               /\ linktree_userprofile a'' = linktree_userprofile a'
               /\ linktree_company a'' = linktree_company a).
Proof.
  split; [|split; [|split]].
  - intros company_id H.
    unfold UserProfileViewSet.add_company, UserProfileViewSet.remove_company.
    rewrite H. split; reflexivity.
  - intros raw H. apply nonempty_true in H.
    unfold UserProfileViewSet.add_company, UserProfileViewSet.remove_company, truthy_id.
    rewrite H. split; reflexivity.
  - intros u H.
    unfold UserProfileViewSet.add_company, UserProfileViewSet.remove_company, truthy_id,
      bind.
    rewrite (find_company_unknown a u H). split; reflexivity.
  - intros ND U company Hin company_id.
    destruct (add_company_outcome env user a company ND U Hin)
      as (profile & a' & Run & F & Mem & A' & C').
    destruct (profile_of_single a' user profile F) as [Pof Pu].
    assert (ND' : NoDup (map Company.id (linktree_company a'))) by (rewrite C'; exact ND).
    assert (Hin' : In company (linktree_company a')) by (rewrite C'; exact Hin).
    pose proof (get_or_create_found env user a' profile F) as Hg.
    exists profile, (companies_of a' profile), a'.
    split; [exact Run|]. split; [exact Pu|]. split; [exact Pof|].
    split; [apply companies_of_In; split; assumption|].
    split.
    { intros request E. unfold CompanyViewSet.get_queryset.
      unfold eq_ignore_case in E. change (Py.lower "true") with "true" in E.
      rewrite E, String.eqb_refl, Pof. reflexivity. }
    split; [exact A'|]. split; [exact C'|]. split.
    { unfold company_id.
      rewrite (add_company_run env user a' a' company profile ND' Hin' Hg), Mem.
      reflexivity. }
    eexists. eexists. split.
    { unfold company_id.
      rewrite (remove_company_run env user a' a' company profile ND' Hin' Hg).
      reflexivity. }
    cbn [linktree_userprofile linktree_company].
    split; [|split; [reflexivity | exact C']].
    intros c. rewrite !companies_of_In.
    cbn [linktree_company linktree_userprofile_companies].
    rewrite is_member_removed, andb_true_iff, negb_true_iff, N.eqb_neq. tauto.
Qed.

Lemma company_membership_witness :
  exists profile companies a',
    UserProfileViewSet.add_company Bench.env0 Tree.bob
      (Some (app_linktree.ValidUUID 31%N)) Tree.accounts
    = (inr (UserProfileViewSet.ProfileResponse profile companies), a')
    /\ UserProfile.user profile = Some 2
    /\ In Tree.engines companies
    /\ CompanyViewSet.get_queryset Tree.bob Tree.mine a' = companies
    /\ UserProfileViewSet.add_company Bench.env0 Tree.bob None Tree.accounts
       = (inr (UserProfileViewSet.ErrorResponse "company_id is required" 400),
          Tree.accounts).
Proof.
  pose proof (company_membership Bench.env0 Tree.bob Tree.accounts) as (H0 & _ & _ & H).
  assert (ND : NoDup (map Company.id (linktree_company Tree.accounts))).
  { cbn [Tree.accounts linktree_company map]. apply NoDup_cons. split; [|constructor].
    intros X. apply list_elem_of_In in X. destruct X. }
  assert (U : one_profile_per_user Tree.accounts).
  { unfold one_profile_per_user. cbn. apply NoDup_cons. split; [|constructor].
    intros X. apply list_elem_of_In in X. destruct X. }
  destruct (H ND U Tree.engines (or_introl eq_refl))
    as (profile & companies & a' & Run & Pu & _ & Hc & Mine & _).
  exists profile, companies, a'.
  split; [exact Run|]. split; [exact Pu|]. split; [exact Hc|].
  split; [apply Mine; vm_compute; reflexivity|].
  apply (H0 None). reflexivity.
Defined.


(** ** Logging in *)

Lemma get_or_create_cases (env : Env) (user : User.t) (a : Accounts) :
  one_profile_per_user a ->
  (profile_of a user = None
   /\ exists profile,
        UserProfile_get_or_create env user a
        = (inr profile,
           mkAccounts (auth_user a) (linktree_userprofile a ++ [profile])
             (linktree_company a) (linktree_userprofile_companies a))
        /\ UserProfile.first_name profile = User.first_name user
        /\ UserProfile.last_name profile = User.last_name user
        /\ UserProfile.email profile = User.email user
        /\ UserProfile.phone profile = "")
  \/ (exists profile,
        profile_of a user = Some profile
        /\ UserProfile_get_or_create env user a = (inr profile, a)).
Proof.
  intros U.
  destruct (filter_by_key_unique UserProfile.user (User.id user) _ U) as [E|[p E]].
  - left. split; [unfold profile_of; rewrite E; reflexivity|].
    unfold UserProfile_get_or_create, bind, read_accounts, write_accounts, ret.
    rewrite E. eexists. split; [reflexivity|].
    destruct user as [i n f l e]. cbn. destruct f, l, e; auto.
  - right. exists p. split; [apply profile_of_single, E | apply get_or_create_found, E].
Qed.

(** X26.  Logging in.  Without a username or without a password the
    answer is 400, with credentials the backends refuse it is 401, and
    in both cases nothing changes: nobody is logged in and no profile is
    created.  With good credentials the session is that of the user and
    the answer carries the profile of the user: the stored one, or a new
    one whose names and address are those of the user.  [me_view] then
    shows the same profile and changes nothing. *)
Theorem login_outcomes (backend : auth_views.Backend) (env : Env)
    (site : auth_views.Site) (username password : option string) :
  (username = None \/ username = Some "" \/ password = None \/ password = Some "" ->
   auth_views.login_view backend env username password site
   = (inr (auth_views.AuthError "Username and password are required" 400), site))
  /\ (forall u p,
        username = Some u -> password = Some p -> u <> "" -> p <> "" ->
        auth_views.authenticate backend u p = None ->
        auth_views.login_view backend env username password site
        = (inr (auth_views.AuthError "Invalid credentials" 401), site))
  /\ (forall u p user,
        username = Some u -> password = Some p -> u <> "" -> p <> "" ->
        auth_views.authenticate backend u p = Some user ->
        one_profile_per_user (auth_views.accounts site) ->
        exists profile site',
          auth_views.login_view backend env username password site
          = (inr (auth_views.AuthData (Some "Login successful")
                    (auth_views.user_info user) profile
                    (companies_of (auth_views.accounts site') profile)
                    (auth_views.get_token backend)),
             site')
          /\ auth_views.session_user site' = Some (User.id user)
          /\ profile_of (auth_views.accounts site') user = Some profile
          /\ UserProfile.user profile = Some (User.id user)
          /\ (profile_of (auth_views.accounts site) user = None ->
              UserProfile.first_name profile = User.first_name user
              /\ UserProfile.last_name profile = User.last_name user
              /\ UserProfile.email profile = User.email user
              /\ UserProfile.phone profile = ""
              /\ linktree_userprofile (auth_views.accounts site')
                 = (linktree_userprofile (auth_views.accounts site) ++ [profile])%list)
          /\ (forall stored,
                profile_of (auth_views.accounts site) user = Some stored ->
                profile = stored
                /\ auth_views.accounts site' = auth_views.accounts site)
          /\ auth_views.me_view backend env user site'
             = (inr (auth_views.AuthData None (auth_views.user_info user) profile
                       (companies_of (auth_views.accounts site') profile)
                       (auth_views.get_token backend)),
                site')).
Proof.
  split; [|split].
  - intros H. unfold auth_views.login_view.
    destruct H as [-> |[-> |[-> | ->]]];
      try change (default "" (@None string)) with "";
      try change (default "" (Some "")) with "";
      cbn [nonempty negb orb]; rewrite ?orb_true_r; reflexivity.
  - intros u p -> -> Hu Hp A. unfold auth_views.login_view.
    change (default "" (Some u)) with u. change (default "" (Some p)) with p.
    apply nonempty_true in Hu, Hp. rewrite Hu, Hp, A. reflexivity.
  - intros u p user -> -> Hu Hp A U. unfold auth_views.login_view.
    change (default "" (Some u)) with u. change (default "" (Some p)) with p.
    apply nonempty_true in Hu, Hp. rewrite Hu, Hp, A. cbn [negb orb].
    destruct site as [a s]. cbn [auth_views.accounts] in U |- *.
    assert (Me : forall a' s' profile,
              List.filter (fun p => bool_decide (UserProfile.user p = Some (User.id user)))
                (linktree_userprofile a') = [profile] ->
              auth_views.me_view backend env user (auth_views.mkSite a' s')
              = (inr (auth_views.AuthData None (auth_views.user_info user) profile
                        (companies_of a' profile) (auth_views.get_token backend)),
                 auth_views.mkSite a' s')).
    { intros a' s' profile F.
      unfold auth_views.me_view, auth_views.profile_data, auth_views.on_accounts, bind.
      cbn [auth_views.accounts auth_views.session_user].
      rewrite (get_or_create_found env user a' profile F). reflexivity. }
    destruct (get_or_create_outcome env user a U) as (profile & a' & Run & F & _).
    destruct (profile_of_single a' user profile F) as [Pof Pu].
    exists profile, (auth_views.mkSite a' (Some (User.id user))).
    cbn [auth_views.accounts auth_views.session_user].
    split.
    { unfold auth_views.login, auth_views.profile_data, auth_views.on_accounts, bind,
        read_accounts, ret.
      cbn [auth_views.accounts auth_views.session_user]. rewrite Run. reflexivity. }
    split; [reflexivity|]. split; [exact Pof|]. split; [exact Pu|].
    split; [|split; [|apply Me, F]].
    + intros N. destruct (get_or_create_cases env user a U)
        as [(_ & q & Run' & Q)|(q & Pq & _)]; [|congruence].
      rewrite Run in Run'. injection Run' as -> ->.
      cbn [linktree_userprofile]. intuition.
    + intros stored S. destruct (get_or_create_cases env user a U)
        as [(N & _)|(q & Pq & Run')]; [congruence|].
      rewrite Run in Run'. injection Run' as -> ->.
      split; congruence.
Qed.

Lemma login_outcomes_witness :
  auth_views.login_view Tree.backend Bench.env0 (Some "bob") (Some "guess") Tree.site
  = (inr (auth_views.AuthError "Invalid credentials" 401), Tree.site)
  /\ exists profile site',
       auth_views.login_view Tree.backend Bench.env0 (Some "bob") (Some "s3cret") Tree.site
       = (inr (auth_views.AuthData (Some "Login successful")
                 (auth_views.user_info Tree.bob) profile
                 (companies_of (auth_views.accounts site') profile) "token"),
          site')
       /\ auth_views.session_user site' = Some 2
       /\ UserProfile.user profile = Some 2
       /\ linktree_userprofile (auth_views.accounts site') = [Tree.profile; profile].
Proof.
  pose proof (login_outcomes Tree.backend Bench.env0 Tree.site (Some "bob") (Some "guess"))
    as (_ & Bad & _).
  pose proof (login_outcomes Tree.backend Bench.env0 Tree.site (Some "bob") (Some "s3cret"))
    as (_ & _ & Good).
  split.
  - apply (Bad "bob" "guess"); try reflexivity; discriminate.
  - assert (U : one_profile_per_user (auth_views.accounts Tree.site)).
    { unfold one_profile_per_user. cbn. apply NoDup_cons. split; [|constructor].
      intros X. apply list_elem_of_In in X. destruct X. }
    destruct (Good "bob" "s3cret" Tree.bob eq_refl eq_refl) as (profile & site' & H);
      [discriminate | discriminate | reflexivity | exact U |].
    destruct H as (Run & S & _ & Pu & New & _).
    exists profile, site'. split; [exact Run|]. split; [exact S|]. split; [exact Pu|].
    destruct New as (_ & _ & _ & _ & L); [reflexivity | exact L].
Defined.


(** ** The admin column *)







